(** * Shallow embedding of the mmrazor NAS utilities

    Sources embedded here:
    - [mmrazor/models/algorithms/nas/autoformer.py]   (module [Autoformer])
    - [mmrazor/models/mutators/nas_mutator.py]        (module [NasMutator])
    - [mmrazor/models/mutators/channel_mutator/channel_mutator.py]
                                                      (module [ChannelMutator])

    Python objects live in a store and are referred to by identifiers, so
    that two references to one object alias.  Calls into the hosting
    framework (PyTorch, mmengine, the rest of mmrazor) are either events of
    a small free monad, answered by an arbitrary handler, or variables of a
    section. *)

From Stdlib Require Import ZArith Lia.
From stdpp Require Import base list strings gmap pretty.

Set Warnings "-register-all".
Set Default Proof Using "Type".

Local Open Scope string_scope.
Local Open Scope list_scope.

(** ** Python basics: exceptions, results, values *)

Inductive exn_kind :=
| KeyError | IndexError | TypeError | AttributeError | AssertionError
| RuntimeError | NotImplementedError | UnboundLocalError
| FrameworkError.

Record exn := Exn { exn_kind_of : exn_kind; exn_msg : string }.

Inductive result (A : Type) :=
| Ok (a : A)
| Raise (e : exn).
Arguments Ok {A} a.
Arguments Raise {A} e.

Definition rbind {A B} (r : result A) (k : A -> result B) : result B :=
  match r with
  | Ok a => k a
  | Raise e => Raise e
  end.

Declare Scope py_scope.
Delimit Scope py_scope with py.
Notation "x <- c1 ;; c2" := (rbind c1 (fun x => c2))
  (at level 100, c1 at next level, right associativity) : py_scope.

(** An attribute of an instance: Python distinguishes an attribute that was
    never assigned from one that holds [None]. *)
Inductive attr (A : Type) :=
| Unbound
| Bound (a : A).
Arguments Unbound {A}.
Arguments Bound {A} a.

Definition getattr {A} (name : string) (a : attr A) : result A :=
  match a with
  | Bound x => Ok x
  | Unbound => Raise (Exn AttributeError name)
  end.

(** A local variable of a function body: reading it before any assignment
    on the path taken raises [UnboundLocalError]. *)
Definition read_local {A} (name : string) (x : option A) : result A :=
  match x with
  | Some a => Ok a
  | None => Raise (Exn UnboundLocalError name)
  end.

(** Object identifiers (references). *)
Definition oid := nat.

(** Plain Python values, as they occur in configs and arguments. *)
Inductive pyval :=
| PNone
| PBool (b : bool)
| PInt (z : Z)
| PStr (s : string)
| PList (l : list pyval)
| PDict (d : list (string * pyval))
| PObj (cls : string) (o : oid).

(** [bool(v)] *)
Definition truthy (v : pyval) : bool :=
  match v with
  | PNone => false
  | PBool b => b
  | PInt z => negb (z =? 0)%Z
  | PStr s => negb (String.eqb s "")
  | PList l => match l with [] => false | _ => true end
  | PDict d => match d with [] => false | _ => true end
  | PObj _ _ => true
  end.

(** [f'{type(v)}'] *)
Definition type_repr (v : pyval) : string :=
  "<class '" +:+
  match v with
  | PNone => "NoneType"
  | PBool _ => "bool"
  | PInt _ => "int"
  | PStr _ => "str"
  | PList _ => "list"
  | PDict _ => "dict"
  | PObj cls _ => cls
  end +:+ "'>".

(** [isinstance(v, dict)] *)
Definition is_dict (v : pyval) : bool :=
  match v with PDict _ => true | _ => false end.

(** [v == s] for a string literal [s] *)
Definition eq_str (v : pyval) (s : string) : bool :=
  match v with PStr t => String.eqb t s | _ => false end.

(** [pat in s] on strings: substring test. *)
Fixpoint str_contains (pat s : string) : bool :=
  String.prefix pat s ||
  match s with
  | EmptyString => false
  | String _ s' => str_contains pat s'
  end.

(** ** Python dicts: insertion-ordered association lists with unique keys *)

Module PyDict.
Section Dict.
Context {V : Type}.

Definition t := list (string * V).

Fixpoint get (k : string) (d : t) : option V :=
  match d with
  | [] => None
  | (k', v) :: d' => if String.eqb k k' then Some v else get k d'
  end.

(** [k in d] *)
Definition mem (k : string) (d : t) : bool :=
  match get k d with Some _ => true | None => false end.

(** [d[k]] *)
Definition getitem (k : string) (d : t) : result V :=
  match get k d with
  | Some v => Ok v
  | None => Raise (Exn KeyError k)
  end.

(** [d[k] = v]: an existing key keeps its position, a new one goes last. *)
Fixpoint set (k : string) (v : V) (d : t) : t :=
  match d with
  | [] => [(k, v)]
  | (k', v') :: d' =>
      if String.eqb k k' then (k', v) :: d' else (k', v') :: set k v d'
  end.

(** [d.update(e)] *)
Definition update (d e : t) : t :=
  fold_left (fun acc kv => set kv.1 kv.2 acc) e d.

Definition keys (d : t) : list string := map fst d.
End Dict.
Arguments t : clear implicits.
End PyDict.

(** ** Facts about dicts *)

Module PyDictFacts.
Import PyDict.
Section Facts.
Context {V : Type}.
Implicit Types (d e : PyDict.t V) (k : string) (v : V).

Lemma eqb_refl k : String.eqb k k = true.
Proof. by apply String.eqb_eq. Qed.

Lemma eqb_ne k k' : k ≠ k' -> String.eqb k k' = false.
Proof. intros H. by apply String.eqb_neq. Qed.

Lemma get_None k d : get k d = None <-> k ∉ keys d.
Proof.
  induction d as [|[k' v] d IH]; simpl.
  - split; [intros _; apply not_elem_of_nil | done].
  - rewrite not_elem_of_cons. destruct (String.eqb_spec k k') as [->|Hne].
    + split; [done | intros [? _]; done].
    + rewrite IH. tauto.
Qed.

Lemma get_Some_elem k v d : get k d = Some v -> (k, v) ∈ d.
Proof.
  induction d as [|[k' v'] d IH]; simpl; [done|].
  destruct (String.eqb_spec k k') as [->|Hne].
  - intros [= ->]. apply list_elem_of_here.
  - intros H. apply list_elem_of_further. auto.
Qed.

Lemma elem_get k v d : NoDup (keys d) -> (k, v) ∈ d -> get k d = Some v.
Proof.
  induction d as [|[k' v'] d IH]; simpl.
  - intros _ H. by apply elem_of_nil in H.
  - rewrite NoDup_cons. intros [Hk Hd] H.
    apply elem_of_cons in H as [[= -> ->]|H].
    + by rewrite eqb_refl.
    + rewrite eqb_ne; [by apply IH|].
      intros ->. apply Hk. unfold keys. apply list_elem_of_fmap.
      by exists (k', v).
Qed.

Lemma mem_true k d : mem k d = true <-> k ∈ keys d.
Proof.
  unfold mem. destruct (get k d) eqn:E.
  - split; [intros _|done].
    destruct (decide (k ∈ keys d)) as [|Hn]; [done|].
    apply get_None in Hn. congruence.
  - apply get_None in E. split; [done | intros; done].
Qed.

Lemma set_fresh k v d : k ∉ keys d -> set k v d = d ++ [(k, v)].
Proof.
  induction d as [|[k' v'] d IH]; simpl; [done|].
  rewrite not_elem_of_cons. intros [Hne Hd].
  rewrite eqb_ne by done. by rewrite IH.
Qed.

Lemma get_set_eq k v d : get k (set k v d) = Some v.
Proof.
  induction d as [|[k' v'] d IH]; simpl.
  - by rewrite eqb_refl.
  - destruct (String.eqb_spec k k') as [->|Hne]; simpl.
    + by rewrite eqb_refl.
    + by rewrite eqb_ne.
Qed.

Lemma get_set_ne k k' v d : k ≠ k' -> get k' (set k v d) = get k' d.
Proof.
  intros Hne. induction d as [|[k'' v'] d IH]; simpl.
  - rewrite eqb_ne; [done | congruence].
  - destruct (String.eqb_spec k k'') as [->|Hne']; simpl.
    + rewrite eqb_ne; [done | congruence].
    + by rewrite IH.
Qed.

Lemma keys_set k v d :
  keys (set k v d) = if mem k d then keys d else keys d ++ [k].
Proof.
  unfold mem. induction d as [|[k' v'] d IH]; simpl; [done|].
  destruct (String.eqb_spec k k') as [->|Hne]; simpl; [done|].
  rewrite IH. by destruct (get k d).
Qed.

(** [update] with the keys of [e] distinct: [e] wins, [d] is kept
    elsewhere. *)
Lemma get_update k d e :
  NoDup (keys e) ->
  get k (update d e) =
  match get k e with Some v => Some v | None => get k d end.
Proof.
  unfold update. revert d. induction e as [|[k' v'] e IH]; intros d; simpl.
  - done.
  - rewrite NoDup_cons. intros [Hk He]. rewrite IH by done.
    destruct (String.eqb_spec k k') as [->|Hne].
    + apply get_None in Hk. rewrite Hk. apply get_set_eq.
    + destruct (get k e); [done|]. apply get_set_ne. congruence.
Qed.

Lemma NoDup_keys_set k v d : NoDup (keys d) -> NoDup (keys (set k v d)).
Proof.
  intros H. rewrite keys_set. destruct (mem k d) eqn:E; [done|].
  apply NoDup_app. split_and!; [done| |apply NoDup_singleton].
  intros x Hx Hx'. apply list_elem_of_singleton in Hx' as ->.
  apply mem_true in Hx. congruence.
Qed.

Lemma NoDup_keys_update d e : NoDup (keys d) -> NoDup (keys (update d e)).
Proof.
  unfold update. revert d. induction e as [|[k v] e IH]; intros d H; simpl.
  - done.
  - apply IH. by apply NoDup_keys_set.
Qed.

Lemma update_empty e : NoDup (keys e) -> update [] e = e.
Proof.
  intros H. unfold update.
  cut (forall d, NoDup (keys (d ++ e)) ->
                 fold_left (fun acc kv => set kv.1 kv.2 acc) e d = d ++ e).
  { intros C. apply (C []). done. }
  clear H. induction e as [|[k v] e IH]; intros d H; simpl.
  - by rewrite app_nil_r.
  - rewrite set_fresh.
    + rewrite IH; rewrite <- app_assoc; done.
    + unfold keys in H. rewrite fmap_app in H. simpl in H.
      apply NoDup_app in H as (_ & H & _). intros Hin.
      apply (H k Hin). apply list_elem_of_here.
Qed.

(** Two dicts with the same keys in the same order and the same lookups
    are the same dict. *)
Lemma dict_ext d e :
  NoDup (keys d) -> keys d = keys e ->
  (forall k, k ∈ keys d -> get k d = get k e) -> d = e.
Proof.
  revert e. induction d as [|[k v] d IH]; intros [|[k' v'] e]; simpl;
    try done.
  rewrite NoDup_cons. intros [Hk Hd] [= <- Hkeys] Hget.
  pose proof (Hget k (list_elem_of_here _ _)) as H0. simpl in H0.
  rewrite eqb_refl in H0. injection H0 as <-.
  f_equal. apply IH; [done..|].
  intros k0 Hk0. specialize (Hget k0 (list_elem_of_further _ _ _ Hk0)).
  simpl in Hget. rewrite eqb_ne in Hget; [done|]. by intros ->.
Qed.

Lemma update_disjoint d e :
  NoDup (keys d ++ keys e) -> update d e = d ++ e.
Proof.
  unfold update. revert d. induction e as [|[k v] e IH]; intros d H; simpl.
  - by rewrite app_nil_r.
  - assert (Hk : k ∉ keys d).
    { apply NoDup_app in H as (_ & H & _). intros Hin.
      apply (H k Hin). apply list_elem_of_here. }
    rewrite set_fresh by done.
    rewrite IH; [by rewrite <- app_assoc|].
    unfold keys in *. rewrite fmap_app. simpl. by rewrite <- app_assoc.
Qed.

Lemma get_update_notin k d e :
  k ∉ keys e -> get k (update d e) = get k d.
Proof.
  unfold update. revert d. induction e as [|[k' v'] e IH]; intros d; simpl.
  - done.
  - rewrite not_elem_of_cons. intros [Hne He]. rewrite IH by done.
    apply get_set_ne. congruence.
Qed.

Lemma get_app_l k d e : k ∉ keys e -> get k (d ++ e) = get k d.
Proof.
  intros He. induction d as [|[k' v'] d IH]; simpl.
  - by apply get_None.
  - by rewrite IH.
Qed.
End Facts.
End PyDictFacts.

(** [s in v] for a string [s]: substring of a string, element of a list,
    key of a dict; other values are not containers. *)
Definition contains_str (s : string) (v : pyval) : result bool :=
  match v with
  | PStr t => Ok (str_contains s t)
  | PList l => Ok (existsb (fun x => eq_str x s) l)
  | PDict d => Ok (PyDict.mem s d)
  | _ => Raise (Exn TypeError "argument is not iterable")
  end.

(** [v[s]] for a string [s] *)
Definition getitem_str (s : string) (v : pyval) : result pyval :=
  match v with
  | PDict d => PyDict.getitem s d
  | _ => Raise (Exn TypeError "indices must be integers")
  end.

(** ** Programs over framework calls

    A call whose body is not part of the embedded sources is an event [e];
    the program continues with the answer.  [run] interprets the events
    with a handler over a world [W] and records the calls in order, each
    with what it returned or raised. *)

Section Prog.
Variable ext : Type.
Variable ans : ext -> Type.

Inductive prog (R : Type) :=
| Ret (r : R)
| Throw (e : exn)
| Call (c : ext) (k : ans c -> prog R).
Arguments Ret {R} r.
Arguments Throw {R} e.
Arguments Call {R} c k.

Fixpoint pbind {A B} (p : prog A) (f : A -> prog B) : prog B :=
  match p with
  | Ret a => f a
  | Throw e => Throw e
  | Call c k => Call c (fun x => pbind (k x) f)
  end.

Definition call (c : ext) : prog (ans c) := Call c Ret.

Definition lift {A} (r : result A) : prog A :=
  match r with Ok a => Ret a | Raise e => Throw e end.

(** One framework call in the record of a run, with its outcome. *)
Inductive entry :=
| Returned (c : ext) (x : ans c)
| Raised (c : ext) (e : exn).

Definition entry_call (en : entry) : ext :=
  match en with Returned c _ => c | Raised c _ => c end.

Variable W : Type.
Definition handler := forall c : ext, W -> result (ans c * W).

Fixpoint run {R} (h : handler) (p : prog R) (w : W)
  : list entry * result (R * W) :=
  match p with
  | Ret r => ([], Ok (r, w))
  | Throw e => ([], Raise e)
  | Call c k =>
      match h c w with
      | Raise e => ([Raised c e], Raise e)
      | Ok (x, w') => let '(tr, r) := run h (k x) w' in (Returned c x :: tr, r)
      end
  end.

Lemma run_pbind {A B} (h : handler) (p : prog A) (f : A -> prog B) w :
  run h (pbind p f) w =
  match run h p w with
  | (tr, Ok (a, w')) => let '(tr', r) := run h (f a) w' in (tr ++ tr', r)
  | (tr, Raise e) => (tr, Raise e)
  end.
Proof.
  revert w. induction p as [r|e|c k IH]; intros w; simpl.
  - by destruct (run h (f r) w).
  - done.
  - destruct (h c w) as [[x w']|e]; [|done].
    rewrite IH. destruct (run h (k x) w') as [tr [[a w'']|e]]; [|done].
    by destruct (run h (f a) w'').
Qed.
End Prog.
Arguments Ret {ext ans R} r.
Arguments Throw {ext ans R} e.
Arguments Call {ext ans R} c k.
Arguments pbind {ext ans A B} p f.
Arguments call {ext ans} c.
Arguments lift {ext ans A} r.
Arguments Returned {ext ans} c x.
Arguments Raised {ext ans} c e.
Arguments entry_call {ext ans} en.
Arguments run {ext ans W R} h p w.
Arguments run_pbind {ext ans W A B} h p f w.

Declare Scope prog_scope.
Delimit Scope prog_scope with prog.
Notation "x <- c1 ;; c2" := (pbind c1 (fun x => c2))
  (at level 100, c1 at next level, right associativity) : prog_scope.
Notation "c1 ;; c2" := (pbind c1 (fun _ => c2))
  (at level 100, right associativity) : prog_scope.

(** ** [Autoformer]  (algorithms/nas/autoformer.py) *)

Module Autoformer.

(** Calls that leave the class: the base-class constructor, the registry,
    the mutators, [SpaceMixin] and the wrapped architecture. *)
Inductive ext :=
| BaseInit (architecture data_preprocessor init_cfg : pyval)
| LoadFixSubnet (fix_subnet : pyval)
| ModelsBuild (cfg : pyval)
| PrepareFromSupernet (mutator : oid)
| BuildSearchSpace
| SampleSubnet
| SetSubnet (subnet : pyval)
| ArchitectureForward (batch_inputs data_samples : pyval) (mode : string).

Definition ans (c : ext) : Type :=
  match c with
  | ModelsBuild _ => oid
  | SampleSubnet => pyval
  | ArchitectureForward _ _ _ => pyval
  | _ => unit
  end.

(** The attributes the class itself assigns. *)
Record t := Make { mutators : attr (PyDict.t oid); is_supernet : attr bool }.

Local Open Scope py_scope.

(** The guard on one mutator config in the loop of [__init__]:
    [if 'parse_cfg' in mutator_cfg and isinstance(mutator_cfg['parse_cfg'], dict):
         assert mutator_cfg['parse_cfg']['type'] == 'Predefined'] *)
Definition check_parse_cfg (mutator_cfg : pyval) : result unit :=
  has <- contains_str "parse_cfg" mutator_cfg ;;
  if (has : bool) then
    pc <- getitem_str "parse_cfg" mutator_cfg ;;
    if is_dict pc then
      ty <- getitem_str "type" pc ;;
      if eq_str ty "Predefined" then Ok tt
      else Raise (Exn AssertionError "autoformer only support predefined.")
    else Ok tt
  else Ok tt.

Local Close Scope py_scope.
Local Open Scope prog_scope.
Local Abbreviation call c := (@call ext ans c).

(** [for name, mutator_cfg in mutators.items(): ...] *)
Fixpoint build_mutators (items : list (string * pyval))
    (built_mutators : PyDict.t oid) : prog ext ans (PyDict.t oid) :=
  match items with
  | [] => Ret built_mutators
  | (name, mutator_cfg) :: rest =>
      lift (check_parse_cfg mutator_cfg) ;;
      mutator <- call (ModelsBuild mutator_cfg) ;;
      let built_mutators := PyDict.set name mutator built_mutators in
      call (PrepareFromSupernet mutator) ;;
      build_mutators rest built_mutators
  end.

(** [Autoformer.__init__].  The local [mutator] is assigned only inside the
    loop over [mutators.items()]; on the path through the final [else] it
    has no binding when the f-string [f'{type(mutator)}'] is evaluated. *)
Definition __init__
    (architecture mutators fix_subnet data_preprocessor init_cfg : pyval)
  : prog ext ans t :=
  call (BaseInit architecture data_preprocessor init_cfg) ;;
  if truthy fix_subnet then
    call (LoadFixSubnet fix_subnet) ;;
    Ret (Make Unbound (Bound false))
  else
    (match mutators with
     | PNone =>
         Throw (Exn AssertionError
                  "mutator cannot be None when fix_subnet is None.")
     | _ => Ret tt
     end) ;;
    built_mutators <-
      (match mutators with
       | PDict d => build_mutators d []
       | _ =>
           mutator <- lift (read_local "mutator" (None : option pyval)) ;;
           Throw (Exn TypeError
                    ("mutator should be a `dict` but got "
                     +:+ type_repr mutator))
       end) ;;
    call BuildSearchSpace ;;
    Ret (Make (Bound built_mutators) (Bound true)).

(** [Autoformer.loss] *)
Definition loss (self : t) (batch_inputs data_samples : pyval)
  : prog ext ans pyval :=
  sup <- lift (getattr "is_supernet" (is_supernet self)) ;;
  (if (sup : bool) then
     subnet <- call SampleSubnet ;;
     call (SetSubnet subnet)
   else Ret tt) ;;
  call (ArchitectureForward batch_inputs data_samples "loss").

(** A framework in which every call succeeds; the world counts the calls. *)
Definition counting : handler ext ans nat :=
  fun c w =>
    match c return result (ans c * nat) with
    | ModelsBuild _ => Ok (w, S w)
    | SampleSubnet => Ok (PDict [("depth", PInt 12)], S w)
    | ArchitectureForward _ _ _ => Ok (PDict [("loss", PInt 1)], S w)
    | BaseInit _ _ _ | LoadFixSubnet _ | PrepareFromSupernet _
    | BuildSearchSpace | SetSubnet _ => Ok (tt, S w)
    end.

(** What a caller of [__init__] with a well-formed case distinction would
    see for a [mutators] argument [m] that is neither [None] nor a dict. *)
Definition expected_type_error (m : pyval) : exn :=
  Exn TypeError ("mutator should be a `dict` but got " +:+ type_repr m).

(** *** Properties *)

Lemma init_non_dict_mutators architecture mutators fix_subnet dp ic :
  truthy fix_subnet = false ->
  mutators <> PNone ->
  is_dict mutators = false ->
  __init__ architecture mutators fix_subnet dp ic =
  Call (BaseInit architecture dp ic)
       (fun _ => Throw (Exn UnboundLocalError "mutator")).
Proof.
  intros Hf Hn Hd. unfold __init__. simpl. rewrite Hf.
  destruct mutators; simpl in *; congruence.
Qed.

(** C10.  With [fix_subnet=None] and [mutators] a list, the constructor
    does not raise the [TypeError] naming [list]: it stops with
    [UnboundLocalError] on the unassigned local [mutator], right after the
    base-class constructor returned. *)
Theorem init_list_mutators_unbound_local :
  let mutators := PList [PStr "ChannelMutator"] in
  let r := run counting
             (__init__ (PObj "VisionTransformer" 0) mutators PNone PNone PNone)
             0 in
  r = ([Returned (BaseInit (PObj "VisionTransformer" 0) PNone PNone) tt],
       Raise (Exn UnboundLocalError "mutator"))
  /\ r.2 <> Raise (expected_type_error mutators)
  /\ exn_msg (expected_type_error mutators)
     = "mutator should be a `dict` but got <class 'list'>".
Proof. repeat split. discriminate. Qed.

(** C4.  In supernet mode [loss] issues exactly the calls
    [sample_subnet()], [set_subnet(<the sampled subnet>)] and then the
    architecture in mode ['loss'], in this order, and returns what the
    architecture returns; otherwise the architecture call is the only
    call. *)
Theorem loss_samples_then_forwards {W} (h : handler ext ans W)
    (self : t) (batch_inputs data_samples : pyval) (w : W) :
  let fwd := ArchitectureForward batch_inputs data_samples "loss" in
  (is_supernet self = Bound true ->
   run h (loss self batch_inputs data_samples) w =
   match h SampleSubnet w with
   | Raise e => ([Raised SampleSubnet e], Raise e)
   | Ok (subnet, w1) =>
       match h (SetSubnet subnet) w1 with
       | Raise e =>
           ([Returned SampleSubnet subnet; Raised (SetSubnet subnet) e],
            Raise e)
       | Ok (u, w2) =>
           match h fwd w2 with
           | Ok (losses, w3) =>
               ([Returned SampleSubnet subnet; Returned (SetSubnet subnet) u;
                 Returned fwd losses], Ok (losses, w3))
           | Raise e =>
               ([Returned SampleSubnet subnet; Returned (SetSubnet subnet) u;
                 Raised fwd e], Raise e)
           end
       end
   end)
  /\
  (is_supernet self = Bound false ->
   run h (loss self batch_inputs data_samples) w =
   match h fwd w with
   | Ok (losses, w1) => ([Returned fwd losses], Ok (losses, w1))
   | Raise e => ([Raised fwd e], Raise e)
   end).
Proof.
  intros fwd. unfold loss. split; intros ->; simpl.
  - destruct (h SampleSubnet w) as [[subnet w1]|e]; [|done].
    destruct (h (SetSubnet subnet) w1) as [[u w2]|e]; [|done].
    fold fwd. by destruct (h fwd w2) as [[losses w3]|e].
  - fold fwd. by destruct (h fwd w) as [[losses w1]|e].
Qed.

Lemma loss_samples_then_forwards_witness :
  run counting (loss (Make Unbound (Bound true)) (PInt 7) PNone) 0 =
  ([Returned SampleSubnet (PDict [("depth", PInt 12)]);
    Returned (SetSubnet (PDict [("depth", PInt 12)])) tt;
    Returned (ArchitectureForward (PInt 7) PNone "loss")
             (PDict [("loss", PInt 1)])],
   Ok (PDict [("loss", PInt 1)], 3))
  /\
  run counting (loss (Make Unbound (Bound false)) (PInt 7) PNone) 0 =
  ([Returned (ArchitectureForward (PInt 7) PNone "loss")
             (PDict [("loss", PInt 1)])],
   Ok (PDict [("loss", PInt 1)], 1)).
Proof.
  split.
  - exact (proj1 (loss_samples_then_forwards counting
                    (Make Unbound (Bound true)) (PInt 7) PNone 0) eq_refl).
  - exact (proj2 (loss_samples_then_forwards counting
                    (Make Unbound (Bound false)) (PInt 7) PNone 0) eq_refl).
Defined.

(** *** Further properties of the constructor *)

(** With a truthy [fix_subnet] the constructor calls the base constructor
    and [load_fix_subnet] and nothing else; [mutators] is not looked at, so
    neither [None] nor a non-dict raises, and [is_supernet] ends false. *)
Theorem init_fix_subnet_ignores_mutators {W} (h : handler ext ans W)
    (architecture mutators fix_subnet dp ic : pyval) (w : W) :
  truthy fix_subnet = true ->
  run h (__init__ architecture mutators fix_subnet dp ic) w =
  match h (BaseInit architecture dp ic) w with
  | Raise e => ([Raised (BaseInit architecture dp ic) e], Raise e)
  | Ok (u, w1) =>
      match h (LoadFixSubnet fix_subnet) w1 with
      | Raise e =>
          ([Returned (BaseInit architecture dp ic) u;
            Raised (LoadFixSubnet fix_subnet) e], Raise e)
      | Ok (u', w2) =>
          ([Returned (BaseInit architecture dp ic) u;
            Returned (LoadFixSubnet fix_subnet) u'],
           Ok (Make Unbound (Bound false), w2))
      end
  end.
Proof.
  intros Hf. unfold __init__. simpl. rewrite Hf.
  destruct (h (BaseInit architecture dp ic) w) as [[u w1]|e]; [|done].
  simpl. by destruct (h (LoadFixSubnet fix_subnet) w1) as [[u' w2]|e].
Qed.

Lemma init_fix_subnet_ignores_mutators_witness :
  run counting
    (__init__ (PObj "VisionTransformer" 0) (PList []) (PStr "subnet.yaml")
              PNone PNone) 0
  = ([Returned (BaseInit (PObj "VisionTransformer" 0) PNone PNone) tt;
      Returned (LoadFixSubnet (PStr "subnet.yaml")) tt],
     Ok (Make Unbound (Bound false), 2)).
Proof.
  apply (init_fix_subnet_ignores_mutators counting (PObj "VisionTransformer" 0)
           (PList []) (PStr "subnet.yaml") PNone PNone 0).
  reflexivity.
Defined.

(** Without a fixed subnet, [mutators=None] stops the constructor at the
    assertion, right after the base constructor. *)
Theorem init_none_mutators_asserts {W} (h : handler ext ans W)
    (architecture fix_subnet dp ic : pyval) (w w1 : W) (u : unit) :
  truthy fix_subnet = false ->
  h (BaseInit architecture dp ic) w = Ok (u, w1) ->
  run h (__init__ architecture PNone fix_subnet dp ic) w =
  ([Returned (BaseInit architecture dp ic) u],
   Raise (Exn AssertionError
            "mutator cannot be None when fix_subnet is None.")).
Proof.
  intros Hf Hb. unfold __init__. simpl. by rewrite Hf, Hb.
Qed.

Lemma init_none_mutators_asserts_witness :
  run counting (__init__ (PObj "VisionTransformer" 0) PNone (PDict []) PNone
                         PNone) 0 =
  ([Returned (BaseInit (PObj "VisionTransformer" 0) PNone PNone) tt],
   Raise (Exn AssertionError
            "mutator cannot be None when fix_subnet is None.")).
Proof.
  apply (init_none_mutators_asserts counting (PObj "VisionTransformer" 0)
           (PDict []) PNone PNone 0 1 tt); reflexivity.
Defined.

(** Which mutator configs (dicts) pass the guard of the loop: those without
    a ['parse_cfg'] entry, those whose ['parse_cfg'] is not a dict, and
    those whose dict ['parse_cfg'] has the type ['Predefined']. *)
Theorem check_parse_cfg_passes (d : list (string * pyval)) :
  check_parse_cfg (PDict d) = Ok tt <->
  match PyDict.get "parse_cfg" d with
  | None => True
  | Some (PDict pc) =>
      exists ty, PyDict.get "type" pc = Some ty /\ eq_str ty "Predefined" = true
  | Some _ => True
  end.
Proof.
  unfold check_parse_cfg. cbn [contains_str rbind getitem_str].
  unfold PyDict.mem, PyDict.getitem.
  destruct (PyDict.get "parse_cfg" d) as [pc|]; [|done]. cbn [rbind].
  destruct pc as [| | | | |pc|]; cbn [is_dict getitem_str]; try done.
  unfold PyDict.getitem. destruct (PyDict.get "type" pc) as [ty|]; cbn [rbind].
  - destruct (eq_str ty "Predefined") eqn:E.
    + split; [intros _; by exists ty | done].
    + split; [done | intros (ty' & [= <-] & Ht); congruence].
  - split; [done | intros (ty' & ? & _); done].
Qed.

(** A dict [parse_cfg] without ['type'] makes the guard raise [KeyError],
    and one of another type the [AssertionError]. *)
Theorem check_parse_cfg_fails (d pc : list (string * pyval)) :
  PyDict.get "parse_cfg" d = Some (PDict pc) ->
  (PyDict.get "type" pc = None ->
   check_parse_cfg (PDict d) = Raise (Exn KeyError "type"))
  /\ (forall ty, PyDict.get "type" pc = Some ty ->
        eq_str ty "Predefined" = false ->
        check_parse_cfg (PDict d)
        = Raise (Exn AssertionError "autoformer only support predefined.")).
Proof.
  intros Hd. unfold check_parse_cfg. cbn [contains_str rbind getitem_str].
  unfold PyDict.mem, PyDict.getitem. rewrite Hd. cbn [rbind is_dict getitem_str].
  unfold PyDict.getitem. split.
  - by intros ->.
  - intros ty -> Hty. cbn [rbind]. by rewrite Hty.
Qed.

Lemma check_parse_cfg_fails_witness :
  check_parse_cfg
    (PDict [("type", PStr "ChannelMutator");
            ("parse_cfg", PDict [("type", PStr "ChannelAnalyzer")])])
  = Raise (Exn AssertionError "autoformer only support predefined.").
Proof.
  apply (proj2 (check_parse_cfg_fails
                  [("type", PStr "ChannelMutator");
                   ("parse_cfg", PDict [("type", PStr "ChannelAnalyzer")])]
                  [("type", PStr "ChannelAnalyzer")] eq_refl)
           (PStr "ChannelAnalyzer")); reflexivity.
Defined.

(** The mutators built, given the answers of [MODELS.build]. *)
Definition built_from (items : list (string * pyval)) (ms : list oid)
    (built : PyDict.t oid) : PyDict.t oid :=
  fold_left (fun b im => PyDict.set (im.1.1 : string) im.2 b) (zip items ms) built.

Lemma run_build_mutators {W} (h : handler ext ans W) items built w tr built' w' :
  run h (build_mutators items built) w = (tr, Ok (built', w')) ->
  exists ms,
    length ms = length items
    /\ Forall (fun it => check_parse_cfg it.2 = Ok tt) items
    /\ tr = concat (zip_with (fun (it : string * pyval) m =>
                      [@Returned ext ans (ModelsBuild it.2) m;
                       @Returned ext ans (PrepareFromSupernet m) tt])
                    items ms)
    /\ built' = built_from items ms built.
Proof.
  revert built w tr. induction items as [|[name cfg] rest IH];
    intros built w tr; cbn [build_mutators].
  - simpl. intros [= <- <- <-]. exists []. split_and!; done.
  - destruct (check_parse_cfg cfg) as [[]|e] eqn:Ec; simpl; [|done].
    destruct (h (ModelsBuild cfg) w) as [[m w1]|e]; [|done]. simpl.
    destruct (h (PrepareFromSupernet m) w1) as [[[] w2]|e]; [|done].
    destruct (run h (build_mutators rest _) w2) as [tr1 r1] eqn:E.
    intros [= <- ->]. destruct (IH _ _ _ E) as (ms & Hlen & HF & -> & ->).
    exists (m :: ms). split_and!; [simpl; by rewrite Hlen| |done|done].
    by constructor.
Qed.

(** A constructor call without a fixed subnet that returns has passed the
    guard for every mutator config, has built and prepared the mutators one
    after the other in the order of the dict, has then built the search
    space, and is in supernet mode. *)
Theorem init_builds_every_mutator {W} (h : handler ext ans W)
    (architecture fix_subnet dp ic : pyval) (d : list (string * pyval))
    (w w' : W) tr (self : t) :
  truthy fix_subnet = false ->
  run h (__init__ architecture (PDict d) fix_subnet dp ic) w
  = (tr, Ok (self, w')) ->
  exists ms,
    length ms = length d
    /\ Forall (fun it => check_parse_cfg it.2 = Ok tt) d
    /\ map entry_call tr
       = BaseInit architecture dp ic
         :: concat (zip_with (fun (it : string * pyval) m =>
                      [ModelsBuild it.2; PrepareFromSupernet m]) d ms)
         ++ [BuildSearchSpace]
    /\ mutators self = Bound (built_from d ms [])
    /\ is_supernet self = Bound true.
Proof.
  intros Hf. unfold __init__. simpl. rewrite Hf.
  destruct (h (BaseInit architecture dp ic) w) as [[u w1]|e]; [|done].
  simpl. rewrite run_pbind.
  destruct (run h (build_mutators d []) w1) as [tr1 [[built w2]|e]] eqn:E;
    [|done].
  destruct (run_build_mutators h _ _ _ _ _ _ E) as (ms & Hlen & HF & -> & ->).
  simpl. destruct (h BuildSearchSpace w2) as [[[] w3]|e]; [|done].
  intros [= <- <- <-]. exists ms. split_and!; [done..| |done|done].
  simpl. f_equal. rewrite map_app. simpl. f_equal.
  clear. revert ms. induction d as [|it d IH]; intros [|m ms]; simpl; try done.
  by rewrite IH.
Qed.

Definition ex_mutators : list (string * pyval) :=
  [("channel_mutator",
    PDict [("type", PStr "ChannelMutator");
           ("parse_cfg", PDict [("type", PStr "Predefined")])]);
   ("value_mutator", PDict [("type", PStr "DynamicValueMutator")])].

Lemma init_builds_every_mutator_witness :
  exists ms,
    length ms = length ex_mutators
    /\ Forall (fun it => check_parse_cfg it.2 = Ok tt) ex_mutators
    /\ map entry_call
         (run counting (__init__ (PObj "VisionTransformer" 0)
                                 (PDict ex_mutators) PNone PNone PNone) 0).1
       = BaseInit (PObj "VisionTransformer" 0) PNone PNone
         :: concat (zip_with (fun (it : string * pyval) m =>
                      [ModelsBuild it.2; PrepareFromSupernet m]) ex_mutators ms)
         ++ [BuildSearchSpace]
    /\ mutators (Make (Bound [("channel_mutator", 1); ("value_mutator", 3)])
                      (Bound true))
       = Bound (built_from ex_mutators ms [])
    /\ is_supernet (Make (Bound [("channel_mutator", 1); ("value_mutator", 3)])
                         (Bound true)) = Bound true.
Proof.
  apply (init_builds_every_mutator counting (PObj "VisionTransformer" 0) PNone
           PNone PNone ex_mutators 0 6); reflexivity.
Defined.

End Autoformer.

(** ** [NasMutator]  (mutators/nas_mutator.py) *)

Module NasMutator.

Section Model.
(** Values a mutable can be set to, [nn.Parameter]s, and the state of the
    random generator. *)
Context {choice arch_param rng : Type}.

(** The attributes of the framework objects that the mutator touches:
    channel units ([name], [is_mutable]), mutables ([alias],
    [num_choices], [is_fixed]) and both ([current_choice], [max_choice],
    [min_choice]).  [is_base_mutable] is [isinstance(module, BaseMutable)]
    and [forward_arg] the [arch_param] given to [set_forward_args]. *)
Record obj := Obj {
  name : string;
  is_mutable : bool;
  alias : option string;
  current_choice : choice;
  max_choice : choice;
  min_choice : choice;
  num_choices : nat;
  is_base_mutable : bool;
  is_fixed : bool;
  forward_arg : option arch_param
}.

Definition store := oid -> obj.

Definition with_current_choice (c : choice) (o : obj) : obj :=
  Obj (name o) (is_mutable o) (alias o) c (max_choice o) (min_choice o)
      (num_choices o) (is_base_mutable o) (is_fixed o) (forward_arg o).

Definition with_forward_arg (a : arch_param) (o : obj) : obj :=
  Obj (name o) (is_mutable o) (alias o) (current_choice o) (max_choice o)
      (min_choice o) (num_choices o) (is_base_mutable o) (is_fixed o)
      (Some a).

Definition update (m : oid) (f : obj -> obj) (s : store) : store :=
  fun o => if decide (o = m) then f (s o) else s o.

(** The instance attributes of a [NasMutator].  [_arch_params],
    [units], [_name2unit], [architecture] and [is_supernet] are not
    assigned by [__init__]. *)
Record t := Mutator {
  _custom_groups : list (list string);
  _search_groups : option (PyDict.t (list oid));
  _arch_params : attr (option (PyDict.t arch_param));
  units : attr (list oid);
  _name2unit : attr (gmap string oid);
  architecture : attr (list oid);
  is_supernet : attr bool
}.

(** The interpreter state: the mutator, the objects, the random
    generator, and the record of the [fix_chosen] calls made. *)
Record world := World {
  self : t;
  heap : store;
  gen : rng;
  fix_log : list (oid * choice)
}.

(** Exceptions do not undo assignments: a raising computation still
    returns the world it reached. *)
Definition M (A : Type) := world -> result A * world.

Definition ret {A} (a : A) : M A := fun w => (Ok a, w).
Definition bind {A B} (m : M A) (k : A -> M B) : M B :=
  fun w =>
    match m w with
    | (Ok a, w') => k a w'
    | (Raise e, w') => (Raise e, w')
    end.
Definition liftr {A} (r : result A) : M A := fun w => (r, w).

Local Notation "x <- c1 ;; c2" := (bind c1 (fun x => c2))
  (at level 100, c1 at next level, right associativity).
Local Notation "c1 ;; c2" := (bind c1 (fun _ => c2))
  (at level 100, right associativity).

Fixpoint for_each {A} (l : list A) (body : A -> M unit) : M unit :=
  match l with
  | [] => ret tt
  | x :: l' => body x ;; for_each l' body
  end.

Definition read (o : oid) : M obj := fun w => (Ok (heap w o), w).
Definition modify_heap (f : store -> store) : M unit :=
  fun w => (Ok tt, World (self w) (f (heap w)) (gen w) (fix_log w)).
Definition modify_self (f : t -> t) : M unit :=
  fun w => (Ok tt, World (f (self w)) (heap w) (gen w) (fix_log w)).

(** [l[0]] *)
Definition first {A} (l : list A) : M A :=
  match l with
  | x :: _ => ret x
  | [] => liftr (Raise (Exn IndexError "list index out of range"))
  end.

(** [m.current_choice = c] *)
Definition set_current_choice (m : oid) (c : choice) : M unit :=
  modify_heap (update m (with_current_choice c)).

(** *** Framework calls *)

(** [OneShotMutableChannelUnit.init_from_predefined_model(model)] *)
Variable init_from_predefined_model : oid -> store -> result (list oid) * store.
(** [GroupMixin.build_search_groups(supernet, custom_groups)] *)
Variable build_search_groups :
  oid -> list (list string) -> store -> result (PyDict.t (list oid)).
(** [mutable.sample_choice()] and [mutable.sample_choice(arch_param)] *)
Variable sample_choice : obj -> option arch_param -> rng -> choice * rng.
(** [module.fix_chosen(choice)] *)
Variable fix_chosen : oid -> choice -> store -> store.
(** [nn.Parameter(torch.randn(n) * 1e-3)] *)
Variable randn_param : nat -> rng -> arch_param * rng.
(** [hasattr(nn.ParameterDict(), name)]: the names every module of this
    class carries as attributes (its methods, [training], ...) *)
Variable is_module_attribute : string -> bool.

(** *** The class *)

Definition __init__ (custom_groups : option (list (list string))) : t :=
  let custom_groups :=
    match custom_groups with None => [] | Some g => g end in
  Mutator custom_groups None Unbound Unbound Unbound Unbound Unbound.

Definition set_search_groups (g : option (PyDict.t (list oid))) (m : t) : t :=
  Mutator (_custom_groups m) g (_arch_params m) (units m) (_name2unit m)
          (architecture m) (is_supernet m).
Definition set_arch_params (a : attr (option (PyDict.t arch_param))) (m : t) : t :=
  Mutator (_custom_groups m) (_search_groups m) a (units m) (_name2unit m)
          (architecture m) (is_supernet m).
Definition set_units (u : attr (list oid)) (m : t) : t :=
  Mutator (_custom_groups m) (_search_groups m) (_arch_params m) u
          (_name2unit m) (architecture m) (is_supernet m).
Definition set_name2unit (n : attr (gmap string oid)) (m : t) : t :=
  Mutator (_custom_groups m) (_search_groups m) (_arch_params m) (units m)
          n (architecture m) (is_supernet m).
Definition set_is_supernet (b : attr bool) (m : t) : t :=
  Mutator (_custom_groups m) (_search_groups m) (_arch_params m) (units m)
          (_name2unit m) (architecture m) b.

(** property [search_groups] *)
Definition search_groups : M (PyDict.t (list oid)) :=
  fun w =>
    match _search_groups (self w) with
    | None =>
        (Raise (Exn RuntimeError
           "Call `prepare_from_supernet` first to get the search space."), w)
    | Some g => (Ok g, w)
    end.

(** property [arch_params] *)
Definition arch_params : M (PyDict.t arch_param) :=
  fun w =>
    match _arch_params (self w) with
    | Unbound => (Raise (Exn AttributeError "_arch_params"), w)
    | Bound None =>
        (Raise (Exn RuntimeError
           "Call `prepare_arch_params` first to get the search params."), w)
    | Bound (Some a) => (Ok a, w)
    end.

(** [hasattr(self, 'arch_params')]: only [AttributeError] means "no". *)
Definition hasattr_arch_params : M bool :=
  fun w =>
    match arch_params w with
    | (Ok _, w') => (Ok true, w')
    | (Raise (Exn AttributeError _), w') => (Ok false, w')
    | (Raise e, w') => (Raise e, w')
    end.

(** [for unit in units: unit.current_choice = unit.max_choice;
                        self._name2unit[unit.name] = unit] *)
Definition activate_unit (u : oid) : M unit :=
  o <- read u ;;
  set_current_choice u (max_choice o) ;;
  o <- read u ;;
  n2u <- (fun w => (getattr "_name2unit" (_name2unit (self w)), w)) ;;
  modify_self (set_name2unit (Bound (<[name o := u]> n2u))).

Definition _prepare_from_predefined_model (model : oid) : M (list oid) :=
  modify_self (set_name2unit (Bound ∅)) ;;
  units <- (fun w =>
              let '(r, s) := init_from_predefined_model model (heap w) in
              (r, World (self w) s (gen w) (fix_log w))) ;;
  for_each units activate_unit ;;
  ret units.

(** [for id, unit in enumerate(...): _channel_groups['channel_' + str(id)] = [unit]] *)
Fixpoint channel_groups (id : nat) (mutable_units : list oid)
    (_channel_groups : PyDict.t (list oid)) : PyDict.t (list oid) :=
  match mutable_units with
  | [] => _channel_groups
  | u :: rest =>
      channel_groups (S id) rest
        (PyDict.set ("channel" +:+ "_" +:+ pretty id) [u] _channel_groups)
  end.

(** [self._search_groups.update(d)] *)
Definition update_search_groups (d : PyDict.t (list oid)) : M unit :=
  g <- (fun w => match _search_groups (self w) with
                 | Some g => (Ok g, w)
                 | None => (Raise (Exn AttributeError "update"), w)
                 end) ;;
  modify_self (set_search_groups (Some (PyDict.update g d))).

Definition prepare_from_supernet (supernet : oid) : M unit :=
  modify_self (set_search_groups (Some [])) ;;
  units <- _prepare_from_predefined_model supernet ;;
  modify_self (set_units (Bound units)) ;;
  mutable_units <- (fun w =>
    (Ok (filter (fun u => is_mutable (heap w u) = true) units), w)) ;;
  let _channel_groups := channel_groups 0 mutable_units [] in
  update_search_groups _channel_groups ;;
  custom_groups <- (fun w => (Ok (_custom_groups (self w)), w)) ;;
  _value_groups <- (fun w =>
    (build_search_groups supernet custom_groups (heap w), w)) ;;
  update_search_groups _value_groups.

(** [d[name] = p] on an [nn.ParameterDict].  The parameter is registered
    under [name] as an attribute of the module, and torch refuses with
    [KeyError], in this order, a name with a dot, the empty name, and the
    name of an attribute of the module that is not one of its parameters.
    (The messages stand for torch's, which quote the name.) *)
Definition parameter_dict_setitem (name : string) (p : arch_param)
    (d : PyDict.t arch_param) : result (PyDict.t arch_param) :=
  if str_contains "." name then
    Raise (Exn KeyError "parameter name can't contain '.'")
  else if String.eqb name "" then
    Raise (Exn KeyError "parameter name can't be empty string")
  else if is_module_attribute name && negb (PyDict.mem name d) then
    Raise (Exn KeyError ("attribute '" +:+ name +:+ "' already exists"))
  else Ok (PyDict.set name p d).


(** [prepare_arch_params] with [_modify_supernet_forward] *)
Fixpoint build_arch_params (items : list (string * list oid)) : M unit :=
  match items with
  | [] => ret tt
  | (name, mutables) :: rest =>
      m0 <- first mutables ;;
      o <- read m0 ;;
      p <- (fun w =>
              let '(p, g) := randn_param (num_choices o) (gen w) in
              (Ok p, World (self w) (heap w) g (fix_log w))) ;;
      a <- (fun w => (getattr "_arch_params" (_arch_params (self w)), w)) ;;
      match a with
      | Some a =>
          a' <- liftr (parameter_dict_setitem name p a) ;;
          modify_self (set_arch_params (Bound (Some a')))
      | None =>
          liftr (Raise (Exn TypeError "'NoneType' object does not support item assignment"))
      end ;;
      build_arch_params rest
  end.

Definition _modify_supernet_forward : M unit :=
  g <- search_groups ;;
  for_each g (fun '(name, mutables) =>
    for_each mutables (fun mutable =>
      a <- arch_params ;;
      p <- liftr (PyDict.getitem name a) ;;
      modify_heap (update mutable (with_forward_arg p)))).

Definition prepare_arch_params : M unit :=
  modify_self (set_arch_params (Bound (Some []))) ;;
  g <- search_groups ;;
  build_arch_params g ;;
  _modify_supernet_forward.

(** [mutable.sample_choice(...)] on the object as it is now *)
Definition call_sample_choice (m : oid) (a : option arch_param) : M choice :=
  fun w =>
    let '(c, g) := sample_choice (heap w m) a (gen w) in
    (Ok c, World (self w) (heap w) g (fix_log w)).

(** The loop of [sample_choices] over [self.search_groups.items()] *)
Fixpoint sample_loop (kind : string) (items : list (string * list oid))
    (choices : PyDict.t choice) : M (PyDict.t choice) :=
  match items with
  | [] => ret choices
  | (name, mutables) :: rest =>
      has <- hasattr_arch_params ;;
      c <- (if (has : bool) then
              a <- arch_params ;;
              arch_param <- liftr (PyDict.getitem name a) ;;
              m0 <- first mutables ;;
              call_sample_choice m0 (Some arch_param)
            else if String.eqb kind "max" then
              m0 <- first mutables ;;
              o <- read m0 ;;
              ret (max_choice o)
            else if String.eqb kind "min" then
              m0 <- first mutables ;;
              o <- read m0 ;;
              ret (min_choice o)
            else
              m0 <- first mutables ;;
              call_sample_choice m0 None) ;;
      sample_loop kind rest (PyDict.set name c choices)
  end.

Definition sample_choices (kind : string) : M (PyDict.t choice) :=
  g <- search_groups ;;
  sample_loop kind g [].

(** The loop of [set_choices] *)
Fixpoint set_loop (choices : PyDict.t choice)
    (items : list (string * list oid)) : M unit :=
  match items with
  | [] => ret tt
  | (name, mutables) :: rest =>
      (if negb (PyDict.mem name choices) then
         m0 <- first mutables ;;
         o <- read m0 ;;
         match alias o with
         | Some a =>
             if negb (PyDict.mem a choices) then ret tt
             else
               choice <- liftr (PyDict.getitem a choices) ;;
               for_each mutables (fun mutable =>
                 set_current_choice mutable choice)
         | None => ret tt
         end
       else
         choice <- liftr (PyDict.getitem name choices) ;;
         for_each mutables (fun mutable =>
           set_current_choice mutable choice)) ;;
      set_loop choices rest
  end.

Definition set_choices (choices : PyDict.t choice) : M unit :=
  g <- search_groups ;;
  set_loop choices g.

(** [module.fix_chosen(c)], recorded in [fix_log] *)
Definition call_fix_chosen (module : oid) (c : choice) : M unit :=
  fun w =>
    (Ok tt, World (self w) (fix_chosen module c (heap w)) (gen w)
                  (fix_log w ++ [(module, c)])).

Definition fix_module (module : oid) : M unit :=
  o <- read module ;;
  if is_base_mutable o then
    if negb (is_fixed o) then
      o <- read module ;;
      call_fix_chosen module (current_choice o)
    else ret tt
  else ret tt.

Definition fix_choices : M unit :=
  choices <- sample_choices "random" ;;
  set_choices choices ;;
  modules <- (fun w => (getattr "architecture" (architecture (self w)), w)) ;;
  for_each modules fix_module ;;
  modify_self (set_is_supernet (Bound false)).

(** The three dict-valued properties share their loop. *)
Fixpoint collect (f : obj -> choice) (items : list (string * list oid))
    (acc : PyDict.t choice) : M (PyDict.t choice) :=
  match items with
  | [] => ret acc
  | (name, mutables) :: rest =>
      m0 <- first mutables ;;
      o <- read m0 ;;
      collect f rest (PyDict.set name (f o) acc)
  end.

Definition max_choices : M (PyDict.t choice) :=
  g <- search_groups ;; collect max_choice g [].
Definition min_choices : M (PyDict.t choice) :=
  g <- search_groups ;; collect min_choice g [].
Definition current_choices : M (PyDict.t choice) :=
  g <- search_groups ;; collect current_choice g [].

(** [set_max_choices] and [set_min_choices]: the property is read again
    for every group. *)
Fixpoint set_from (prop : M (PyDict.t choice))
    (items : list (string * list oid)) : M unit :=
  match items with
  | [] => ret tt
  | (name, mutables) :: rest =>
      d <- prop ;;
      choice <- liftr (PyDict.getitem name d) ;;
      for_each mutables (fun mutable => set_current_choice mutable choice) ;;
      set_from prop rest
  end.

Definition set_max_choices : M unit :=
  g <- search_groups ;; set_from max_choices g.
Definition set_min_choices : M unit :=
  g <- search_groups ;; set_from min_choices g.

(** *** Stores and loops *)

Definition with_heap (s : store) (w : world) : world :=
  World (self w) s (gen w) (fix_log w).

(** [for mutable in mutables: mutable.current_choice = c] on the store *)
Definition set_all (ms : list oid) (c : choice) (s : store) : store :=
  fold_left (fun s m => update m (with_current_choice c) s) ms s.

(** Two object states that differ at most in [current_choice]. *)
Definition static_eq (a b : obj) : Prop :=
  with_current_choice (max_choice a) a = with_current_choice (max_choice a) b.

(** One pass over the groups: [pick] decides the choice of a group (or
    that the group is skipped), then every member receives it. *)
Fixpoint assign (pick : string -> list oid -> store -> result (option choice))
    (items : list (string * list oid)) (s : store) : result unit * store :=
  match items with
  | [] => (Ok tt, s)
  | (n, ms) :: rest =>
      match pick n ms s with
      | Raise e => (Raise e, s)
      | Ok None => assign pick rest s
      | Ok (Some c) => assign pick rest (set_all ms c s)
      end
  end.

(** The choice [set_choices] gives to one group. *)
Definition pick_set (choices : PyDict.t choice) (n : string)
    (ms : list oid) (s : store) : result (option choice) :=
  match PyDict.get n choices with
  | Some c => Ok (Some c)
  | None =>
      match ms with
      | [] => Raise (Exn IndexError "list index out of range")
      | m0 :: _ =>
          match alias (s m0) with
          | Some a => Ok (PyDict.get a choices)
          | None => Ok None
          end
      end
  end.

(** The loop of the dict-valued properties on the store. *)
Fixpoint collect_pure (f : obj -> choice) (items : list (string * list oid))
    (acc : PyDict.t choice) (s : store) : result (PyDict.t choice) :=
  match items with
  | [] => Ok acc
  | (n, ms) :: rest =>
      match ms with
      | [] => Raise (Exn IndexError "list index out of range")
      | m0 :: _ => collect_pure f rest (PyDict.set n (f (s m0)) acc) s
      end
  end.

Definition pick_prop (f : obj -> choice) (g : PyDict.t (list oid))
    (n : string) (ms : list oid) (s : store) : result (option choice) :=
  match collect_pure f g [] s with
  | Ok d =>
      match PyDict.get n d with
      | Some c => Ok (Some c)
      | None => Raise (Exn KeyError n)
      end
  | Raise e => Raise e
  end.

(** Search groups as [build_search_groups] and [prepare_from_supernet]
    leave them: distinct keys, no empty group, no object in two places. *)
Definition wf_groups (g : PyDict.t (list oid)) : Prop :=
  NoDup (PyDict.keys g) /\ Forall (fun kv => kv.2 <> []) g
  /\ NoDup (concat (map snd g)).

#[global] Instance wf_groups_dec g : Decision (wf_groups g).
Proof. unfold wf_groups. apply _. Defined.

Lemma world_eta w : World (self w) (heap w) (gen w) (fix_log w) = w.
Proof. by destruct w. Qed.

Lemma static_eq_refl a : static_eq a a.
Proof. done. Qed.

Lemma static_eq_fields a b :
  static_eq a b ->
  name a = name b /\ is_mutable a = is_mutable b /\ alias a = alias b
  /\ max_choice a = max_choice b /\ min_choice a = min_choice b
  /\ num_choices a = num_choices b
  /\ is_base_mutable a = is_base_mutable b /\ is_fixed a = is_fixed b
  /\ forward_arg a = forward_arg b.
Proof.
  unfold static_eq, with_current_choice. intros H.
  injection H as -> -> -> -> -> -> -> -> ->. done.
Qed.

Lemma static_eq_sym a b : static_eq a b -> static_eq b a.
Proof.
  intros H. pose proof (static_eq_fields _ _ H) as (?&?&?&?&?&?&?&?&?).
  unfold static_eq, with_current_choice. by f_equal.
Qed.

Lemma static_eq_trans a b c : static_eq a b -> static_eq b c -> static_eq a c.
Proof.
  intros H1 H2.
  pose proof (static_eq_fields _ _ H1) as (?&?&?&?&?&?&?&?&?).
  pose proof (static_eq_fields _ _ H2) as (?&?&?&?&?&?&?&?&?).
  unfold static_eq, with_current_choice. f_equal; congruence.
Qed.

Lemma static_eq_with c a : static_eq (with_current_choice c a) a.
Proof. done. Qed.

Lemma set_all_lookup ms c s o :
  set_all ms c s o =
  if decide (o ∈ ms) then with_current_choice c (s o) else s o.
Proof.
  unfold set_all. revert s.
  induction ms as [|m ms IH]; intros s; cbn [fold_left].
  - rewrite decide_False; [done | apply not_elem_of_nil].
  - rewrite IH. unfold update.
    destruct (decide (o = m)) as [->|Hne].
    + rewrite (decide_True (P := m ∈ m :: ms)) by apply list_elem_of_here.
      by destruct (decide (m ∈ ms)).
    + destruct (decide (o ∈ ms)) as [Hin|Hnin].
      * rewrite decide_True; [done | by apply list_elem_of_further].
      * rewrite decide_False; [done|].
        rewrite not_elem_of_cons. done.
Qed.

Lemma for_each_set ms c w :
  for_each ms (fun m => set_current_choice m c) w
  = (Ok tt, with_heap (set_all ms c (heap w)) w).
Proof.
  revert w. induction ms as [|m ms IH]; intros w; simpl.
  - unfold ret, with_heap, set_all. simpl. by rewrite world_eta.
  - unfold bind, set_current_choice, modify_heap. rewrite IH. done.
Qed.

Lemma elem_concat (n : string) (ms : list oid) (items : list (string * list oid)) o :
  (n, ms) ∈ items -> o ∈ ms -> o ∈ concat (map snd items).
Proof.
  induction items as [|[n' ms'] items IH]; simpl.
  - intros H. by apply elem_of_nil in H.
  - intros H Ho. apply elem_of_app.
    apply elem_of_cons in H as [[= -> ->]|H]; [by left | right; auto].
Qed.

Lemma assign_spec pick items s :
  (forall n ms s1 s2, (forall o, static_eq (s1 o) (s2 o)) ->
                      pick n ms s1 = pick n ms s2) ->
  (forall n ms, (n, ms) ∈ items -> exists oc, pick n ms s = Ok oc) ->
  NoDup (concat (map snd items)) ->
  exists s',
    assign pick items s = (Ok tt, s')
    /\ (forall o, static_eq (s' o) (s o))
    /\ (forall o, o ∉ concat (map snd items) -> s' o = s o)
    /\ (forall n ms o, (n, ms) ∈ items -> o ∈ ms ->
          s' o = match pick n ms s with
                 | Ok (Some c) => with_current_choice c (s o)
                 | _ => s o
                 end).
Proof.
  intros Hstat. revert s.
  induction items as [|[n ms] rest IH]; intros s Hok Hnd; simpl in Hok, Hnd |- *.
  - exists s. split_and!; try done.
    intros ? ? ? H. by apply elem_of_nil in H.
  - apply NoDup_app in Hnd as (Hms & Hdisj & Hrest).
    destruct (Hok n ms (list_elem_of_here _ _)) as [oc Hoc]. rewrite Hoc.
    set (s1 := match oc with Some c => set_all ms c s | None => s end).
    assert (Hs1 : forall o, static_eq (s1 o) (s o)).
    { intros o. subst s1. destruct oc; [|done].
      rewrite set_all_lookup. by destruct (decide (o ∈ ms)). }
    assert (Hs1' : forall o, o ∉ ms -> s1 o = s o).
    { intros o Ho. subst s1. destruct oc; [|done].
      rewrite set_all_lookup. by rewrite decide_False. }
    destruct (IH s1) as (s' & Hrun & Hst & Hout & Hin); [|done|].
    { intros n' ms' Hin. rewrite (Hstat n' ms' s1 s Hs1).
      apply Hok. by apply list_elem_of_further. }
    exists s'. split_and!.
    + subst s1. by destruct oc.
    + intros o. eapply static_eq_trans; [apply Hst | apply Hs1].
    + intros o Ho. rewrite elem_of_app in Ho.
      rewrite Hout by (intros ?; apply Ho; by right).
      apply Hs1'. intros ?. apply Ho. by left.
    + intros n' ms' o Hmem Ho.
      apply elem_of_cons in Hmem as [[= -> ->]|Hmem].
      * rewrite Hout by (by apply Hdisj). rewrite Hoc. subst s1.
        destruct oc; [|done]. rewrite set_all_lookup. by rewrite decide_True.
      * rewrite (Hin n' ms' o Hmem Ho). rewrite (Hstat n' ms' s1 s Hs1).
        rewrite Hs1'; [done|].
        intros Hms'. apply (Hdisj o Hms'). by eapply elem_concat.
Qed.

Lemma pick_set_static choices n ms s1 s2 :
  (forall o, static_eq (s1 o) (s2 o)) ->
  pick_set choices n ms s1 = pick_set choices n ms s2.
Proof.
  intros H. unfold pick_set. destruct (PyDict.get n choices); [done|].
  destruct ms as [|m0 ?]; [done|].
  pose proof (static_eq_fields _ _ (H m0)) as (_&_&->&_). done.
Qed.

Lemma set_loop_assign choices items w :
  set_loop choices items w =
  let '(r, s') := assign (pick_set choices) items (heap w) in
  (r, with_heap s' w).
Proof.
  revert w.
  induction items as [|[n ms] rest IH]; intros w; cbn [set_loop assign].
  - unfold ret, with_heap. by rewrite world_eta.
  - unfold bind at 1. unfold pick_set, PyDict.mem, PyDict.getitem.
    destruct (PyDict.get n choices) as [c|] eqn:En; cbn [negb].
    + unfold bind at 1, liftr. rewrite for_each_set, IH. done.
    + destruct ms as [|m0 ms]; cbn [first].
      { unfold bind, liftr, with_heap. by rewrite world_eta. }
      unfold bind at 1, ret. unfold bind at 1, read.
      destruct (alias (heap w m0)) as [a|]; [|apply IH].
      destruct (PyDict.get a choices) as [c|]; cbn [negb]; [|apply IH].
      unfold bind at 1, liftr. rewrite for_each_set, IH. done.
Qed.

Lemma collect_collect_pure f items acc w :
  collect f items acc w = (collect_pure f items acc (heap w), w).
Proof.
  revert acc. induction items as [|[n ms] rest IH]; intros acc; simpl.
  - done.
  - destruct ms as [|m0 ms]; simpl; [done|].
    unfold bind, ret, read. apply IH.
Qed.

Lemma collect_pure_static f items acc s1 s2 :
  (forall a b, static_eq a b -> f a = f b) ->
  (forall o, static_eq (s1 o) (s2 o)) ->
  collect_pure f items acc s1 = collect_pure f items acc s2.
Proof.
  intros Hf H. revert acc.
  induction items as [|[n ms] rest IH]; intros acc; simpl; [done|].
  destruct ms as [|m0 ms]; [done|]. rewrite (Hf _ _ (H m0)). apply IH.
Qed.

Lemma set_from_assign f g items w :
  _search_groups (self w) = Some g ->
  set_from (bind search_groups (fun g => collect f g [])) items w =
  let '(r, s') := assign (pick_prop f g) items (heap w) in
  (r, with_heap s' w).
Proof.
  revert w. induction items as [|[n ms] rest IH]; intros w Hg; simpl.
  - unfold ret, with_heap. by rewrite world_eta.
  - unfold bind at 1. unfold bind at 1. unfold search_groups at 1.
    rewrite Hg. rewrite collect_collect_pure. unfold pick_prop.
    destruct (collect_pure f g [] (heap w)) as [d|e]; simpl.
    2:{ unfold with_heap. by rewrite world_eta. }
    unfold bind at 1, liftr, PyDict.getitem.
    destruct (PyDict.get n d) as [c|]; simpl.
    2:{ unfold with_heap. by rewrite world_eta. }
    unfold bind at 1. rewrite for_each_set. rewrite IH by done. done.
Qed.

(** What the dict-valued properties return on well-formed groups. *)
Definition summary (f : obj -> choice) (g : PyDict.t (list oid)) (s : store)
  : PyDict.t choice :=
  map (fun kv => (kv.1, f (s (hd 0 kv.2)))) g.

Lemma keys_summary f g s : PyDict.keys (summary f g s) = PyDict.keys g.
Proof.
  unfold summary, PyDict.keys. rewrite map_map. done.
Qed.

Lemma get_summary f g s n m0 ms :
  NoDup (PyDict.keys g) -> (n, m0 :: ms) ∈ g ->
  PyDict.get n (summary f g s) = Some (f (s m0)).
Proof.
  intros Hnd Hin. apply PyDictFacts.elem_get.
  - by rewrite keys_summary.
  - unfold summary. apply list_elem_of_fmap. by exists (n, m0 :: ms).
Qed.

Lemma collect_pure_wf f g acc s :
  Forall (fun kv => kv.2 <> []) g ->
  NoDup (PyDict.keys acc ++ PyDict.keys g) ->
  collect_pure f g acc s = Ok (acc ++ summary f g s).
Proof.
  revert acc. induction g as [|[n ms] g IH]; intros acc Hne Hnd; simpl.
  - by rewrite app_nil_r.
  - apply Forall_cons in Hne as [Hms Hne]. simpl in Hms.
    destruct ms as [|m0 ms]; [done|]. simpl.
    rewrite PyDictFacts.set_fresh.
    + rewrite IH; [by rewrite <- app_assoc | done |].
      unfold PyDict.keys in Hnd |- *. rewrite fmap_app. simpl.
      by rewrite <- app_assoc.
    + apply NoDup_app in Hnd as (_ & Hd & _). intros Hin.
      apply (Hd n Hin). simpl. apply list_elem_of_here.
Qed.

Lemma wf_first n ms g :
  wf_groups g -> (n, ms) ∈ g -> exists m0 ms', ms = m0 :: ms'.
Proof.
  intros (_ & Hne & _) Hin. rewrite Forall_forall in Hne.
  specialize (Hne _ Hin). simpl in Hne. destruct ms; [done | eauto].
Qed.

Lemma pick_prop_wf f g n m0 ms s :
  wf_groups g -> (n, m0 :: ms) ∈ g ->
  pick_prop f g n (m0 :: ms) s = Ok (Some (f (s m0))).
Proof.
  intros Hwf Hin. pose proof Hwf as (Hk & Hne & _). unfold pick_prop.
  rewrite collect_pure_wf by done. simpl.
  by rewrite (get_summary f g s n m0 ms).
Qed.

Lemma pick_prop_static f g n ms s1 s2 :
  (forall a b, static_eq a b -> f a = f b) ->
  (forall o, static_eq (s1 o) (s2 o)) ->
  pick_prop f g n ms s1 = pick_prop f g n ms s2.
Proof.
  intros Hf H. unfold pick_prop.
  by rewrite (collect_pure_static f g [] s1 s2).
Qed.

Lemma max_choice_static a b : static_eq a b -> max_choice a = max_choice b.
Proof. intros H. by pose proof (static_eq_fields _ _ H) as (_&_&_&->&_). Qed.

Lemma min_choice_static a b : static_eq a b -> min_choice a = min_choice b.
Proof. intros H. by pose proof (static_eq_fields _ _ H) as (_&_&_&_&->&_). Qed.

(** [set_max_choices] and [set_min_choices] on well-formed groups. *)
Lemma set_from_spec f g w :
  (forall a b, static_eq a b -> f a = f b) ->
  _search_groups (self w) = Some g -> wf_groups g ->
  exists s',
    set_from (bind search_groups (fun g => collect f g [])) g w
    = (Ok tt, with_heap s' w)
    /\ (forall o, static_eq (s' o) (heap w o))
    /\ (forall n m0 ms m, (n, m0 :: ms) ∈ g -> m ∈ m0 :: ms ->
          s' m = with_current_choice (f (heap w m0)) (heap w m)).
Proof.
  intros Hf Hg Hwf. rewrite (set_from_assign f g g w Hg).
  destruct (assign_spec (pick_prop f g) g (heap w))
    as (s' & Hrun & Hst & _ & Hin).
  - intros. by apply pick_prop_static.
  - intros n ms Hmem. destruct (wf_first n ms g Hwf Hmem) as (m0 & ms' & ->).
    rewrite pick_prop_wf by done. eauto.
  - apply Hwf.
  - exists s'. rewrite Hrun. split_and!; [done..|].
    intros n m0 ms m Hmem Hm. rewrite (Hin n (m0 :: ms) m Hmem Hm).
    by rewrite pick_prop_wf.
Qed.

Lemma summary_after_set f g s s' :
  wf_groups g ->
  (forall n m0 ms m, (n, m0 :: ms) ∈ g -> m ∈ m0 :: ms ->
     s' m = with_current_choice (f (s m0)) (s m)) ->
  summary current_choice g s' = summary f g s.
Proof.
  intros Hwf H. unfold summary. apply map_ext_in. intros [n ms] Hin.
  apply list_elem_of_In in Hin. simpl.
  destruct (wf_first n ms g Hwf Hin) as (m0 & ms' & ->). simpl.
  rewrite (H n m0 ms' m0 Hin); [done | apply list_elem_of_here].
Qed.

Lemma summary_static f g s s' :
  (forall a b, static_eq a b -> f a = f b) ->
  (forall o, static_eq (s' o) (s o)) ->
  summary f g s' = summary f g s.
Proof.
  intros Hf H. unfold summary. apply map_ext. intros [n ms]. simpl.
  f_equal. apply Hf, H.
Qed.

Lemma property_wf f g w :
  _search_groups (self w) = Some g -> wf_groups g ->
  bind search_groups (fun g => collect f g []) w
  = (Ok (summary f g (heap w)), w).
Proof.
  intros Hg (Hk & Hne & _). unfold bind, search_groups. rewrite Hg.
  rewrite collect_collect_pure, collect_pure_wf; done.
Qed.

(** C7.  On built search groups [set_max_choices()] succeeds, and
    afterwards [current_choices] and [max_choices] are the same dict:
    under every group name, the [max_choice] of the group's first
    mutable, which is also the [current_choice] of every member.
    Likewise for [set_min_choices()] and [min_choices]. *)
Theorem set_max_min_choices_current (w : world) (g : PyDict.t (list oid)) :
  _search_groups (self w) = Some g ->
  wf_groups g ->
  (exists w' d,
      set_max_choices w = (Ok tt, w')
      /\ current_choices w' = (Ok d, w')
      /\ max_choices w' = (Ok d, w')
      /\ PyDict.keys d = PyDict.keys g
      /\ forall n m0 ms, (n, m0 :: ms) ∈ g ->
           PyDict.get n d = Some (max_choice (heap w' m0))
           /\ forall m, m ∈ m0 :: ms ->
                current_choice (heap w' m) = max_choice (heap w' m0))
  /\
  (exists w' d,
      set_min_choices w = (Ok tt, w')
      /\ current_choices w' = (Ok d, w')
      /\ min_choices w' = (Ok d, w')
      /\ PyDict.keys d = PyDict.keys g
      /\ forall n m0 ms, (n, m0 :: ms) ∈ g ->
           PyDict.get n d = Some (min_choice (heap w' m0))
           /\ forall m, m ∈ m0 :: ms ->
                current_choice (heap w' m) = min_choice (heap w' m0)).
Proof.
  intros Hg Hwf.
  assert (Hgen : forall f, (forall a b, static_eq a b -> f a = f b) ->
    exists w' d,
      bind search_groups
        (fun g => set_from (bind search_groups (fun g => collect f g [])) g) w
      = (Ok tt, w')
      /\ current_choices w' = (Ok d, w')
      /\ bind search_groups (fun g => collect f g []) w' = (Ok d, w')
      /\ PyDict.keys d = PyDict.keys g
      /\ forall n m0 ms, (n, m0 :: ms) ∈ g ->
           PyDict.get n d = Some (f (heap w' m0))
           /\ forall m, m ∈ m0 :: ms ->
                current_choice (heap w' m) = f (heap w' m0)).
  { intros f Hf.
    destruct (set_from_spec f g w Hf Hg Hwf) as (s' & Hrun & Hst & Hin).
    exists (with_heap s' w), (summary f g (heap w)).
    assert (Hg' : _search_groups (self (with_heap s' w)) = Some g) by done.
    split_and!.
    - unfold bind at 1, search_groups at 1. by rewrite Hg.
    - unfold current_choices. rewrite (property_wf _ g) by done.
      simpl. by rewrite (summary_after_set f g (heap w) s').
    - rewrite (property_wf _ g) by done.
      simpl. by rewrite (summary_static f g (heap w) s').
    - apply keys_summary.
    - intros n m0 ms Hmem. simpl. split.
      + rewrite (get_summary f g (heap w) n m0 ms); [|apply Hwf|done].
        f_equal. symmetry. apply Hf, Hst.
      + intros m Hm. rewrite (Hin n m0 ms m Hmem Hm). simpl.
        symmetry. apply Hf, Hst. }
  split.
  - apply (Hgen max_choice), max_choice_static.
  - apply (Hgen min_choice), min_choice_static.
Qed.

Lemma set_choices_spec choices g w :
  _search_groups (self w) = Some g -> wf_groups g ->
  exists s',
    set_choices choices w = (Ok tt, with_heap s' w)
    /\ (forall o, static_eq (s' o) (heap w o))
    /\ (forall o, o ∉ concat (map snd g) -> s' o = heap w o)
    /\ (forall n ms o, (n, ms) ∈ g -> o ∈ ms ->
          s' o = match pick_set choices n ms (heap w) with
                 | Ok (Some c) => with_current_choice c (heap w o)
                 | _ => heap w o
                 end).
Proof.
  intros Hg Hwf. unfold set_choices, bind, search_groups. rewrite Hg.
  rewrite set_loop_assign.
  destruct (assign_spec (pick_set choices) g (heap w))
    as (s' & Hrun & Hrest).
  - intros. by apply pick_set_static.
  - intros n ms Hmem. destruct (wf_first n ms g Hwf Hmem) as (m0 & ms' & ->).
    unfold pick_set. destruct (PyDict.get n choices); [eauto|].
    destruct (alias (heap w m0)); eauto.
  - apply Hwf.
  - exists s'. by rewrite Hrun.
Qed.

(** C3.  On built search groups [set_choices(choices)] succeeds.  A group
    whose name is a key of [choices] has every member's [current_choice]
    at that value; a group whose name is no key but whose first
    mutable's alias is, at the alias's value; a group with neither is
    left as it was. *)
Theorem set_choices_group_shares_choice (w : world)
    (g : PyDict.t (list oid)) (choices : PyDict.t choice)
    (n : string) (ms : list oid) :
  _search_groups (self w) = Some g ->
  wf_groups g ->
  (n, ms) ∈ g ->
  exists w',
    set_choices choices w = (Ok tt, w')
    /\ self w' = self w
    /\ (forall c, PyDict.get n choices = Some c ->
          forall m, m ∈ ms -> current_choice (heap w' m) = c)
    /\ (forall m0 a c,
          PyDict.get n choices = None -> head ms = Some m0 ->
          alias (heap w m0) = Some a -> PyDict.get a choices = Some c ->
          forall m, m ∈ ms -> current_choice (heap w' m) = c)
    /\ (forall m0,
          PyDict.get n choices = None -> head ms = Some m0 ->
          (forall a, alias (heap w m0) = Some a ->
                     PyDict.get a choices = None) ->
          forall m, m ∈ ms -> heap w' m = heap w m).
Proof.
  intros Hg Hwf Hmem.
  destruct (set_choices_spec choices g w Hg Hwf)
    as (s' & Hrun & _ & _ & Hin).
  exists (with_heap s' w). split_and!; [done..| | |].
  - intros c Hc m Hm. simpl. rewrite (Hin n ms m Hmem Hm).
    unfold pick_set. by rewrite Hc.
  - intros m0 a c Hn Hhd Ha Hc m Hm. simpl. rewrite (Hin n ms m Hmem Hm).
    unfold pick_set. rewrite Hn. destruct ms as [|? ms']; [done|].
    injection Hhd as ->. by rewrite Ha, Hc.
  - intros m0 Hn Hhd Ha m Hm. simpl. rewrite (Hin n ms m Hmem Hm).
    unfold pick_set. rewrite Hn. destruct ms as [|? ms']; [done|].
    injection Hhd as ->. destruct (alias (heap w m0)) as [a|]; [|done].
    by rewrite (Ha a).
Qed.

(** [sample_choices] while [_arch_params] was never assigned. *)
Lemma hasattr_unbound w :
  _arch_params (self w) = Unbound -> hasattr_arch_params w = (Ok false, w).
Proof. intros H. unfold hasattr_arch_params, arch_params. by rewrite H. Qed.

Lemma sample_loop_spec kind items acc w :
  _arch_params (self w) = Unbound ->
  Forall (fun kv => kv.2 <> []) items ->
  NoDup (PyDict.keys acc ++ PyDict.keys items) ->
  exists c r,
    sample_loop kind items acc w
    = (Ok (acc ++ c), World (self w) (heap w) r (fix_log w))
    /\ PyDict.keys c = PyDict.keys items.
Proof.
  intros Ha. revert acc w Ha.
  induction items as [|[n ms] rest IH]; intros acc w Ha Hne Hnd;
    cbn [sample_loop].
  - exists [], (gen w). rewrite app_nil_r, world_eta. done.
  - apply Forall_cons in Hne as [Hms Hne]. simpl in Hms.
    destruct ms as [|m0 ms]; [done|].
    assert (Hfresh : n ∉ PyDict.keys acc).
    { apply NoDup_app in Hnd as (_ & Hd & _). intros Hin.
      apply (Hd n Hin). simpl. apply list_elem_of_here. }
    assert (Hnd' : forall v,
               NoDup (PyDict.keys (acc ++ [(n, v)]) ++ PyDict.keys rest)).
    { intros v. unfold PyDict.keys in Hnd |- *. rewrite fmap_app. simpl.
      by rewrite <- app_assoc. }
    unfold bind at 1. rewrite (hasattr_unbound w Ha).
    assert (Hstep : forall v w1,
      _arch_params (self w1) = Unbound ->
      exists c r,
        sample_loop kind rest (PyDict.set n v acc) w1
        = (Ok (acc ++ c), World (self w1) (heap w1) r (fix_log w1))
        /\ PyDict.keys c = PyDict.keys ((n, m0 :: ms) :: rest)).
    { intros v w1 Ha1. rewrite PyDictFacts.set_fresh by done.
      destruct (IH (acc ++ [(n, v)]) w1 Ha1 Hne (Hnd' v)) as (c & r & Hrun & Hk).
      exists ((n, v) :: c), r. rewrite Hrun, <- app_assoc. simpl.
      by rewrite Hk. }
    destruct (String.eqb kind "max"); [|destruct (String.eqb kind "min")].
    + unfold bind at 1; cbn [first]. unfold bind at 1, ret, read.
      unfold bind at 1. apply Hstep, Ha.
    + unfold bind at 1; cbn [first]. unfold bind at 1, ret, read.
      unfold bind at 1. apply Hstep, Ha.
    + unfold bind at 1; cbn [first]. unfold bind at 1, ret.
      unfold call_sample_choice.
      destruct (sample_choice (heap w m0) None (gen w)) as [v r1] eqn:Es.
      destruct (Hstep v (World (self w) (heap w) r1 (fix_log w)) Ha)
        as (c & r & Hrun & Hk).
      exists c, r. by rewrite Hrun.
Qed.

Lemma sample_then_set (w : world) (g : PyDict.t (list oid)) (kind : string) :
  _search_groups (self w) = Some g ->
  wf_groups g ->
  _arch_params (self w) = Unbound ->
  exists c w1 w2,
    sample_choices kind w = (Ok c, w1)
    /\ PyDict.keys c = PyDict.keys g
    /\ set_choices c w1 = (Ok tt, w2)
    /\ current_choices w2 = (Ok c, w2)
    /\ self w2 = self w /\ fix_log w2 = fix_log w.
Proof.
  intros Hg Hwf Ha. pose proof Hwf as (Hk & Hne & Hnd).
  destruct (sample_loop_spec kind g [] w Ha Hne) as (c & r & Hrun & Hkeys);
    [done|]. simpl in Hrun.
  set (w1 := World (self w) (heap w) r (fix_log w)) in Hrun |- *.
  assert (Hg1 : _search_groups (self w1) = Some g) by done.
  destruct (set_choices_spec c g w1 Hg1 Hwf) as (s' & Hset & _ & _ & Hin).
  exists c, w1, (with_heap s' w1). split_and!; [|done..| |done|done].
  - unfold sample_choices, bind, search_groups. by rewrite Hg.
  - unfold current_choices. rewrite (property_wf _ g) by done.
    f_equal. f_equal. simpl. apply PyDictFacts.dict_ext.
    + by rewrite keys_summary.
    + by rewrite keys_summary.
    + intros n Hn. rewrite keys_summary in Hn.
      apply list_elem_of_fmap in Hn as ([n' ms] & -> & Hmem). simpl.
      destruct (wf_first n' ms g Hwf Hmem) as (m0 & ms' & ->).
      rewrite (get_summary _ g s' n' m0 ms') by done.
      rewrite (Hin n' (m0 :: ms') m0 Hmem) by apply list_elem_of_here.
      unfold pick_set.
      destruct (PyDict.get n' c) as [v|] eqn:Ev; [done|].
      apply PyDictFacts.get_None in Ev. rewrite Hkeys in Ev.
      exfalso. apply Ev. apply list_elem_of_fmap. by exists (n', m0 :: ms').
Qed.

(** C6.  With built search groups and [_arch_params] never assigned,
    [c = sample_choices(kind)] succeeds for every [kind] and has one key
    per group; [set_choices(c)] then succeeds, and [current_choices]
    afterwards is [c] again. *)
Theorem sample_set_current_round_trip (w : world)
    (g : PyDict.t (list oid)) (kind : string) :
  _search_groups (self w) = Some g ->
  wf_groups g ->
  _arch_params (self w) = Unbound ->
  exists c w1 w2,
    sample_choices kind w = (Ok c, w1)
    /\ PyDict.keys c = PyDict.keys g
    /\ set_choices c w1 = (Ok tt, w2)
    /\ current_choices w2 = (Ok c, w2).
Proof.
  intros Hg Hwf Ha.
  destruct (sample_then_set w g kind Hg Hwf Ha)
    as (c & w1 & w2 & ? & ? & ? & ? & _).
  by exists c, w1, w2.
Qed.

(** *** [prepare_from_supernet] *)

(** [for unit in units: ...] of [_prepare_from_predefined_model] on the
    store and the name table. *)
Fixpoint activate_units (us : list oid) (s : store) (n : gmap string oid)
  : store * gmap string oid :=
  match us with
  | [] => (s, n)
  | u :: rest =>
      let s1 := update u (with_current_choice (max_choice (s u))) s in
      activate_units rest s1 (<[name (s1 u) := u]> n)
  end.

Definition channel_key (id : nat) : string :=
  "channel" +:+ "_" +:+ pretty id.

(** The mutator as [prepare_from_supernet] leaves it. *)
Definition prepared (m : t) (g : PyDict.t (list oid)) (us : list oid)
    (n : gmap string oid) : t :=
  Mutator (_custom_groups m) (Some g) (_arch_params m) (Bound us) (Bound n)
          (architecture m) (is_supernet m).

Lemma for_each_activate us w n :
  _name2unit (self w) = Bound n ->
  for_each us activate_unit w =
  (Ok tt, World (set_name2unit (Bound (activate_units us (heap w) n).2) (self w))
                (activate_units us (heap w) n).1 (gen w) (fix_log w)).
Proof.
  revert w n. induction us as [|u us IH]; intros w n Hn; cbn [for_each].
  - simpl. unfold ret. f_equal. destruct w as [[] ? ? ?].
    simpl in Hn |- *. by subst.
  - unfold bind at 1, activate_unit. unfold bind at 1, read.
    unfold bind at 1, set_current_choice, modify_heap.
    unfold bind at 1. unfold bind at 1. cbn [self heap gen fix_log getattr].
    rewrite Hn. cbn [getattr]. unfold modify_self. cbn [self heap gen fix_log].
    erewrite IH; [|reflexivity]. done.
Qed.

Lemma prepare_from_supernet_eq supernet w :
  prepare_from_supernet supernet w =
  match init_from_predefined_model supernet (heap w) with
  | (Raise e, s0) =>
      (Raise e, World (set_name2unit (Bound ∅)
                         (set_search_groups (Some []) (self w)))
                      s0 (gen w) (fix_log w))
  | (Ok us, s0) =>
      let '(s1, n) := activate_units us s0 ∅ in
      let cg := channel_groups 0
                  (filter (fun u => is_mutable (s1 u) = true) us) [] in
      match build_search_groups supernet (_custom_groups (self w)) s1 with
      | Raise e =>
          (Raise e, World (prepared (self w) (PyDict.update [] cg) us n)
                          s1 (gen w) (fix_log w))
      | Ok vg =>
          (Ok tt,
           World (prepared (self w)
                    (PyDict.update (PyDict.update [] cg) vg) us n)
                 s1 (gen w) (fix_log w))
      end
  end.
Proof.
  unfold prepare_from_supernet. unfold bind at 1, modify_self at 1.
  unfold bind at 1, _prepare_from_predefined_model.
  unfold bind at 1, modify_self at 1. unfold bind at 1.
  cbn [self heap gen fix_log].
  destruct (init_from_predefined_model supernet (heap w)) as [[us|e] s0];
    [|done].
  unfold bind at 1. erewrite for_each_activate; [|reflexivity].
  cbn [self heap gen fix_log].
  destruct (activate_units us s0 ∅) as [s1 n] eqn:Eact. cbn [fst snd].
  unfold ret. unfold bind at 1, modify_self at 1. unfold bind at 1.
  unfold bind at 1, update_search_groups. unfold bind at 1.
  cbn [self heap gen fix_log _search_groups set_units set_name2unit
       set_search_groups].
  unfold modify_self at 1. unfold bind at 1. unfold bind at 1.
  cbn [self heap gen fix_log _custom_groups set_units set_name2unit
       set_search_groups].
  destruct (build_search_groups supernet (_custom_groups (self w)) s1)
    as [vg|e]; [|done].
  unfold bind at 1. cbn [self _search_groups set_search_groups]. done.
Qed.

Lemma activate_units_lookup us s n o :
  (activate_units us s n).1 o =
  if decide (o ∈ us) then with_current_choice (max_choice (s o)) (s o)
  else s o.
Proof.
  revert s n. induction us as [|u us IH]; intros s n; cbn [activate_units].
  - rewrite decide_False; [done | apply not_elem_of_nil].
  - rewrite IH. unfold update.
    destruct (decide (o = u)) as [->|Hne].
    + rewrite (decide_True (P := u ∈ u :: us)) by apply list_elem_of_here.
      by destruct (decide (u ∈ us)).
    + destruct (decide (o ∈ us)) as [Hin|Hnin].
      * rewrite decide_True; [done | by apply list_elem_of_further].
      * rewrite decide_False; [done|]. rewrite not_elem_of_cons. done.
Qed.

Lemma channel_key_inj i j : channel_key i = channel_key j -> i = j.
Proof.
  unfold channel_key. intros H.
  apply (inj (String.append "channel")) in H.
  apply (inj (String.append "_")) in H.
  by apply (inj pretty) in H.
Qed.

Lemma channel_groups_eq k us acc :
  (forall i, channel_key (k + i) ∉ PyDict.keys acc) ->
  channel_groups k us acc =
  acc ++ imap (fun i u => (channel_key (k + i), [u])) us.
Proof.
  revert k acc. induction us as [|u us IH]; intros k acc Hfresh;
    cbn [channel_groups].
  - by rewrite app_nil_r.
  - fold (channel_key k). rewrite PyDictFacts.set_fresh.
    2:{ specialize (Hfresh 0). by rewrite Nat.add_0_r in Hfresh. }
    rewrite IH.
    + rewrite <- app_assoc. f_equal. rewrite imap_cons. simpl.
      rewrite Nat.add_0_r. f_equal. apply imap_ext. intros i x _. simpl.
      do 2 f_equal. lia.
    + intros i. unfold PyDict.keys. rewrite fmap_app. simpl.
      rewrite elem_of_app. intros [Hin|Hin].
      * apply (Hfresh (S i)). by replace (k + S i) with (S k + i) by lia.
      * apply list_elem_of_singleton in Hin.
        apply channel_key_inj in Hin. lia.
Qed.

Lemma channel_groups_0 us :
  channel_groups 0 us [] = imap (fun i u => (channel_key i, [u])) us.
Proof.
  rewrite channel_groups_eq; [done|]. intros i. apply not_elem_of_nil.
Qed.

Lemma keys_channel_groups us :
  PyDict.keys (imap (fun i (u : oid) => (channel_key i, [u])) us)
  = channel_key <$> seq 0 (length us).
Proof.
  unfold PyDict.keys. change (map fst) with (fmap (M := list) (@fst string (list oid))).
  rewrite fmap_imap. rewrite <- (imap_seq_0 us channel_key).
  apply imap_ext. done.
Qed.

Lemma NoDup_keys_channel_groups us :
  NoDup (PyDict.keys (imap (fun i (u : oid) => (channel_key i, [u])) us)).
Proof.
  rewrite keys_channel_groups. apply NoDup_fmap_2_strong.
  - intros i j _ _. apply channel_key_inj.
  - apply NoDup_seq.
Qed.

Lemma get_channel_groups us i :
  PyDict.get (channel_key i) (channel_groups 0 us [])
  = (fun u => [u]) <$> us !! i.
Proof.
  rewrite channel_groups_0. destruct (us !! i) as [u|] eqn:E; simpl.
  - apply PyDictFacts.elem_get; [apply NoDup_keys_channel_groups|].
    apply list_elem_of_lookup. exists i. rewrite list_lookup_imap, E. done.
  - apply PyDictFacts.get_None. rewrite keys_channel_groups.
    intros Hin. apply list_elem_of_fmap in Hin as (j & Hj & Hin).
    apply channel_key_inj in Hj as <-.
    apply elem_of_seq in Hin. apply lookup_ge_None in E. lia.
Qed.

Lemma prepare_from_supernet_ok supernet w w' :
  prepare_from_supernet supernet w = (Ok tt, w') ->
  exists us s0 n vg,
    init_from_predefined_model supernet (heap w) = (Ok us, s0)
    /\ activate_units us s0 ∅ = (heap w', n)
    /\ build_search_groups supernet (_custom_groups (self w)) (heap w') = Ok vg
    /\ w' = World (prepared (self w)
                     (PyDict.update
                        (channel_groups 0
                           (filter (fun u => is_mutable (heap w' u) = true) us) [])
                        vg) us n)
                  (heap w') (gen w) (fix_log w).
Proof.
  rewrite prepare_from_supernet_eq.
  destruct (init_from_predefined_model supernet (heap w)) as [[us|e] s0];
    [|done].
  destruct (activate_units us s0 ∅) as [s1 n] eqn:Eact. cbv zeta.
  destruct (build_search_groups supernet (_custom_groups (self w)) s1)
    as [vg|e] eqn:Eb; [|done].
  intros [= <-]. cbn [heap]. exists us, s0, n, vg.
  rewrite PyDictFacts.update_empty; [done|].
  rewrite channel_groups_0. apply NoDup_keys_channel_groups.
Qed.

Lemma concat_channel_groups (us : list oid) :
  concat (map snd (imap (fun i u => (channel_key i, [u])) us)) = us.
Proof.
  generalize channel_key. induction us as [|u us IH]; intros key; [done|].
  rewrite imap_cons. simpl. f_equal. apply (IH (key ∘ S)).
Qed.

(** Groups built from distinct units and from well-formed value groups
    that neither use a channel key nor contain a unit are well formed. *)
Lemma built_groups_wf (mus : list oid) (vg : PyDict.t (list oid)) :
  NoDup mus -> wf_groups vg ->
  (forall i, channel_key i ∉ PyDict.keys vg) ->
  (forall u, u ∈ mus -> u ∉ concat (map snd vg)) ->
  wf_groups (PyDict.update (channel_groups 0 mus []) vg).
Proof.
  intros Hmus (Hk & Hne & Hnd) Hkeys Hdisj.
  rewrite channel_groups_0.
  assert (Hall : NoDup (PyDict.keys (imap (fun i (u : oid) => (channel_key i, [u])) mus)
                        ++ PyDict.keys vg)).
  { apply NoDup_app. split_and!; [apply NoDup_keys_channel_groups| |done].
    intros k Hin. rewrite keys_channel_groups in Hin.
    apply list_elem_of_fmap in Hin as (i & -> & _). apply Hkeys. }
  rewrite PyDictFacts.update_disjoint by done. split_and!.
  - unfold PyDict.keys in Hall |- *. by rewrite map_app.
  - apply Forall_app. split; [|done].
    apply Forall_forall. intros [k ms] Hin.
    apply list_elem_of_lookup in Hin as (i & Hi).
    rewrite list_lookup_imap in Hi.
    destruct (mus !! i); simpl in Hi; [|done]. by injection Hi as <- <-.
  - rewrite map_app, concat_app, concat_channel_groups.
    apply NoDup_app. done.
Qed.


(** The groups [prepare_from_supernet] leaves: the channel group of a
    mutable unit unless a value group took its key, and every value
    group. *)
Lemma prepare_from_supernet_groups supernet w w' :
  prepare_from_supernet supernet w = (Ok tt, w') ->
  exists us vg g,
    units (self w') = Bound us
    /\ build_search_groups supernet (_custom_groups (self w)) (heap w') = Ok vg
    /\ _search_groups (self w') = Some g
    /\ (forall i u,
          filter (fun u => is_mutable (heap w' u) = true) us !! i = Some u ->
          channel_key i ∉ PyDict.keys vg ->
          PyDict.get (channel_key i) g = Some [u])
    /\ (NoDup (PyDict.keys vg) ->
        forall k, k ∈ PyDict.keys vg -> PyDict.get k g = PyDict.get k vg).
Proof.
  intros Hrun.
  destruct (prepare_from_supernet_ok supernet w w' Hrun)
    as (us & s0 & n & vg & Hinit & Hact & Hb & Hw').
  exists us, vg. eexists. split_and!; [by rewrite Hw' | done | | |].
  - rewrite Hw' at 1. reflexivity.
  - intros i u Hi Hk. rewrite PyDictFacts.get_update_notin by done.
    by rewrite get_channel_groups, Hi.
  - intros Hnd k Hk. rewrite PyDictFacts.get_update by done.
    destruct (PyDict.get k vg) eqn:E; [done|].
    by apply PyDictFacts.get_None in E.
Qed.
(** C8.  On a mutator that [__init__] has just built, the property
    [search_groups] raises the [RuntimeError]; once
    [prepare_from_supernet] has run, however it ended, the property
    returns the dict held in [_search_groups], which after a normal
    return is the channel groups updated with the value groups. *)
Theorem search_groups_needs_prepare :
  (forall (custom_groups : option (list (list string))) (w : world),
      self w = __init__ custom_groups ->
      search_groups w =
      (Raise (Exn RuntimeError
         "Call `prepare_from_supernet` first to get the search space."), w))
  /\
  (forall (supernet : oid) (w w' : world) (r : result unit),
      prepare_from_supernet supernet w = (r, w') ->
      exists g,
        search_groups w' = (Ok g, w')
        /\ (r = Ok tt ->
            exists us vg,
              units (self w') = Bound us
              /\ build_search_groups supernet (_custom_groups (self w))
                                     (heap w') = Ok vg
              /\ g = PyDict.update
                       (channel_groups 0
                          (filter (fun u => is_mutable (heap w' u) = true) us) [])
                       vg)).
Proof.
  split.
  - intros cg w Hw. unfold search_groups. by rewrite Hw.
  - intros supernet w w' r Hrun. destruct r as [[]|e].
    + destruct (prepare_from_supernet_ok supernet w w' Hrun)
        as (us & s0 & n & vg & Hinit & Hact & Hb & Hw').
      eexists. split.
      * unfold search_groups. rewrite Hw' at 1. cbn [self prepared _search_groups].
        reflexivity.
      * intros _. exists us, vg. split_and!; [|done..].
        rewrite Hw'. done.
    + rewrite prepare_from_supernet_eq in Hrun.
      destruct (init_from_predefined_model supernet (heap w)) as [[us|e'] s0].
      * destruct (activate_units us s0 ∅) as [s1 n]. cbv zeta in Hrun.
        destruct (build_search_groups supernet (_custom_groups (self w)) s1);
          [done|].
        injection Hrun as _ <-. eexists. split; [reflexivity | done].
      * injection Hrun as _ <-. eexists. split; [reflexivity | done].
Qed.

(** C9.  When [prepare_from_supernet] returns, every unit found by
    [init_from_predefined_model], so every mutable one, has its
    [current_choice] at its [max_choice]. *)
Theorem prepare_activates_max_choice (supernet : oid) (w w' : world) :
  prepare_from_supernet supernet w = (Ok tt, w') ->
  exists us s0,
    init_from_predefined_model supernet (heap w) = (Ok us, s0)
    /\ units (self w') = Bound us
    /\ forall u, u ∈ us ->
         current_choice (heap w' u) = max_choice (heap w' u).
Proof.
  intros Hrun.
  destruct (prepare_from_supernet_ok supernet w w' Hrun)
    as (us & s0 & n & vg & Hinit & Hact & Hb & Hw').
  exists us, s0. split_and!; [done | by rewrite Hw' |].
  intros u Hu. pose proof (activate_units_lookup us s0 ∅ u) as Hl.
  rewrite Hact in Hl. simpl in Hl. rewrite Hl, decide_True by done. done.
Qed.

(** *** [fix_choices] *)

(** The loop over [self.architecture.modules()] on the store, with the
    [fix_chosen] calls it makes. *)
Fixpoint fix_visits (modules : list oid) (s : store)
  : list (oid * choice) * store :=
  match modules with
  | [] => ([], s)
  | m :: rest =>
      if is_base_mutable (s m) && negb (is_fixed (s m)) then
        let c := current_choice (s m) in
        let '(l, s') := fix_visits rest (fix_chosen m c s) in
        ((m, c) :: l, s')
      else fix_visits rest s
  end.

(** The call a module is due when it is visited in state [o]. *)
Definition due (s : store) (m : oid) : option (oid * choice) :=
  if is_base_mutable (s m) && negb (is_fixed (s m))
  then Some (m, current_choice (s m)) else None.

Lemma for_each_fix_module modules w :
  for_each modules fix_module w =
  (Ok tt, World (self w) (fix_visits modules (heap w)).2 (gen w)
                (fix_log w ++ (fix_visits modules (heap w)).1)).
Proof.
  revert w. induction modules as [|m rest IH]; intros w;
    cbn [for_each fix_visits].
  - unfold ret. simpl. by rewrite app_nil_r, world_eta.
  - unfold bind at 1, fix_module. unfold bind at 1, read.
    destruct (is_base_mutable (heap w m)); cbn [andb].
    + destruct (is_fixed (heap w m)); cbn [negb].
      * unfold ret. apply IH.
      * unfold bind at 1, call_fix_chosen. rewrite IH.
        cbn [self heap gen fix_log].
        destruct (fix_visits rest _) as [l s']. simpl.
        by rewrite <- app_assoc.
    + unfold ret. apply IH.
Qed.

Lemma fix_visits_frame modules s s' :
  (forall m c s o, o <> m -> fix_chosen m c s o = s o) ->
  NoDup modules ->
  (forall m, m ∈ modules -> s' m = s m) ->
  (fix_visits modules s').1 = omap (due s) modules.
Proof.
  intros Hframe. revert s'.
  induction modules as [|m rest IH]; intros s' Hnd Hs; cbn [fix_visits];
    [done|].
  apply NoDup_cons in Hnd as [Hm Hnd].
  change (omap (due s) (m :: rest))
    with (match due s m with
          | Some y => y :: omap (due s) rest
          | None => omap (due s) rest
          end).
  unfold due at 1.
  rewrite <- (Hs m) by apply list_elem_of_here.
  destruct (is_base_mutable (s' m) && negb (is_fixed (s' m))).
  - specialize (IH (fix_chosen m (current_choice (s' m)) s') Hnd).
    destruct (fix_visits rest _) as [l s'']. simpl in IH |- *. f_equal.
    apply IH. intros m' Hm'. rewrite Hframe by (by intros ->).
    apply Hs. by apply list_elem_of_further.
  - apply IH; [done|]. intros m' Hm'. apply Hs. by apply list_elem_of_further.
Qed.

(** What [fix_choices()] does once something outside the class has
    assigned [self.architecture]: on built search groups, with
    [_arch_params] never assigned, it samples one choice per group, sets
    these choices, then visits the modules in order and calls
    [fix_chosen(current_choice)] on each one that is a [BaseMutable] and
    not fixed when visited, and ends with [is_supernet] false.  When
    [fix_chosen] changes only the module it is called on, the calls are
    those due in the state that [set_choices] left. *)
Lemma fix_choices_with_architecture (w : world) (g : PyDict.t (list oid))
    (modules : list oid) :
  _search_groups (self w) = Some g ->
  wf_groups g ->
  _arch_params (self w) = Unbound ->
  architecture (self w) = Bound modules ->
  exists choices w1 w2 w',
    sample_choices "random" w = (Ok choices, w1)
    /\ PyDict.keys choices = PyDict.keys g
    /\ set_choices choices w1 = (Ok tt, w2)
    /\ fix_choices w = (Ok tt, w')
    /\ is_supernet (self w') = Bound false
    /\ heap w' = (fix_visits modules (heap w2)).2
    /\ fix_log w' = fix_log w ++ (fix_visits modules (heap w2)).1
    /\ ((forall m c s o, o <> m -> fix_chosen m c s o = s o) ->
        NoDup modules ->
        fix_log w' = fix_log w ++ omap (due (heap w2)) modules).
Proof.
  intros Hg Hwf Ha Harch.
  destruct (sample_then_set w g "random" Hg Hwf Ha)
    as (c & w1 & w2 & Hs & Hk & Hset & _ & Hself & Hlog).
  eexists c, w1, w2, _. split_and!; [done..| | | | |].
  - unfold fix_choices, bind. rewrite Hs, Hset.
    rewrite Hself, Harch. cbn [getattr].
    rewrite for_each_fix_module. unfold modify_self. reflexivity.
  - done.
  - done.
  - cbn [fix_log]. by rewrite Hlog.
  - intros Hframe Hnd. cbn [fix_log]. rewrite Hlog. f_equal.
    by apply fix_visits_frame.
Qed.

(** C5.  [fix_choices()] does not collapse the supernet of a mutator that
    the class has made.  Neither [__init__] nor [prepare_from_supernet]
    assigns [self.architecture] or [is_supernet]; so on the mutator they
    leave, [fix_choices()] samples one choice per group and sets these
    choices, then raises [AttributeError] at [self.architecture]:
    [fix_chosen] is called on no module and [is_supernet] is not set to
    [False]. *)
Theorem fix_choices_raises_after_prepare
    (custom_groups : option (list (list string))) (supernet : oid)
    (w0 w : world) (g : PyDict.t (list oid)) :
  self w0 = __init__ custom_groups ->
  prepare_from_supernet supernet w0 = (Ok tt, w) ->
  _search_groups (self w) = Some g ->
  wf_groups g ->
  architecture (self w) = Unbound
  /\ is_supernet (self w) = Unbound
  /\ exists choices w1 w2,
       sample_choices "random" w = (Ok choices, w1)
       /\ PyDict.keys choices = PyDict.keys g
       /\ set_choices choices w1 = (Ok tt, w2)
       /\ fix_choices w = (Raise (Exn AttributeError "architecture"), w2)
       /\ is_supernet (self w2) = Unbound
       /\ fix_log w2 = fix_log w0.
Proof.
  intros Hinit Hrun Hg Hwf.
  destruct (prepare_from_supernet_ok supernet w0 w Hrun)
    as (us & s0 & n & vg & _ & _ & _ & Hw).
  assert (Hself : architecture (self w) = Unbound
                  /\ is_supernet (self w) = Unbound
                  /\ _arch_params (self w) = Unbound
                  /\ fix_log w = fix_log w0).
  { rewrite Hw. cbn [self fix_log]. unfold prepared. rewrite Hinit. done. }
  destruct Hself as (Harch & Hsuper & Ha & Hlog0).
  split_and!; [done..|].
  destruct (sample_then_set w g "random" Hg Hwf Ha)
    as (c & w1 & w2 & Hs & Hk & Hset & _ & Hself & Hlog).
  exists c, w1, w2. split_and!; [done..| | |].
  - unfold fix_choices, bind. rewrite Hs, Hset, Hself, Harch. done.
  - by rewrite Hself.
  - by rewrite Hlog.
Qed.
(** *** Further properties *)

Definition not_prepared : exn :=
  Exn RuntimeError "Call `prepare_from_supernet` first to get the search space.".

(** Before [prepare_from_supernet] every method that manages choices
    raises the [RuntimeError] of [search_groups] and changes nothing. *)
Theorem choice_api_needs_prepare (w : world) (kind : string)
    (choices : PyDict.t choice) :
  _search_groups (self w) = None ->
  sample_choices kind w = (Raise not_prepared, w)
  /\ set_choices choices w = (Raise not_prepared, w)
  /\ current_choices w = (Raise not_prepared, w)
  /\ max_choices w = (Raise not_prepared, w)
  /\ min_choices w = (Raise not_prepared, w)
  /\ set_max_choices w = (Raise not_prepared, w)
  /\ set_min_choices w = (Raise not_prepared, w)
  /\ fix_choices w = (Raise not_prepared, w).
Proof.
  intros Hg.
  unfold sample_choices, set_choices, current_choices, max_choices,
    min_choices, set_max_choices, set_min_choices, fix_choices,
    sample_choices, bind, search_groups.
  rewrite Hg. done.
Qed.

(** [prepare_arch_params] called too early raises as well, but only after
    it has assigned an empty [ParameterDict]: from then on [arch_params]
    returns it and [hasattr(self, 'arch_params')] holds. *)
Theorem prepare_arch_params_too_early (w : world) :
  _search_groups (self w) = None ->
  exists w',
    prepare_arch_params w = (Raise not_prepared, w')
    /\ heap w' = heap w
    /\ _search_groups (self w') = None
    /\ arch_params w' = (Ok [], w')
    /\ hasattr_arch_params w' = (Ok true, w').
Proof.
  intros Hg. eexists. split_and!.
  - unfold prepare_arch_params, bind, modify_self, search_groups.
    cbn [self set_arch_params _search_groups]. rewrite Hg. reflexivity.
  - done.
  - done.
  - done.
  - done.
Qed.

(** Once arch params exist, [sample_choices] takes every choice from
    [sample_choice(arch_param)]: [kind] has no effect, not even ['max'] or
    ['min']. *)
Lemma bind_ext_on {A B} (m : M A) (k k' : A -> M B) w :
  (forall a w1, m w = (Ok a, w1) -> k a w1 = k' a w1) ->
  bind m k w = bind m k' w.
Proof.
  intros H. unfold bind. destruct (m w) as [[a|e] w1]; [by apply H | done].
Qed.

Lemma hasattr_bound w a :
  _arch_params (self w) = Bound (Some a) -> hasattr_arch_params w = (Ok true, w).
Proof. intros H. unfold hasattr_arch_params, arch_params. by rewrite H. Qed.

Lemma sample_with_param_self n ms w c w1 :
  (a <- arch_params ;;
   arch_param <- liftr (PyDict.getitem n a) ;;
   m0 <- first ms ;;
   call_sample_choice m0 (Some arch_param)) w = (Ok c, w1) ->
  self w1 = self w.
Proof.
  unfold bind, arch_params, liftr.
  destruct (_arch_params (self w)) as [|[a|]]; [done| |done].
  destruct (PyDict.getitem n a) as [p|e]; [|done].
  destruct ms as [|m0 ms]; cbn [first]; [done|].
  unfold ret, call_sample_choice.
  destruct (sample_choice (heap w m0) (Some p) (gen w)). by intros [= _ <-].
Qed.

Lemma sample_loop_kind kind kind' items acc a w :
  _arch_params (self w) = Bound (Some a) ->
  sample_loop kind items acc w = sample_loop kind' items acc w.
Proof.
  revert acc w. induction items as [|[n ms] rest IH]; intros acc w Ha;
    cbn [sample_loop]; [done|].
  unfold bind at 1. rewrite (hasattr_bound w a Ha).
  symmetry. unfold bind at 1. rewrite (hasattr_bound w a Ha). symmetry.
  apply bind_ext_on. intros c w1 E. apply IH.
  by rewrite (sample_with_param_self _ _ _ _ _ E).
Qed.

Theorem sample_choices_ignores_kind (w : world) (a : PyDict.t arch_param)
    (kind kind' : string) :
  _arch_params (self w) = Bound (Some a) ->
  sample_choices kind w = sample_choices kind' w.
Proof.
  intros Ha. unfold sample_choices, bind.
  destruct (search_groups w) as [[g|e] w1] eqn:E; [|done].
  apply (sample_loop_kind kind kind' g [] a).
  unfold search_groups in E. destruct (_search_groups (self w)); [|done].
  by injection E as _ <-.
Qed.

(** Without arch params, [sample_choices('max')] is [max_choices] and
    [sample_choices('min')] is [min_choices]: no choice is drawn and the
    world is not touched, whatever the groups are. *)
Lemma sample_loop_collect kind f items acc w :
  _arch_params (self w) = Unbound ->
  (kind = "max" /\ f = max_choice \/ kind = "min" /\ f = min_choice) ->
  sample_loop kind items acc w = collect f items acc w.
Proof.
  intros Ha Hk. revert acc.
  induction items as [|[n ms] rest IH]; intros acc; cbn [sample_loop collect];
    [done|].
  unfold bind at 1. rewrite (hasattr_unbound w Ha).
  destruct Hk as [[-> ->]|[-> ->]]; cbn [String.eqb Ascii.eqb Bool.eqb andb].
  - unfold bind at 1. unfold bind at 1. unfold bind at 2.
    destruct (first ms w) as [[m0|e] w1] eqn:E; [|done].
    assert (w1 = w) as ->.
    { destruct ms; simpl in E; by injection E as _ <-. }
    unfold bind, read, ret. apply IH.
  - unfold bind at 1. unfold bind at 1. unfold bind at 2.
    destruct (first ms w) as [[m0|e] w1] eqn:E; [|done].
    assert (w1 = w) as ->.
    { destruct ms; simpl in E; by injection E as _ <-. }
    unfold bind, read, ret. apply IH.
Qed.

Theorem sample_max_min_are_properties (w : world) :
  _arch_params (self w) = Unbound ->
  sample_choices "max" w = max_choices w
  /\ sample_choices "min" w = min_choices w.
Proof.
  intros Ha.
  unfold sample_choices, max_choices, min_choices, bind, search_groups.
  destruct (_search_groups (self w)) as [g|]; [|done].
  split; apply sample_loop_collect; auto.
Qed.

(** [set_choices] never changes anything but [current_choice]: the
    mutator, the generator, every other attribute of every object and all
    objects outside the groups stay as they are. *)
Theorem set_choices_frame (w : world) (g : PyDict.t (list oid))
    (choices : PyDict.t choice) :
  _search_groups (self w) = Some g ->
  wf_groups g ->
  exists w',
    set_choices choices w = (Ok tt, w')
    /\ self w' = self w /\ gen w' = gen w /\ fix_log w' = fix_log w
    /\ (forall o,
          name (heap w' o) = name (heap w o)
          /\ is_mutable (heap w' o) = is_mutable (heap w o)
          /\ alias (heap w' o) = alias (heap w o)
          /\ max_choice (heap w' o) = max_choice (heap w o)
          /\ min_choice (heap w' o) = min_choice (heap w o)
          /\ num_choices (heap w' o) = num_choices (heap w o)
          /\ is_base_mutable (heap w' o) = is_base_mutable (heap w o)
          /\ is_fixed (heap w' o) = is_fixed (heap w o)
          /\ forward_arg (heap w' o) = forward_arg (heap w o))
    /\ (forall o, o ∉ concat (map snd g) -> heap w' o = heap w o).
Proof.
  intros Hg Hwf.
  destruct (set_choices_spec choices g w Hg Hwf) as (s' & Hrun & Hst & Hout & _).
  exists (with_heap s' w). split_and!; [done..| |done].
  intros o. apply static_eq_fields, Hst.
Qed.

(** Setting no choice at all is a no-op. *)
Theorem set_choices_empty (w : world) (g : PyDict.t (list oid)) :
  _search_groups (self w) = Some g ->
  wf_groups g ->
  exists w',
    set_choices [] w = (Ok tt, w')
    /\ self w' = self w /\ forall o, heap w' o = heap w o.
Proof.
  intros Hg Hwf.
  destruct (set_choices_spec [] g w Hg Hwf) as (s' & Hrun & _ & Hout & Hin).
  exists (with_heap s' w). split_and!; [done..|].
  intros o. simpl. destruct (decide (o ∈ concat (map snd g))) as [Ho|Ho];
    [|by apply Hout].
  apply list_elem_of_In, in_concat in Ho as (ms & Hms & Ho).
  apply in_map_iff in Hms as ([n ms'] & <- & Hmem).
  apply list_elem_of_In in Hmem, Ho. rewrite (Hin n ms' o Hmem Ho).
  unfold pick_set. simpl. destruct ms' as [|m0 ?]; [done|].
  by destruct (alias (heap w m0)).
Qed.

(** [fix_choices] reads [self.architecture], which neither [__init__] nor
    [prepare_from_supernet] assigns: while the attribute is missing the
    call raises [AttributeError], after the sampled choices have been set
    and before [is_supernet] is touched. *)
Theorem fix_choices_needs_architecture (w : world) (g : PyDict.t (list oid)) :
  _search_groups (self w) = Some g ->
  wf_groups g ->
  _arch_params (self w) = Unbound ->
  architecture (self w) = Unbound ->
  exists choices w1 w2,
    sample_choices "random" w = (Ok choices, w1)
    /\ set_choices choices w1 = (Ok tt, w2)
    /\ current_choices w2 = (Ok choices, w2)
    /\ fix_choices w = (Raise (Exn AttributeError "architecture"), w2)
    /\ is_supernet (self w2) = is_supernet (self w)
    /\ fix_log w2 = fix_log w.
Proof.
  intros Hg Hwf Ha Harch.
  destruct (sample_then_set w g "random" Hg Hwf Ha)
    as (c & w1 & w2 & Hs & Hk & Hset & Hcur & Hself & Hlog).
  exists c, w1, w2. split_and!; [done..| |by rewrite Hself|done].
  unfold fix_choices, bind. rewrite Hs, Hset, Hself, Harch. done.
Qed.

(** [prepare_from_supernet] starts from scratch: groups, units and names
    left by an earlier call have no influence on what it builds. *)
Theorem prepare_from_supernet_rebuilds (supernet : oid) (w : world)
    (g : option (PyDict.t (list oid))) (us : attr (list oid))
    (n : attr (gmap string oid)) (found : list oid) (s0 : store) :
  init_from_predefined_model supernet (heap w) = (Ok found, s0) ->
  prepare_from_supernet supernet
    (World (set_search_groups g (set_units us (set_name2unit n (self w))))
           (heap w) (gen w) (fix_log w))
  = prepare_from_supernet supernet w.
Proof.
  intros Hinit. rewrite !prepare_from_supernet_eq. cbn [heap]. rewrite Hinit.
  done.
Qed.

(** The search groups that [prepare_from_supernet] builds are well formed
    when the units found are distinct objects and the value groups are well
    formed, use no channel key and contain no unit. *)
Theorem prepare_from_supernet_wf (supernet : oid) (w w' : world)
    (found : list oid) (s0 : store) (vg : PyDict.t (list oid)) :
  prepare_from_supernet supernet w = (Ok tt, w') ->
  init_from_predefined_model supernet (heap w) = (Ok found, s0) ->
  build_search_groups supernet (_custom_groups (self w)) (heap w') = Ok vg ->
  NoDup found ->
  wf_groups vg ->
  (forall i, channel_key i ∉ PyDict.keys vg) ->
  (forall u, u ∈ found -> u ∉ concat (map snd vg)) ->
  exists g, _search_groups (self w') = Some g /\ wf_groups g.
Proof.
  intros Hrun Hinit Hb Hnd Hwf Hkeys Hdisj.
  destruct (prepare_from_supernet_ok supernet w w' Hrun)
    as (us & s0' & n & vg' & Hinit' & Hact & Hb' & Hw').
  rewrite Hinit in Hinit'. injection Hinit' as <- <-.
  rewrite Hb in Hb'. injection Hb' as <-.
  eexists. split; [rewrite Hw' at 1; reflexivity|].
  apply built_groups_wf; [by apply NoDup_filter|done|done|].
  intros u Hu. apply Hdisj. by apply list_elem_of_filter in Hu as [_ Hu].
Qed.

Lemma fold_insert_names (f f' : oid -> string) (us : list oid)
    (n : gmap string oid) :
  (forall u, f u = f' u) ->
  fold_left (fun n u => <[f u := u]> n) us n
  = fold_left (fun n u => <[f' u := u]> n) us n.
Proof.
  intros Hf. revert n. induction us as [|u us IH]; intros n; simpl; [done|].
  by rewrite Hf, IH.
Qed.

Lemma fold_insert_notin (f : oid -> string) (us : list oid)
    (n : gmap string oid) k :
  k ∉ f <$> us -> fold_left (fun n u => <[f u := u]> n) us n !! k = n !! k.
Proof.
  revert n. induction us as [|u us IH]; intros n; simpl; [done|].
  rewrite not_elem_of_cons. intros [Hne Hk]. rewrite IH by done.
  by rewrite lookup_insert_ne.
Qed.

Lemma fold_insert_in (f : oid -> string) (us : list oid)
    (n : gmap string oid) u :
  NoDup (f <$> us) -> u ∈ us ->
  fold_left (fun n u => <[f u := u]> n) us n !! f u = Some u.
Proof.
  revert n. induction us as [|u' us IH]; intros n Hnd Hu; simpl.
  - by apply elem_of_nil in Hu.
  - rewrite fmap_cons in Hnd. apply NoDup_cons in Hnd as [Hfresh Hnd].
    apply elem_of_cons in Hu as [->|Hu]; [|by apply IH].
    rewrite fold_insert_notin by done. apply lookup_insert_eq.
Qed.

Lemma activate_units_names us s n :
  (activate_units us s n).2
  = fold_left (fun n u => <[name (s u) := u]> n) us n.
Proof.
  revert s n. induction us as [|u us IH]; intros s n; cbn [activate_units];
    [done|].
  rewrite IH. simpl.
  assert (Hname : forall o,
    name (update u (with_current_choice (max_choice (s u))) s o) = name (s o)).
  { intros o. unfold update. by destruct (decide (o = u)). }
  rewrite Hname. apply fold_insert_names. intros o. apply Hname.
Qed.

(** After [prepare_from_supernet], [_name2unit] holds the units found and
    nothing else: with distinct names every unit is found under its name,
    and a name of no unit is not a key.  Apart from the [current_choice]
    of the units the objects are as [init_from_predefined_model] left
    them. *)
Theorem prepare_from_supernet_registers (supernet : oid) (w w' : world) :
  prepare_from_supernet supernet w = (Ok tt, w') ->
  exists found s0 n,
    init_from_predefined_model supernet (heap w) = (Ok found, s0)
    /\ units (self w') = Bound found
    /\ _name2unit (self w') = Bound n
    /\ (NoDup ((fun u => name (heap w' u)) <$> found) ->
        forall u, u ∈ found -> n !! name (heap w' u) = Some u)
    /\ (forall k, k ∉ (fun u => name (heap w' u)) <$> found -> n !! k = None)
    /\ (forall o, o ∉ found -> heap w' o = s0 o)
    /\ (forall o, static_eq (heap w' o) (s0 o)).
Proof.
  intros Hrun.
  destruct (prepare_from_supernet_ok supernet w w' Hrun)
    as (us & s0 & n & vg & Hinit & Hact & Hb & Hw').
  assert (Hlook := activate_units_lookup us s0 ∅).
  assert (Hn := activate_units_names us s0 ∅).
  rewrite Hact in Hlook, Hn. simpl in Hlook, Hn.
  assert (Hst : forall o, static_eq (heap w' o) (s0 o)).
  { intros o. rewrite Hlook. by destruct (decide (o ∈ us)). }
  assert (Hnames : forall u, name (s0 u) = name (heap w' u)).
  { intros u. symmetry. by apply static_eq_fields. }
  rewrite (fold_insert_names _ (fun u => name (heap w' u))) in Hn by done.
  exists us, s0, n. split_and!; [done|by rewrite Hw'|by rewrite Hw'| | | |done].
  - intros Hnd u Hu. rewrite Hn. by apply (fold_insert_in (fun u => name (heap w' u))).
  - intros k Hk. rewrite Hn.
    by rewrite (fold_insert_notin (fun u => name (heap w' u))).
  - intros o Ho. rewrite Hlook. by rewrite decide_False.
Qed.

(** *** [prepare_arch_params] *)








End Model.

(** *** A small supernet

    Two channel units (objects 0 and 1), two value mutables sharing the
    alias [depth] (objects 2 and 3) and a plain module (object 4).
    Choices are integers. *)
Section Example.
Definition ex_heap : @store Z unit :=
  fun o =>
    Obj ("unit" +:+ pretty o) (o <? 2)%nat
        (if (2 <=? o)%nat then Some "depth" else None)
        0%Z (Z.of_nat o + 8)%Z 1%Z 3 (o <? 4)%nat false None.

Definition ex_groups : PyDict.t (list oid) :=
  [("channel_0", [0]); ("channel_1", [1]); ("value_0", [2; 3])].

Definition ex_self : @t unit :=
  Mutator [] (Some ex_groups) Unbound (Bound [0; 1]) (Bound ∅)
          (Bound [0; 1; 2; 3; 4]) (Bound true).

Definition ex_world : @world Z unit nat := World ex_self ex_heap 0 [].

(** A fresh mutator in front of the same objects. *)
Definition ex_fresh : @world Z unit nat :=
  World (__init__ None) ex_heap 0 [].

Definition ex_init (model : oid) (s : @store Z unit)
  : result (list oid) * @store Z unit := (Ok [0; 1], s).
Definition ex_build (supernet : oid) (custom_groups : list (list string))
    (s : @store Z unit) : result (PyDict.t (list oid)) :=
  Ok [("value_0", [2; 3])].
(** "Random" choices: the generator state counts the draws. *)
Definition ex_sample (o : @obj Z unit) (a : option unit) (r : nat) : Z * nat :=
  (Z.of_nat r + 2, S r)%Z.
Definition ex_fix (m : oid) (c : Z) (s : @store Z unit) : @store Z unit :=
  update m (fun o => Obj (name o) (is_mutable o) (alias o) c (max_choice o)
                         (min_choice o) (num_choices o) (is_base_mutable o)
                         true (forward_arg o)) s.
End Example.

Ltac by_compute := apply (bool_decide_unpack _); vm_compute; exact I.

Lemma ex_groups_wf : wf_groups ex_groups.
Proof. by_compute. Qed.

Lemma set_max_min_choices_current_witness :
  (exists w' d,
      set_max_choices ex_world = (Ok tt, w')
      /\ current_choices w' = (Ok d, w')
      /\ max_choices w' = (Ok d, w')
      /\ PyDict.keys d = PyDict.keys ex_groups
      /\ forall n m0 ms, (n, m0 :: ms) ∈ ex_groups ->
           PyDict.get n d = Some (max_choice (heap w' m0))
           /\ forall m, m ∈ m0 :: ms ->
                current_choice (heap w' m) = max_choice (heap w' m0))
  /\
  (exists w' d,
      set_min_choices ex_world = (Ok tt, w')
      /\ current_choices w' = (Ok d, w')
      /\ min_choices w' = (Ok d, w')
      /\ PyDict.keys d = PyDict.keys ex_groups
      /\ forall n m0 ms, (n, m0 :: ms) ∈ ex_groups ->
           PyDict.get n d = Some (min_choice (heap w' m0))
           /\ forall m, m ∈ m0 :: ms ->
                current_choice (heap w' m) = min_choice (heap w' m0)).
Proof.
  apply (set_max_min_choices_current ex_world ex_groups);
    [reflexivity | by_compute].
Defined.

Example set_max_choices_example :
  current_choices (set_max_choices ex_world).2
  = (Ok [("channel_0", 8%Z); ("channel_1", 9%Z); ("value_0", 10%Z)],
     (set_max_choices ex_world).2)
  /\ current_choice (heap (set_max_choices ex_world).2 3) = 10%Z.
Proof. split; reflexivity. Qed.

Lemma set_choices_group_shares_choice_witness :
  let choices := [("channel_0", 5%Z); ("depth", 7%Z)] in
  exists w',
    set_choices choices ex_world = (Ok tt, w')
    /\ self w' = self ex_world
    /\ (forall c, PyDict.get "value_0" choices = Some c ->
          forall m, m ∈ [2; 3] -> current_choice (heap w' m) = c)
    /\ (forall m0 a c,
          PyDict.get "value_0" choices = None -> head [2; 3] = Some m0 ->
          alias (heap ex_world m0) = Some a -> PyDict.get a choices = Some c ->
          forall m, m ∈ [2; 3] -> current_choice (heap w' m) = c)
    /\ (forall m0,
          PyDict.get "value_0" choices = None -> head [2; 3] = Some m0 ->
          (forall a, alias (heap ex_world m0) = Some a ->
                     PyDict.get a choices = None) ->
          forall m, m ∈ [2; 3] -> heap w' m = heap ex_world m).
Proof.
  intros choices.
  apply (set_choices_group_shares_choice ex_world ex_groups choices
           "value_0" [2; 3]); [reflexivity | by_compute | by_compute].
Defined.

Example set_choices_example :
  let w' := (set_choices [("channel_0", 5%Z); ("depth", 7%Z)] ex_world).2 in
  map (fun m => current_choice (heap w' m)) [0; 1; 2; 3] = [5; 0; 7; 7]%Z.
Proof. reflexivity. Qed.

Lemma sample_set_current_round_trip_witness :
  exists c w1 w2,
    sample_choices ex_sample "random" ex_world = (Ok c, w1)
    /\ PyDict.keys c = PyDict.keys ex_groups
    /\ set_choices c w1 = (Ok tt, w2)
    /\ current_choices w2 = (Ok c, w2).
Proof.
  apply (sample_set_current_round_trip ex_sample ex_world ex_groups "random");
    [reflexivity | by_compute | reflexivity].
Defined.

Example sample_choices_example :
  (sample_choices ex_sample "random" ex_world).1
  = Ok [("channel_0", 2%Z); ("channel_1", 3%Z); ("value_0", 4%Z)]
  /\ (sample_choices ex_sample "min" ex_world).1
     = Ok [("channel_0", 1%Z); ("channel_1", 1%Z); ("value_0", 1%Z)].
Proof. split; reflexivity. Qed.

Lemma fix_choices_with_architecture_witness :
  exists choices w1 w2 w',
    sample_choices ex_sample "random" ex_world = (Ok choices, w1)
    /\ PyDict.keys choices = PyDict.keys ex_groups
    /\ set_choices choices w1 = (Ok tt, w2)
    /\ fix_choices ex_sample ex_fix ex_world = (Ok tt, w')
    /\ is_supernet (self w') = Bound false
    /\ heap w' = (fix_visits ex_fix [0; 1; 2; 3; 4] (heap w2)).2
    /\ fix_log w' = fix_log ex_world
                    ++ (fix_visits ex_fix [0; 1; 2; 3; 4] (heap w2)).1
    /\ ((forall m c s o, o <> m -> ex_fix m c s o = s o) ->
        NoDup [0; 1; 2; 3; 4] ->
        fix_log w' = fix_log ex_world
                     ++ omap (due (heap w2)) [0; 1; 2; 3; 4]).
Proof.
  apply (fix_choices_with_architecture ex_sample ex_fix ex_world ex_groups
           [0; 1; 2; 3; 4]); [reflexivity | by_compute | reflexivity..].
Defined.

Example fix_choices_example :
  let w' := (fix_choices ex_sample ex_fix ex_world).2 in
  fix_log w' = [(0, 2%Z); (1, 3%Z); (2, 4%Z); (3, 4%Z)]
  /\ is_supernet (self w') = Bound false
  /\ map (fun m => is_fixed (heap w' m)) [0; 1; 2; 3; 4]
     = [true; true; true; true; false].
Proof. repeat split; reflexivity. Qed.

Lemma search_groups_needs_prepare_witness :
  search_groups ex_fresh =
  (Raise (Exn RuntimeError
     "Call `prepare_from_supernet` first to get the search space."), ex_fresh)
  /\
  let w' := (prepare_from_supernet ex_init ex_build 9 ex_fresh).2 in
  exists g,
    search_groups w' = (Ok g, w')
    /\ (Ok tt = Ok tt ->
        exists us vg,
          units (self w') = Bound us
          /\ ex_build 9 (_custom_groups (self ex_fresh)) (heap w') = Ok vg
          /\ g = PyDict.update
                   (channel_groups 0
                      (filter (fun u => is_mutable (heap w' u) = true) us) [])
                   vg).
Proof.
  split.
  - apply (proj1 (search_groups_needs_prepare ex_init ex_build) None ex_fresh).
    reflexivity.
  - apply (proj2 (search_groups_needs_prepare ex_init ex_build) 9 ex_fresh).
    reflexivity.
Defined.

Example prepare_from_supernet_example :
  let w' := (prepare_from_supernet ex_init ex_build 9 ex_fresh).2 in
  search_groups w'
  = (Ok [("channel_0", [0]); ("channel_1", [1]); ("value_0", [2; 3])], w')
  /\ map (fun m => current_choice (heap w' m)) [0; 1; 2; 3] = [8; 9; 0; 0]%Z.
Proof. split; reflexivity. Qed.

Lemma prepare_activates_max_choice_witness :
  let w' := (prepare_from_supernet ex_init ex_build 9 ex_fresh).2 in
  exists us s0,
    ex_init 9 (heap ex_fresh) = (Ok us, s0)
    /\ units (self w') = Bound us
    /\ forall u, u ∈ us -> current_choice (heap w' u) = max_choice (heap w' u).
Proof.
  apply (prepare_activates_max_choice ex_init ex_build 9 ex_fresh).
  reflexivity.
Defined.

(** *** The further properties on the small supernet *)

Definition ex_randn (n : nat) (r : nat) : unit * nat := (tt, S r).
(** Some of the attributes of an [nn.ParameterDict]. *)
Definition ex_is_module_attribute (name : string) : bool :=
  existsb (String.eqb name)
    ["training"; "keys"; "values"; "items"; "get"; "pop"; "update"; "clear";
     "copy"; "forward"; "parameters"].

Definition ex_built : @world Z unit nat :=
  (prepare_from_supernet ex_init ex_build 9 ex_fresh).2.

Definition ex_with_params : @world Z unit nat :=
  (prepare_arch_params ex_randn ex_is_module_attribute ex_world).2.

Lemma fix_choices_raises_after_prepare_witness :
  architecture (self ex_built) = Unbound
  /\ is_supernet (self ex_built) = Unbound
  /\ exists choices w1 w2,
       sample_choices ex_sample "random" ex_built = (Ok choices, w1)
       /\ PyDict.keys choices = PyDict.keys ex_groups
       /\ set_choices choices w1 = (Ok tt, w2)
       /\ fix_choices ex_sample ex_fix ex_built
          = (Raise (Exn AttributeError "architecture"), w2)
       /\ is_supernet (self w2) = Unbound
       /\ fix_log w2 = fix_log ex_fresh.
Proof.
  apply (fix_choices_raises_after_prepare ex_init ex_build ex_sample ex_fix
           None 9 ex_fresh ex_built ex_groups);
    [reflexivity | reflexivity | reflexivity | by_compute].
Defined.

(** [NasMutator()], [prepare_from_supernet(supernet)], [fix_choices()] on
    the small supernet: the choices are set, then the call stops. *)
Example fix_choices_after_prepare_example :
  let r := fix_choices ex_sample ex_fix ex_built in
  r.1 = Raise (Exn AttributeError "architecture")
  /\ fix_log r.2 = []
  /\ is_supernet (self r.2) = Unbound
  /\ map (fun m => current_choice (heap r.2 m)) [0; 1; 2; 3] = [2; 3; 4; 4]%Z
  /\ map (fun m => is_fixed (heap r.2 m)) [0; 1; 2; 3] = [false; false; false; false].
Proof. repeat split; reflexivity. Qed.

Lemma choice_api_needs_prepare_witness :
  sample_choices ex_sample "random" ex_fresh = (Raise not_prepared, ex_fresh)
  /\ set_choices [("channel_0", 5%Z)] ex_fresh = (Raise not_prepared, ex_fresh)
  /\ current_choices ex_fresh = (Raise not_prepared, ex_fresh)
  /\ max_choices ex_fresh = (Raise not_prepared, ex_fresh)
  /\ min_choices ex_fresh = (Raise not_prepared, ex_fresh)
  /\ set_max_choices ex_fresh = (Raise not_prepared, ex_fresh)
  /\ set_min_choices ex_fresh = (Raise not_prepared, ex_fresh)
  /\ fix_choices ex_sample ex_fix ex_fresh = (Raise not_prepared, ex_fresh).
Proof.
  apply (choice_api_needs_prepare ex_sample ex_fix ex_fresh "random"
           [("channel_0", 5%Z)]).
  reflexivity.
Defined.

Lemma prepare_arch_params_too_early_witness :
  exists w',
    prepare_arch_params ex_randn ex_is_module_attribute ex_fresh
    = (Raise not_prepared, w')
    /\ heap w' = heap ex_fresh
    /\ _search_groups (self w') = None
    /\ arch_params w' = (Ok [], w')
    /\ hasattr_arch_params w' = (Ok true, w').
Proof.
  apply (prepare_arch_params_too_early ex_randn ex_is_module_attribute ex_fresh).
  reflexivity.
Defined.


(** A group name with a dot, as module paths have, stops
    [prepare_arch_params] with [KeyError] at that group: the groups before
    it have their parameter, no mutable has been handed one. *)
Example prepare_arch_params_dotted_name_example :
  let w := World (set_search_groups
                    (Some [("channel_0", [0]); ("backbone.depth", [2; 3])])
                    ex_self) ex_heap 0 [] in
  let r := prepare_arch_params ex_randn ex_is_module_attribute w in
  r.1 = Raise (Exn KeyError "parameter name can't contain '.'")
  /\ _arch_params (self r.2) = Bound (Some [("channel_0", tt)])
  /\ map (fun m => forward_arg (heap r.2 m)) [0; 2; 3] = [None; None; None].
Proof. repeat split; reflexivity. Qed.

Lemma sample_choices_ignores_kind_witness :
  sample_choices ex_sample "max" ex_with_params
  = sample_choices ex_sample "random" ex_with_params.
Proof.
  apply (sample_choices_ignores_kind ex_sample ex_with_params
           [("channel_0", tt); ("channel_1", tt); ("value_0", tt)]).
  reflexivity.
Defined.

Example sample_choices_with_params_example :
  (sample_choices ex_sample "max" ex_with_params).1
  = Ok [("channel_0", 5%Z); ("channel_1", 6%Z); ("value_0", 7%Z)]
  /\ (max_choices ex_with_params).1
     = Ok [("channel_0", 8%Z); ("channel_1", 9%Z); ("value_0", 10%Z)].
Proof. split; reflexivity. Qed.

Lemma sample_max_min_are_properties_witness :
  sample_choices ex_sample "max" ex_world = max_choices ex_world
  /\ sample_choices ex_sample "min" ex_world = min_choices ex_world.
Proof. apply (sample_max_min_are_properties ex_sample ex_world). reflexivity. Defined.

Lemma set_choices_frame_witness :
  let choices := [("channel_0", 5%Z); ("depth", 7%Z)] in
  exists w',
    set_choices choices ex_world = (Ok tt, w')
    /\ self w' = self ex_world /\ gen w' = gen ex_world
    /\ fix_log w' = fix_log ex_world
    /\ (forall o,
          name (heap w' o) = name (heap ex_world o)
          /\ is_mutable (heap w' o) = is_mutable (heap ex_world o)
          /\ alias (heap w' o) = alias (heap ex_world o)
          /\ max_choice (heap w' o) = max_choice (heap ex_world o)
          /\ min_choice (heap w' o) = min_choice (heap ex_world o)
          /\ num_choices (heap w' o) = num_choices (heap ex_world o)
          /\ is_base_mutable (heap w' o) = is_base_mutable (heap ex_world o)
          /\ is_fixed (heap w' o) = is_fixed (heap ex_world o)
          /\ forward_arg (heap w' o) = forward_arg (heap ex_world o))
    /\ (forall o, o ∉ concat (map snd ex_groups) -> heap w' o = heap ex_world o).
Proof.
  intros choices.
  apply (set_choices_frame ex_world ex_groups choices);
    [reflexivity | by_compute].
Defined.

Lemma set_choices_empty_witness :
  exists w',
    set_choices [] ex_world = (Ok tt, w')
    /\ self w' = self ex_world /\ forall o, heap w' o = heap ex_world o.
Proof.
  apply (set_choices_empty ex_world ex_groups); [reflexivity | by_compute].
Defined.

Lemma fix_choices_needs_architecture_witness :
  exists choices w1 w2,
    sample_choices ex_sample "random" ex_built = (Ok choices, w1)
    /\ set_choices choices w1 = (Ok tt, w2)
    /\ current_choices w2 = (Ok choices, w2)
    /\ fix_choices ex_sample ex_fix ex_built
       = (Raise (Exn AttributeError "architecture"), w2)
    /\ is_supernet (self w2) = is_supernet (self ex_built)
    /\ fix_log w2 = fix_log ex_built.
Proof.
  apply (fix_choices_needs_architecture ex_sample ex_fix ex_built ex_groups);
    [reflexivity | by_compute | reflexivity | reflexivity].
Defined.

Lemma prepare_from_supernet_rebuilds_witness :
  prepare_from_supernet ex_init ex_build 9
    (World (set_search_groups (Some [("stale", [4])])
              (set_units (Bound [4]) (set_name2unit (Bound ∅) (self ex_fresh))))
           (heap ex_fresh) (gen ex_fresh) (fix_log ex_fresh))
  = prepare_from_supernet ex_init ex_build 9 ex_fresh.
Proof.
  apply (prepare_from_supernet_rebuilds ex_init ex_build 9 ex_fresh
           (Some [("stale", [4])]) (Bound [4]) (Bound ∅) [0; 1] ex_heap).
  reflexivity.
Defined.

Lemma prepare_from_supernet_wf_witness :
  exists g, _search_groups (self ex_built) = Some g /\ wf_groups g.
Proof.
  apply (prepare_from_supernet_wf ex_init ex_build 9 ex_fresh ex_built
           [0; 1] ex_heap [("value_0", [2; 3])]).
  - reflexivity.
  - reflexivity.
  - reflexivity.
  - by_compute.
  - by_compute.
  - intros i Hin. apply list_elem_of_singleton in Hin. discriminate Hin.
  - intros u Hu Hin. simpl in Hin.
    apply elem_of_cons in Hu as [->|Hu]; [|apply list_elem_of_singleton in Hu as ->];
      revert Hin; by_compute.
Defined.

Lemma prepare_from_supernet_registers_witness :
  exists found s0 n,
    ex_init 9 (heap ex_fresh) = (Ok found, s0)
    /\ units (self ex_built) = Bound found
    /\ _name2unit (self ex_built) = Bound n
    /\ (NoDup ((fun u => name (heap ex_built u)) <$> found) ->
        forall u, u ∈ found -> n !! name (heap ex_built u) = Some u)
    /\ (forall k, k ∉ (fun u => name (heap ex_built u)) <$> found ->
                  n !! k = None)
    /\ (forall o, o ∉ found -> heap ex_built o = s0 o)
    /\ (forall o, static_eq (heap ex_built o) (s0 o)).
Proof.
  apply (prepare_from_supernet_registers ex_init ex_build 9 ex_fresh ex_built).
  reflexivity.
Defined.

End NasMutator.

(** ** [GroupMixin]

    [mutators/group_mixin.py] is not among the sources; both mutators call
    its [build_search_groups]. *)

Module GroupMixin.
Section Groups.
(** The key given to the [i]-th group built. *)
Variable group_key : nat -> string.

(** [name in group] for some [group] of [custom_groups] *)
Definition in_custom_groups (custom_groups : list (list string))
    (name : string) : bool :=
  existsb (fun group => existsb (String.eqb name) group) custom_groups.

(** Modelled from the spec: the groups that
    [GroupMixin.build_search_groups] makes from [custom_groups], one per
    entry, holding the searchable modules the entry names. *)
Definition merged (named : PyDict.t oid) (custom_groups : list (list string))
  : list (list oid) :=
  map (fun group => omap (fun item => PyDict.get item named) group)
      custom_groups.

(** Modelled from the spec: the groups that
    [GroupMixin.build_search_groups] makes for the searchable modules in
    no entry of [custom_groups], one module each. *)
Definition separate (named : PyDict.t oid)
    (custom_groups : list (list string)) : list (list oid) :=
  omap (fun nm : string * oid =>
          if in_custom_groups custom_groups nm.1 then None else Some [nm.2])
       named.

(** Modelled from the spec: [GroupMixin.build_search_groups], missing from
    the sources.  The searchable modules named together in one entry of
    [custom_groups] form one (merged) group; every searchable module that
    is in no entry is grouped separately.  [named] lists the searchable
    modules of the supernet under their names. *)
Definition build_search_groups (named : PyDict.t oid)
    (custom_groups : list (list string)) : PyDict.t (list oid) :=
  imap (fun i ms => (group_key i, ms))
       (merged named custom_groups ++ separate named custom_groups).

Hypothesis group_key_inj : forall i j, group_key i = group_key j -> i = j.

Lemma keys_build named custom_groups :
  NoDup (PyDict.keys (build_search_groups named custom_groups)).
Proof using group_key_inj.
  unfold build_search_groups, PyDict.keys.
  change (map fst) with (fmap (M := list) (@fst string (list oid))).
  rewrite fmap_imap.
  rewrite (imap_ext _ (fun i _ => group_key i)) by done.
  rewrite imap_seq_0. apply NoDup_fmap_2_strong; [|apply NoDup_seq].
  intros i j _ _. apply group_key_inj.
Qed.

Lemma get_build_nth named custom_groups i ms :
  (merged named custom_groups ++ separate named custom_groups) !! i = Some ms ->
  PyDict.get (group_key i) (build_search_groups named custom_groups) = Some ms.
Proof using group_key_inj.
  intros Hi. apply PyDictFacts.elem_get; [apply keys_build|].
  unfold build_search_groups. apply list_elem_of_lookup. exists i.
  by rewrite list_lookup_imap, Hi.
Qed.

Lemma existsb_eqb_false (n : string) (l : list string) :
  n ∉ l -> existsb (String.eqb n) l = false.
Proof.
  induction l as [|x l IH]; simpl; [done|].
  rewrite not_elem_of_cons. intros [Hne Hl].
  rewrite IH by done. by rewrite (PyDictFacts.eqb_ne n x).
Qed.

(** The two rules of grouping. *)
Lemma build_search_groups_rules named custom_groups :
  (forall group, group ∈ custom_groups ->
     exists k ms,
       PyDict.get k (build_search_groups named custom_groups) = Some ms
       /\ forall item o, item ∈ group -> PyDict.get item named = Some o ->
                         o ∈ ms)
  /\
  (forall n o, (n, o) ∈ named ->
     (forall group, group ∈ custom_groups -> n ∉ group) ->
     exists k, PyDict.get k (build_search_groups named custom_groups)
               = Some [o]).
Proof using group_key_inj.
  split.
  - intros group Hg. apply list_elem_of_lookup in Hg as (i & Hi).
    exists (group_key i), (omap (fun item => PyDict.get item named) group).
    split.
    + apply get_build_nth. apply lookup_app_l_Some. unfold merged.
      by rewrite list_lookup_fmap, Hi.
    + intros item o Hitem Ho. apply list_elem_of_omap. eauto.
  - intros n o Hno Hfree.
    assert (Hin : [o] ∈ separate named custom_groups).
    { apply list_elem_of_omap. exists (n, o). split; [done|]. simpl.
      replace (in_custom_groups custom_groups n) with false; [done|].
      symmetry. clear -Hfree. unfold in_custom_groups.
      induction custom_groups as [|group cgs IH]; simpl; [done|].
      rewrite existsb_eqb_false.
      - apply IH. intros g Hg. apply Hfree. by apply list_elem_of_further.
      - apply Hfree. apply list_elem_of_here. }
    apply list_elem_of_lookup in Hin as (j & Hj).
    exists (group_key (length custom_groups + j)).
    apply get_build_nth. unfold merged at 1.
    rewrite lookup_app_r; rewrite length_map; [|lia].
    by replace (length custom_groups + j - length custom_groups) with j by lia.
Qed.

(** *** The groups of a prepared [NasMutator] *)

Context {choice arch_param rng : Type}.
(** The searchable modules of a supernet under their names
    ([named_modules()] restricted to the mutables). *)
Variable named_mutables :
  oid -> @NasMutator.store choice arch_param -> PyDict.t oid.
Variable init_from_predefined_model :
  oid -> @NasMutator.store choice arch_param
  -> result (list oid) * @NasMutator.store choice arch_param.

Definition build_for_supernet (supernet : oid)
    (custom_groups : list (list string))
    (s : @NasMutator.store choice arch_param)
  : result (PyDict.t (list oid)) :=
  Ok (build_search_groups (named_mutables supernet s) custom_groups).

(** C2.  Whatever [custom_groups] is, the groups built put the
    searchable modules that one entry of [custom_groups] names into one
    group, and every searchable module that no entry names into a group
    of its own.  A [NasMutator] that [prepare_from_supernet] has
    prepared holds these groups and one more group per mutable channel
    unit, the unit alone under the key ['channel_<id>'], provided the
    keys of the value groups are not channel keys. *)
Theorem custom_groups_merge_rest_separate :
  (forall (named : PyDict.t oid) (custom_groups : list (list string)),
      (forall group, group ∈ custom_groups ->
         exists k ms,
           PyDict.get k (build_search_groups named custom_groups) = Some ms
           /\ forall item o, item ∈ group ->
                PyDict.get item named = Some o -> o ∈ ms)
      /\
      (forall n o, (n, o) ∈ named ->
         (forall group, group ∈ custom_groups -> n ∉ group) ->
         exists k, PyDict.get k (build_search_groups named custom_groups)
                   = Some [o]))
  /\
  (forall (supernet : oid) (w w' : @NasMutator.world choice arch_param rng),
      (forall i j, group_key i <> NasMutator.channel_key j) ->
      NasMutator.prepare_from_supernet init_from_predefined_model
        build_for_supernet supernet w = (Ok tt, w') ->
      exists g us,
        NasMutator._search_groups (NasMutator.self w') = Some g
        /\ NasMutator.units (NasMutator.self w') = Bound us
        /\ (forall group,
              group ∈ NasMutator._custom_groups (NasMutator.self w) ->
              exists k ms,
                PyDict.get k g = Some ms
                /\ forall item o, item ∈ group ->
                     PyDict.get item
                       (named_mutables supernet (NasMutator.heap w')) = Some o ->
                     o ∈ ms)
        /\ (forall n o,
              (n, o) ∈ named_mutables supernet (NasMutator.heap w') ->
              (forall group,
                  group ∈ NasMutator._custom_groups (NasMutator.self w) ->
                  n ∉ group) ->
              exists k, PyDict.get k g = Some [o])
        /\ (forall i u,
              filter (fun u => NasMutator.is_mutable (NasMutator.heap w' u) = true)
                     us !! i = Some u ->
              PyDict.get ("channel_" +:+ pretty i) g = Some [u])).
Proof using group_key_inj.
  split; [apply build_search_groups_rules|].
  intros supernet w w' Hkeys Hrun.
  destruct (NasMutator.prepare_from_supernet_groups _ _ supernet w w' Hrun)
    as (us & vg & g & Hus & Hb & Hg & Hch & Hval).
  injection Hb as <-.
  set (named := named_mutables supernet (NasMutator.heap w')) in *.
  set (cgs := NasMutator._custom_groups (NasMutator.self w)) in *.
  specialize (Hval (keys_build named cgs)).
  destruct (build_search_groups_rules named cgs) as [Hmerge Hsep].
  exists g, us. split_and!; [done..| | |].
  - intros group Hgroup. destruct (Hmerge group Hgroup) as (k & ms & Hk & Hms).
    exists k, ms. split; [|done]. rewrite Hval; [done|].
    apply PyDictFacts.mem_true. unfold PyDict.mem. by rewrite Hk.
  - intros n o Hno Hfree. destruct (Hsep n o Hno Hfree) as (k & Hk).
    exists k. rewrite Hval; [done|].
    apply PyDictFacts.mem_true. unfold PyDict.mem. by rewrite Hk.
  - intros i u Hi. apply (Hch i u Hi).
    unfold build_search_groups, PyDict.keys.
    change (map fst) with (fmap (M := list) (@fst string (list oid))).
    rewrite fmap_imap. intros Hin.
    apply list_elem_of_lookup in Hin as (j & Hj).
    rewrite list_lookup_imap in Hj.
    destruct (_ !! j); [|done]. simpl in Hj. injection Hj as Hj.
    by apply (Hkeys j i).
Qed.
End Groups.
End GroupMixin.

(** ** The two mutators side by side: value groups next to channel groups *)

Module GroupExample.
Import NasMutator.

Definition value_key (i : nat) : string := "value_" +:+ pretty i.

Lemma value_key_inj i j : value_key i = value_key j -> i = j.
Proof.
  unfold value_key. intros H.
  apply (inj (String.append "value_")) in H. by apply (inj pretty) in H.
Qed.

Lemma value_key_not_channel i j : value_key i <> channel_key j.
Proof. unfold value_key, channel_key. simpl. discriminate. Qed.

(** The searchable (value) modules of the example supernet. *)
Definition ex_named (supernet : oid) (s : @store Z unit) : PyDict.t oid :=
  [("backbone.depth", 2); ("backbone.mlp", 3); ("head.ratio", 5)].

Definition ex_custom_groups : list (list string) :=
  [["backbone.depth"; "backbone.mlp"]].

Definition ex_custom : @world Z unit nat :=
  World (__init__ (Some ex_custom_groups)) ex_heap 0 [].

Definition ex_prepared : @world Z unit nat :=
  (prepare_from_supernet ex_init
     (GroupMixin.build_for_supernet value_key ex_named) 9 ex_custom).2.

Example build_search_groups_example :
  GroupMixin.build_search_groups value_key (ex_named 9 ex_heap) ex_custom_groups
  = [("value_0", [2; 3]); ("value_1", [5])]
  /\ _search_groups (self ex_prepared)
     = Some [("channel_0", [0]); ("channel_1", [1]);
             ("value_0", [2; 3]); ("value_1", [5])].
Proof. split; reflexivity. Qed.

Lemma custom_groups_merge_rest_separate_witness :
  (exists k ms,
      PyDict.get k (GroupMixin.build_search_groups value_key
                      (ex_named 9 ex_heap) ex_custom_groups) = Some ms
      /\ forall item o, item ∈ ["backbone.depth"; "backbone.mlp"] ->
           PyDict.get item (ex_named 9 ex_heap) = Some o -> o ∈ ms)
  /\
  (exists k,
      PyDict.get k (GroupMixin.build_search_groups value_key
                      (ex_named 9 ex_heap) ex_custom_groups) = Some [5])
  /\
  (exists g us,
      _search_groups (self ex_prepared) = Some g
      /\ units (self ex_prepared) = Bound us
      /\ (forall group, group ∈ _custom_groups (self ex_custom) ->
            exists k ms,
              PyDict.get k g = Some ms
              /\ forall item o, item ∈ group ->
                   PyDict.get item (ex_named 9 (heap ex_prepared)) = Some o ->
                   o ∈ ms)
      /\ (forall n o, (n, o) ∈ ex_named 9 (heap ex_prepared) ->
            (forall group, group ∈ _custom_groups (self ex_custom) ->
                           n ∉ group) ->
            exists k, PyDict.get k g = Some [o])
      /\ (forall i u,
            filter (fun u => is_mutable (heap ex_prepared u) = true) us !! i
            = Some u ->
            PyDict.get ("channel_" +:+ pretty i) g = Some [u])).
Proof.
  pose proof (GroupMixin.custom_groups_merge_rest_separate (rng := nat)
                value_key value_key_inj ex_named ex_init) as [Hrules Hnas].
  split_and!.
  - apply (proj1 (Hrules (ex_named 9 ex_heap) ex_custom_groups)). by_compute.
  - apply (proj2 (Hrules (ex_named 9 ex_heap) ex_custom_groups) "head.ratio").
    + by_compute.
    + intros group Hg. apply list_elem_of_singleton in Hg as ->. by_compute.
  - apply (Hnas 9 ex_custom ex_prepared).
    + apply value_key_not_channel.
    + reflexivity.
Defined.

End GroupExample.

(** ** [ChannelMutator]  (mutators/channel_mutator/channel_mutator.py) *)

Module ChannelMutator.

(** Calls that leave the class.  Units are objects of the framework; the
    property [is_mutable] of a unit is computed by the framework and so is
    a call as well. *)
Inductive ext :=
| BaseInit (init_cfg : pyval)
| ModuleDict (key : pyval)
| FileioLoad (path : string)
| IsMutableChannelUnitClass (c : pyval)
| NamedModules (supernet : oid)
| TaskUtilsBuild (cfg : pyval)
| Analyze (tracer model : oid)
| ChannelUnitInitFromCfg (model : oid) (cfg : pyval)
| InitFromChannelUnit (unit_class : pyval) (u : oid) (args : pyval)
| InitFromCfg (unit_class : pyval) (model : oid) (cfg : pyval)
| InitFromPredefinedModel (unit_class : pyval) (model : oid)
| IsMutable (u : oid)
| SetUnitPredefined (u : oid) (v : pyval)
| PrepareForPruning (u supernet : oid)
| BuildSearchGroups (mutable_units : list oid) (mutable_class_type : pyval)
                    (custom_groups : list (list string)).

Definition ans (c : ext) : Type :=
  match c with
  | BaseInit _ | SetUnitPredefined _ _ | PrepareForPruning _ _ => unit
  | ModuleDict _ | FileioLoad _ | BuildSearchGroups _ _ _ => pyval
  | IsMutableChannelUnitClass _ | IsMutable _ => bool
  | NamedModules _ => PyDict.t oid
  | TaskUtilsBuild _ | ChannelUnitInitFromCfg _ _ | InitFromChannelUnit _ _ _
  | InitFromCfg _ _ _ => oid
  | Analyze _ _ => PyDict.t pyval
  | InitFromPredefinedModel _ _ => list oid
  end.

(** The instance attributes. *)
Record t := Mutator {
  parse_cfg : pyval;
  _name2unit : gmap string oid;
  units : list oid;
  channel_unit_cfg : pyval;
  unit_class : pyval;
  unit_default_args : pyval;
  units_cfg : pyval;
  _custom_groups : list (list string);
  _name2module : attr (PyDict.t oid);
  _search_groups : attr pyval
}.

Definition set_name2unit (n : gmap string oid) (m : t) : t :=
  Mutator (parse_cfg m) n (units m) (channel_unit_cfg m) (unit_class m)
          (unit_default_args m) (units_cfg m) (_custom_groups m)
          (_name2module m) (_search_groups m).
Definition set_units (u : list oid) (m : t) : t :=
  Mutator (parse_cfg m) (_name2unit m) u (channel_unit_cfg m) (unit_class m)
          (unit_default_args m) (units_cfg m) (_custom_groups m)
          (_name2module m) (_search_groups m).
Definition set_channel_unit_cfg (c : pyval) (m : t) : t :=
  Mutator (parse_cfg m) (_name2unit m) (units m) c (unit_class m)
          (unit_default_args m) (units_cfg m) (_custom_groups m)
          (_name2module m) (_search_groups m).
Definition set_unit_default_args (a : pyval) (m : t) : t :=
  Mutator (parse_cfg m) (_name2unit m) (units m) (channel_unit_cfg m)
          (unit_class m) a (units_cfg m) (_custom_groups m)
          (_name2module m) (_search_groups m).
Definition set_name2module (n : attr (PyDict.t oid)) (m : t) : t :=
  Mutator (parse_cfg m) (_name2unit m) (units m) (channel_unit_cfg m)
          (unit_class m) (unit_default_args m) (units_cfg m)
          (_custom_groups m) n (_search_groups m).
Definition set_search_groups (g : attr pyval) (m : t) : t :=
  Mutator (parse_cfg m) (_name2unit m) (units m) (channel_unit_cfg m)
          (unit_class m) (unit_default_args m) (units_cfg m)
          (_custom_groups m) (_name2module m) g.

(** [isinstance(v, ChannelAnalyzer)] *)
Definition is_channel_analyzer (v : pyval) : bool :=
  match v with PObj cls _ => String.eqb cls "ChannelAnalyzer" | _ => false end.

(** [isinstance(v, str)] *)
Definition is_str (v : pyval) : bool :=
  match v with PStr _ => true | _ => false end.

(** [d[k] = v] on a value *)
Definition setitem_str (k : string) (v : pyval) (d : pyval) : result pyval :=
  match d with
  | PDict d => Ok (PDict (PyDict.set k v d))
  | _ => Raise (Exn TypeError "object does not support item assignment")
  end.

(** [d.update(e)] on values *)
Definition update_val (d e : pyval) : result pyval :=
  match d, e with
  | PDict d, PDict e => Ok (PDict (PyDict.update d e))
  | PDict _, _ => Raise (Exn TypeError "cannot convert dictionary update sequence")
  | _, _ => Raise (Exn AttributeError "update")
  end.

(** [d.pop(k, default)]: the value and the dict without the key *)
Definition pop_default (k : string) (default : pyval) (d : pyval)
  : result (pyval * pyval) :=
  match d with
  | PDict d =>
      Ok (match PyDict.get k d with Some v => v | None => default end,
          PDict (filter (fun kv => kv.1 <> k) d))
  | _ => Raise (Exn AttributeError "pop")
  end.

Local Open Scope prog_scope.
Local Abbreviation call c := (@call ext ans c).
Local Abbreviation prog := (prog ext ans).

(** The calls, at their answer types. *)
Definition base_init init_cfg : prog unit := call (BaseInit init_cfg).
Definition module_dict key : prog pyval := call (ModuleDict key).
Definition fileio_load path : prog pyval := call (FileioLoad path).
Definition is_mutable_channel_unit_class c : prog bool :=
  call (IsMutableChannelUnitClass c).
Definition named_modules supernet : prog (PyDict.t oid) :=
  call (NamedModules supernet).
Definition task_utils_build cfg : prog oid := call (TaskUtilsBuild cfg).
Definition analyze tracer model : prog (PyDict.t pyval) :=
  call (Analyze tracer model).
Definition channel_unit_init_from_cfg model cfg : prog oid :=
  call (ChannelUnitInitFromCfg model cfg).
Definition init_from_channel_unit cls u args : prog oid :=
  call (InitFromChannelUnit cls u args).
Definition init_from_cfg cls model cfg : prog oid :=
  call (InitFromCfg cls model cfg).
Definition init_from_predefined_model cls model : prog (list oid) :=
  call (InitFromPredefinedModel cls model).
Definition is_mutable u : prog bool := call (IsMutable u).
Definition set_unit_predefined u v : prog unit := call (SetUnitPredefined u v).
Definition prepare_for_pruning u supernet : prog unit :=
  call (PrepareForPruning u supernet).
Definition build_search_groups mus cls custom_groups : prog pyval :=
  call (BuildSearchGroups mus cls custom_groups).

Section Class.
(** The [name] a unit was created with. *)
Variable unit_name : oid -> string.

Definition assert (b : bool) : prog unit :=
  if b then Ret tt else Throw (Exn AssertionError "").

(** [_parse_channel_unit_cfg] *)
Definition _parse_channel_unit_cfg (channel_unit_cfg : pyval)
  : prog (pyval * pyval * pyval) :=
  if is_dict channel_unit_cfg then
    ty <- lift (getitem_str "type" channel_unit_cfg) ;;
    unit_class <- module_dict ty ;;
    has <- lift (contains_str "default_args" channel_unit_cfg) ;;
    default_unit_args <-
      (if (has : bool) then lift (getitem_str "default_args" channel_unit_cfg)
       else Ret (PDict [])) ;;
    has <- lift (contains_str "units" channel_unit_cfg) ;;
    unit_init_cfg <-
      (if (has : bool) then lift (getitem_str "units" channel_unit_cfg)
       else Ret (PDict [])) ;;
    unit_init_cfg <-
      (match unit_init_cfg with
       | PStr path => fileio_load path
       | _ => Ret unit_init_cfg
       end) ;;
    Ret (unit_class, default_unit_args, unit_init_cfg)
  else
    sub <- is_mutable_channel_unit_class channel_unit_cfg ;;
    if (sub : bool) then Ret (channel_unit_cfg, PDict [], PDict [])
    else Throw (Exn NotImplementedError "").

(** [ChannelMutator.__init__] *)
Definition __init__ (channel_unit_cfg parse_cfg : pyval)
    (custom_groups : option (list (list string))) (init_cfg : pyval) : prog t :=
  base_init init_cfg ;;
  (if is_dict parse_cfg then
     ty <- lift (getitem_str "type" parse_cfg) ;;
     assert (eq_str ty "ChannelAnalyzer" || eq_str ty "Config"
             || eq_str ty "Predefined")
   else Ret tt) ;;
  parsed <- _parse_channel_unit_cfg channel_unit_cfg ;;
  let '(unit_class, unit_default_args, units_cfg) := parsed in
  let custom_groups := match custom_groups with None => [] | Some g => g end in
  Ret (Mutator parse_cfg ∅ [] channel_unit_cfg unit_class unit_default_args
               units_cfg custom_groups Unbound Unbound).

(** [_convert_channel_unit_to_mutable] *)
Fixpoint _convert_channel_unit_to_mutable (self : t) (units : list oid)
  : prog (list oid) :=
  match units with
  | [] => Ret []
  | u :: rest =>
      let args := unit_default_args self in
      known <- lift (contains_str (unit_name u) (units_cfg self)) ;;
      args <-
        (if (known : bool) then
           cfg <- lift (getitem_str (unit_name u) (units_cfg self)) ;;
           has <- lift (contains_str "init_args" cfg) ;;
           if (has : bool) then
             cfg <- lift (getitem_str (unit_name u) (units_cfg self)) ;;
             lift (getitem_str "init_args" cfg)
           else Ret args
         else Ret args) ;;
      mutable_unit <- init_from_channel_unit (unit_class self) u args ;;
      mutable_units <- _convert_channel_unit_to_mutable self rest ;;
      Ret (mutable_unit :: mutable_units)
  end.

(** [[ChannelUnit.init_from_cfg(model, cfg) for cfg in unit_configs.values()]] *)
Fixpoint init_channel_units (model : oid) (cfgs : list pyval) : prog (list oid) :=
  match cfgs with
  | [] => Ret []
  | cfg :: rest =>
      u <- channel_unit_init_from_cfg model cfg ;;
      us <- init_channel_units model rest ;;
      Ret (u :: us)
  end.

(** [_prepare_from_tracer] *)
Definition _prepare_from_tracer (self : t) (model : oid) (parse_cfg : pyval)
  : prog (list oid) :=
  tracer <-
    (if is_dict parse_cfg then task_utils_build parse_cfg
     else match parse_cfg with
          | PObj _ o => Ret o
          | _ => Throw (Exn AttributeError "analyze")
          end) ;;
  unit_configs <- analyze tracer model ;;
  units <- init_channel_units model (map snd unit_configs) ;;
  _convert_channel_unit_to_mutable self units.

(** The loop of [_prepare_from_cfg] over the keys of [config]; [config] is
    changed in place. *)
Fixpoint units_from_cfg (self : t) (model : oid) (keys : list string)
    (config : pyval) : prog (list oid * pyval) :=
  match keys with
  | [] => Ret ([], config)
  | unit_key :: rest =>
      let init_args := unit_default_args self in
      entry <- lift (getitem_str unit_key config) ;;
      has <- lift (contains_str "init_args" entry) ;;
      init_args <-
        (if (has : bool) then
           given <- lift (getitem_str "init_args" entry) ;;
           lift (update_val init_args given)
         else Ret init_args) ;;
      entry <- lift (setitem_str "init_args" init_args entry) ;;
      config <- lift (setitem_str unit_key entry config) ;;
      u <- init_from_cfg (unit_class self) model entry ;;
      r <- units_from_cfg self model rest config ;;
      Ret (u :: r.1, r.2)
  end.

(** [_prepare_from_cfg]; the argument [config] is overwritten at once.  The
    dict found under ['units'] is the object changed by the loop, so
    [channel_unit_cfg] sees the change unless the config came from a
    file.  [units_cfg], which [__init__] bound to the same dict, keeps in
    the record the value it had before: it is not read again on this
    way of parsing. *)
Definition _prepare_from_cfg (self : t) (model : oid) (config : pyval)
  : prog (list oid * t) :=
  assert (is_dict (channel_unit_cfg self)) ;;
  has <- lift (contains_str "units" (channel_unit_cfg self)) ;;
  assert has ;;
  config <- lift (getitem_str "units" (channel_unit_cfg self)) ;;
  match config with
  | PStr path =>
      config <- fileio_load path ;;
      assert (is_dict config) ;;
      r <- units_from_cfg self model
             (match config with PDict d => PyDict.keys d | _ => [] end) config ;;
      Ret (r.1, self)
  | _ =>
      assert (is_dict config) ;;
      r <- units_from_cfg self model
             (match config with PDict d => PyDict.keys d | _ => [] end) config ;;
      cuc <- lift (setitem_str "units" r.2 (channel_unit_cfg self)) ;;
      Ret (r.1, set_channel_unit_cfg cuc self)
  end.

(** The loop of [_prepare_from_predefined_model]; every [pop] changes
    [unit_default_args]. *)
Fixpoint mark_predefined (units : list oid) (default_args : pyval)
  : prog pyval :=
  match units with
  | [] => Ret default_args
  | u :: rest =>
      popped <- lift (pop_default "unit_predefined" (PBool false) default_args) ;;
      set_unit_predefined u popped.1 ;;
      mark_predefined rest popped.2
  end.

(** [_prepare_from_predefined_model] *)
Definition _prepare_from_predefined_model (self : t) (model : oid)
  : prog (list oid * t) :=
  units <- init_from_predefined_model (unit_class self) model ;;
  default_args <- mark_predefined units (unit_default_args self) ;;
  Ret (units, set_unit_default_args default_args self).

(** The chain of [if]/[elif] at the head of [prepare_from_supernet]. *)
Definition discover (self : t) (supernet : oid) : prog (list oid * t) :=
  by_tracer <-
    (if is_channel_analyzer (parse_cfg self) then Ret true
     else
       ty <- lift (getitem_str "type" (parse_cfg self)) ;;
       lift (contains_str "Analyzer" ty)) ;;
  if (by_tracer : bool) then
    units <- _prepare_from_tracer self supernet (parse_cfg self) ;;
    Ret (units, self)
  else
    ty <- lift (getitem_str "type" (parse_cfg self)) ;;
    if eq_str ty "Config" then _prepare_from_cfg self supernet (units_cfg self)
    else
      ty <- lift (getitem_str "type" (parse_cfg self)) ;;
      if eq_str ty "Predefined" then _prepare_from_predefined_model self supernet
      else Throw (Exn NotImplementedError "").

(** [for unit in units: unit.prepare_for_pruning(supernet);
                        self._name2unit[unit.name] = unit] *)
Fixpoint register (supernet : oid) (units : list oid) (n2u : gmap string oid)
  : prog (gmap string oid) :=
  match units with
  | [] => Ret n2u
  | u :: rest =>
      prepare_for_pruning u supernet ;;
      register supernet rest (<[unit_name u := u]> n2u)
  end.

(** property [mutable_units]: [[unit for unit in self.units if unit.is_mutable]] *)
Fixpoint mutable_of (units : list oid) : prog (list oid) :=
  match units with
  | [] => Ret []
  | u :: rest =>
      m <- is_mutable u ;;
      r <- mutable_of rest ;;
      Ret (if (m : bool) then u :: r else r)
  end.

Definition mutable_units (self : t) : prog (list oid) := mutable_of (units self).

(** property [mutable_class_type] *)
Definition mutable_class_type (self : t) : pyval := unit_class self.

(** [prepare_from_supernet] *)
Definition prepare_from_supernet (self : t) (supernet : oid) : prog t :=
  n2m <- named_modules supernet ;;
  let self := set_name2module (Bound n2m) self in
  found <- discover self supernet ;;
  let '(units, self) := found in
  n2u <- register supernet units (_name2unit self) ;;
  let self := set_name2unit n2u self in
  let self := set_units units self in
  mus <- mutable_units self ;;
  g <- build_search_groups mus (mutable_class_type self)
                           (_custom_groups self) ;;
  Ret (set_search_groups (Bound g) self).

(** *** Properties *)

(** The units among [units] that answered [is_mutable] with [True]. *)
Definition chosen (units : list oid) (flags : list bool) : list oid :=
  (filter (fun ub : oid * bool => ub.2 = true) (zip units flags)).*1.

Section Runs.
Context {W : Type} (h : handler ext ans W).

Lemma run_register supernet units n w tr n' w' :
  run h (register supernet units n) w = (tr, Ok (n', w')) ->
  tr = map (fun u => @Returned ext ans (PrepareForPruning u supernet) tt) units
  /\ n' = fold_left (fun n u => <[unit_name u := u]> n) units n.
Proof.
  revert n w tr. induction units as [|u rest IH]; intros n w tr; simpl.
  - by intros [= <- <- <-].
  - destruct (h (PrepareForPruning u supernet) w) as [[[] w1]|e]; [|done].
    destruct (run h (register supernet rest _) w1) as [tr1 r] eqn:E.
    intros [= <- ->]. destruct (IH _ _ _ E) as [-> ->]. done.
Qed.

Lemma run_mutable_of units w tr mus w' :
  run h (mutable_of units) w = (tr, Ok (mus, w')) ->
  exists flags,
    length flags = length units
    /\ tr = zip_with (fun u (b : bool) => @Returned ext ans (IsMutable u) b) units flags
    /\ mus = chosen units flags.
Proof.
  revert w tr mus. induction units as [|u rest IH]; intros w tr mus; simpl.
  - intros [= <- <- <-]. by exists [].
  - destruct (h (IsMutable u) w) as [[m w1]|e]; [|done].
    rewrite run_pbind.
    destruct (run h (mutable_of rest) w1) as [tr1 [[r w2]|e]] eqn:E;
      simpl; [|done].
    intros [= <- <- <-].
    destruct (IH _ _ _ E) as (flags & Hlen & -> & ->).
    exists (m :: flags).
    split_and!; [simpl; by rewrite Hlen | simpl; by rewrite app_nil_r |].
    unfold chosen. simpl. rewrite filter_cons. by destruct m.
Qed.

Lemma fold_insert_other (units : list oid) (n : gmap string oid) k :
  k ∉ unit_name <$> units ->
  fold_left (fun n u => <[unit_name u := u]> n) units n !! k = n !! k.
Proof.
  revert n. induction units as [|u rest IH]; intros n; simpl; [done|].
  rewrite not_elem_of_cons. intros [Hne Hk]. rewrite IH by done.
  by rewrite lookup_insert_ne.
Qed.


(** The tail of [prepare_from_supernet], after the units are found. *)
Lemma run_prepare_from_supernet self supernet w tr self' w' :
  run h (prepare_from_supernet self supernet) w = (tr, Ok (self', w')) ->
  exists n2m w0 tr_d units self1 w1 flags g,
    h (NamedModules supernet) w = Ok (n2m, w0)
    /\ run h (discover (set_name2module (Bound n2m) self) supernet) w0
       = (tr_d, Ok ((units, self1), w1))
    /\ length flags = length units
    /\ tr = @Returned ext ans (NamedModules supernet) n2m :: tr_d
            ++ map (fun u => @Returned ext ans (PrepareForPruning u supernet) tt) units
            ++ zip_with (fun u (b : bool) => @Returned ext ans (IsMutable u) b) units flags
            ++ [@Returned ext ans
                 (BuildSearchGroups (chosen units flags)
                    (unit_class self1) (_custom_groups self1)) g]
    /\ self' = set_search_groups (Bound g)
                 (set_units units
                    (set_name2unit
                       (fold_left (fun n u => <[unit_name u := u]> n) units
                                  (_name2unit self1))
                       self1)).
Proof.
  unfold prepare_from_supernet, named_modules. simpl.
  destruct (h (NamedModules supernet) w) as [[n2m w0]|e]; [|done].
  rewrite run_pbind.
  destruct (run h (discover _ supernet) w0) as [tr_d [[[units self1] w1]|e]]
    eqn:Ed; simpl; [|done].
  rewrite run_pbind.
  destruct (run h (register supernet units _) w1) as [tr_r [[n' w2]|e]]
    eqn:Er; simpl; [|done].
  destruct (run_register _ _ _ _ _ _ _ Er) as [-> ->].
  rewrite run_pbind. unfold mutable_units, set_units at 1. simpl.
  destruct (run h (mutable_of units) w2) as [tr_m [[mus w3]|e]] eqn:Em;
    simpl; [|done].
  destruct (run_mutable_of _ _ _ _ _ Em) as (flags & Hlen & -> & ->).
  unfold build_search_groups, mutable_class_type. simpl.
  destruct (h (BuildSearchGroups _ _ _) w3) as [[g w4]|e] eqn:Eg;
    simpl; [|done].
  intros [= <- <- <-].
  exists n2m, w0, tr_d, units, self1, w1, flags, g. done.
Qed.
End Runs.


Lemma get_without (k : string) (d : list (string * pyval)) :
  PyDict.get k (filter (fun kv : string * pyval => kv.1 <> k) d) = None.
Proof.
  induction d as [|[k' v] d IH]; [done|].
  rewrite filter_cons. destruct (decide ((k', v).1 <> k)) as [Hne|Heq];
    [|done].
  cbn [PyDict.get]. rewrite (proj2 (String.eqb_neq k k')); [done|].
  simpl in Hne. congruence.
Qed.

(** Where each way of parsing takes the units from. *)
Section Sources.
Context {W : Type} (h : handler ext ans W).

(** A config as [init_from_cfg] receives it: a dict with ['init_args']. *)
Definition has_init_args (cfg : pyval) : Prop :=
  exists d ia, cfg = PDict d /\ PyDict.get "init_args" d = Some ia.

Lemma run_units_from_cfg self model keys config w tr us config' w' :
  run h (units_from_cfg self model keys config) w = (tr, Ok ((us, config'), w')) ->
  Forall2 (fun en u => exists cfg,
             en = @Returned ext ans (InitFromCfg (unit_class self) model cfg) u
             /\ has_init_args cfg)
          tr us
  /\ length us = length keys.
Proof.
  revert config w tr us. induction keys as [|k rest IH];
    intros config w tr us; cbn [units_from_cfg].
  - simpl. intros [= <- <- <- <-]. split; [constructor | done].
  - destruct (getitem_str k config) as [entry|e]; simpl; [|done].
    destruct (contains_str "init_args" entry) as [has|e]; simpl; [|done].
    assert (Hstep : forall init_args,
      run h (pbind (lift (setitem_str "init_args" init_args entry))
               (fun entry =>
                  pbind (lift (setitem_str k entry config))
                    (fun config =>
                       pbind (init_from_cfg (unit_class self) model entry)
                         (fun u =>
                            pbind (units_from_cfg self model rest config)
                              (fun r => Ret (u :: r.1, r.2)))))) w
      = (tr, Ok (us, config', w')) ->
      Forall2 (fun en u => exists cfg,
                 en = @Returned ext ans
                        (InitFromCfg (unit_class self) model cfg) u
                 /\ has_init_args cfg) tr us
      /\ length us = S (length rest)).
    { intros init_args.
      destruct (setitem_str "init_args" init_args entry) as [entry'|e] eqn:Es;
        simpl; [|done].
      destruct (setitem_str k entry' config) as [config1|e]; simpl; [|done].
      destruct (h (InitFromCfg (unit_class self) model entry') w)
        as [[u w1]|e]; [|done].
      rewrite run_pbind.
      destruct (run h (units_from_cfg self model rest config1) w1)
        as [tr1 [[[us1 c1] w2]|e]] eqn:E; simpl; [|done].
      intros [= <- <- <- <-]. destruct (IH _ _ _ _ E) as [HF Hlen].
      rewrite app_nil_r. split; [|simpl; by rewrite Hlen].
      constructor; [|done]. exists entry'. split; [done|].
      destruct entry as [| | | | |d|]; simpl in Es; try done.
      injection Es as <-. exists (PyDict.set "init_args" init_args d), init_args.
      split; [done|]. apply PyDictFacts.get_set_eq. }
    destruct has; [|apply Hstep].
    destruct (getitem_str "init_args" entry) as [given|e]; simpl; [|done].
    destruct (update_val (unit_default_args self) given) as [ia|e]; simpl;
      [|done].
    apply Hstep.
Qed.

Lemma run_prepare_from_cfg self model config w tr found self1 w1 :
  run h (_prepare_from_cfg self model config) w = (tr, Ok ((found, self1), w1)) ->
  exists cuc units_entry d loaded,
    channel_unit_cfg self = PDict cuc
    /\ PyDict.get "units" cuc = Some units_entry
    /\ (units_entry = PDict d /\ loaded = tr
        \/ exists path, units_entry = PStr path
                        /\ tr = @Returned ext ans (FileioLoad path) (PDict d)
                                  :: loaded)
    /\ length found = length d
    /\ Forall2 (fun en u => exists cfg,
                  en = @Returned ext ans
                         (InitFromCfg (unit_class self) model cfg) u
                  /\ has_init_args cfg)
               loaded found
    /\ (self1 = self \/ exists c, self1 = set_channel_unit_cfg c self).
Proof.
  unfold _prepare_from_cfg, assert.
  destruct (channel_unit_cfg self) as [| | | | |cuc|] eqn:Ecuc; simpl;
    try done.
  unfold PyDict.mem, PyDict.getitem.
  destruct (PyDict.get "units" cuc) as [units_entry|] eqn:Eu; simpl; [|done].
  assert (Hloop : forall d tr0 r w0 w2,
    run h (pbind (units_from_cfg self model (PyDict.keys d) (PDict d)) r) w0
    = (tr0, Ok ((found, self1), w2)) ->
    (forall x, exists s, r x = Ret (x.1, s)) ->
    length found = length d
    /\ Forall2 (fun en u => exists cfg,
                  en = @Returned ext ans
                         (InitFromCfg (unit_class self) model cfg) u
                  /\ has_init_args cfg)
               tr0 found
    /\ exists x, r x = Ret (found, self1)).
  { intros d tr0 r w0 w2. rewrite run_pbind.
    destruct (run h (units_from_cfg self model (PyDict.keys d) (PDict d)) w0)
      as [tr1 [[[us c] w3]|e]] eqn:E; [|done].
    intros Hr Hret. destruct (Hret (us, c)) as [s Hs]. pose proof Hs as Hs'.
    rewrite Hs in Hr.
    simpl in Hr. injection Hr as <- <- <- <-. rewrite app_nil_r.
    destruct (run_units_from_cfg _ _ _ _ _ _ _ _ _ E) as [HF Hlen].
    split_and!; [|done|by exists (us, c)].
    rewrite Hlen. unfold PyDict.keys. by rewrite length_map. }
  destruct units_entry as [| | |path| |d|] eqn:Ee; simpl; try done.
  - unfold fileio_load. simpl.
    destruct (h (FileioLoad path) w) as [[config0 w0]|e]; [|done].
    destruct config0 as [| | | | |d|]; simpl; try done.
    destruct (run h (pbind (units_from_cfg self model (PyDict.keys d) (PDict d))
                           (fun r => Ret (r.1, self))) w0) as [tr0 r0] eqn:E.
    intros [= <- ->].
    destruct (Hloop d tr0 _ w0 w1 E) as (Hlen & HF & x & Hx); [by eexists|].
    exists cuc, (PStr path), d, tr0. split_and!; [done..| |done|done|].
    + right. by exists path.
    + left. by injection Hx as _ <-.
  - intros Hrun.
    destruct (Hloop d tr
                (fun r => pbind (lift (Ok (PDict (PyDict.set "units" r.2 cuc))))
                            (fun cuc0 => Ret (r.1, set_channel_unit_cfg cuc0 self)))
                w w1 Hrun) as (Hlen & HF & x & Hx); [by eexists|].
    exists cuc, (PDict d), d, tr. split_and!; [done|done|by left|done|done|].
    right. simpl in Hx. injection Hx as _ <-. by eexists.
Qed.

Lemma run_init_channel_units model cfgs w tr us w' :
  run h (init_channel_units model cfgs) w = (tr, Ok (us, w')) ->
  length us = length cfgs.
Proof.
  revert w tr us. induction cfgs as [|cfg rest IH]; intros w tr us; simpl.
  - by intros [= <- <- <-].
  - destruct (h (ChannelUnitInitFromCfg model cfg) w) as [[u w1]|e]; [|done].
    rewrite run_pbind.
    destruct (run h (init_channel_units model rest) w1)
      as [tr1 [[us1 w2]|e]] eqn:E; simpl; [|done].
    intros [= <- <- <-]. simpl. by rewrite (IH _ _ _ E).
Qed.

Lemma run_convert self us w tr mus w' :
  run h (_convert_channel_unit_to_mutable self us) w = (tr, Ok (mus, w')) ->
  length mus = length us.
Proof.
  revert w tr mus. induction us as [|u rest IH]; intros w tr mus;
    cbn [_convert_channel_unit_to_mutable].
  - simpl. by intros [= <- <- <-].
  - rewrite run_pbind.
    destruct (run h (lift (contains_str (unit_name u) (units_cfg self))) w)
      as [tr0 [[known w0]|e]]; [|done].
    rewrite run_pbind.
    destruct (run h _ w0) as [tr1 [[args w1]|e]]; [|done].
    unfold init_from_channel_unit. simpl.
    destruct (h (InitFromChannelUnit (unit_class self) u args) w1)
      as [[mu w2]|e]; [|done].
    rewrite run_pbind.
    destruct (run h (_convert_channel_unit_to_mutable self rest) w2)
      as [tr2 [[mus2 w3]|e]] eqn:E; simpl; [|done].
    intros [= <- <- <-]. simpl. by rewrite (IH _ _ _ E).
Qed.

Lemma run_prepare_from_tracer self model pc w tr found w1 :
  run h (_prepare_from_tracer self model pc) w = (tr, Ok (found, w1)) ->
  exists tracer unit_configs,
    @Returned ext ans (Analyze tracer model) unit_configs ∈ tr
    /\ length found = length unit_configs
    /\ (is_dict pc = true ->
        head tr = Some (@Returned ext ans (TaskUtilsBuild pc) tracer))
    /\ (forall cls o, pc = PObj cls o -> tracer = o).
Proof.
  unfold _prepare_from_tracer. rewrite run_pbind.
  destruct (run h _ w) as [tr0 [[tracer w0]|e]] eqn:Et; [|done].
  unfold analyze. simpl.
  destruct (h (Analyze tracer model) w0) as [[unit_configs w2]|e]; [|done].
  rewrite run_pbind.
  destruct (run h (init_channel_units model (map snd unit_configs)) w2)
    as [tr1 [[us w3]|e]] eqn:Ei; [|done].
  destruct (run h (_convert_channel_unit_to_mutable self us) w3)
    as [tr2 [[mus w4]|e]] eqn:Ec; [|done].
  intros [= <- <- <-]. exists tracer, unit_configs. split_and!.
  - apply elem_of_app. right. apply list_elem_of_here.
  - rewrite (run_convert _ _ _ _ _ _ Ec), (run_init_channel_units _ _ _ _ _ _ Ei).
    by rewrite length_map.
  - intros Hd. rewrite Hd in Et. unfold task_utils_build in Et. simpl in Et.
    destruct (h (TaskUtilsBuild pc) w) as [[t w5]|e]; [|done].
    by injection Et as <- <- <-.
  - intros cls o ->. simpl in Et. by injection Et as _ <- _.
Qed.

Lemma run_mark_predefined us args w tr args' w' :
  run h (mark_predefined us args) w = (tr, Ok (args', w')) ->
  map entry_call tr
  = zip_with SetUnitPredefined us
      (match args with
       | PDict d =>
           match PyDict.get "unit_predefined" d with
           | Some v => v
           | None => PBool false
           end
       | _ => PBool false
       end :: replicate (length us - 1) (PBool false)).
Proof.
  assert (Hrest : forall us d w tr args' w',
    PyDict.get "unit_predefined" d = None ->
    run h (mark_predefined us (PDict d)) w = (tr, Ok (args', w')) ->
    map entry_call tr
    = zip_with SetUnitPredefined us (replicate (length us) (PBool false))).
  { clear. intros us. induction us as [|u rest IH]; intros d w tr args' w' Hd;
      cbn [mark_predefined].
    - simpl. by intros [= <- <- <-].
    - simpl. rewrite Hd. unfold set_unit_predefined. simpl.
      destruct (h (SetUnitPredefined u (PBool false)) w) as [[[] w1]|e];
        [|done].
      destruct (run h (mark_predefined rest _) w1) as [tr1 r1] eqn:E.
      intros [= <- ->]. simpl. f_equal. eapply IH; [|exact E].
      apply get_without. }
  destruct us as [|u rest]; cbn [mark_predefined].
  - simpl. by intros [= <- <- <-].
  - destruct args as [| | | | |d|]; simpl; try done.
    unfold set_unit_predefined. simpl.
    destruct (h (SetUnitPredefined u _) w) as [[[] w1]|e]; [|done].
    destruct (run h (mark_predefined rest _) w1) as [tr1 r1] eqn:E.
    intros [= <- ->]. simpl. f_equal. rewrite Nat.sub_0_r.
    eapply Hrest; [|exact E]. apply get_without.
Qed.

Lemma run_prepare_from_predefined_model self model w tr found self1 w1 :
  run h (_prepare_from_predefined_model self model) w
  = (tr, Ok ((found, self1), w1)) ->
  exists tr',
    tr = @Returned ext ans (InitFromPredefinedModel (unit_class self) model)
           found :: tr'
    /\ map entry_call tr'
       = zip_with SetUnitPredefined found
           (match unit_default_args self with
            | PDict d =>
                match PyDict.get "unit_predefined" d with
                | Some v => v
                | None => PBool false
                end
            | _ => PBool false
            end :: replicate (length found - 1) (PBool false)).
Proof.
  unfold _prepare_from_predefined_model, init_from_predefined_model. simpl.
  destruct (h (InitFromPredefinedModel (unit_class self) model) w)
    as [[us w0]|e]; [|done].
  rewrite run_pbind.
  destruct (run h (mark_predefined us (unit_default_args self)) w0)
    as [tr1 [[args w2]|e]] eqn:E; simpl; [|done].
  intros [= <- <- <- <-]. exists tr1. rewrite app_nil_r.
  split; [done|]. by apply (run_mark_predefined _ _ _ _ _ _ E).
Qed.
End Sources.


(** *** Further properties: the three ways of parsing *)

Section More.
Context {W : Type} (h : handler ext ans W).

(** ['Config']: a run that returns found [channel_unit_cfg] to be a dict
    with a ['units'] entry, made one unit per key of that entry (of the
    file's content when the entry is a path) by [init_from_cfg], each from
    a config that carries ['init_args'], and made no other call than
    loading the file. *)
Theorem prepare_from_cfg_one_unit_per_key (self : t) (model : oid)
    (config : pyval) (w : W) tr (found : list oid) (self1 : t) (w1 : W) :
  run h (_prepare_from_cfg self model config) w = (tr, Ok ((found, self1), w1)) ->
  exists cuc units_entry d loaded,
    channel_unit_cfg self = PDict cuc
    /\ PyDict.get "units" cuc = Some units_entry
    /\ (units_entry = PDict d /\ loaded = tr
        \/ exists path, units_entry = PStr path
                        /\ tr = @Returned ext ans (FileioLoad path) (PDict d)
                                  :: loaded)
    /\ length found = length d
    /\ Forall2 (fun en u => exists cfg,
                  en = @Returned ext ans
                         (InitFromCfg (unit_class self) model cfg) u
                  /\ has_init_args cfg)
               loaded found.
Proof.
  intros Hrun.
  destruct (run_prepare_from_cfg h _ _ _ _ _ _ _ _ Hrun)
    as (cuc & ue & d & loaded & ? & ? & ? & ? & ? & _).
  by exists cuc, ue, d, loaded.
Qed.

(** ['Config'] without a config dict: when [channel_unit_cfg] is a class
    rather than a dict, or a dict without ['units'], the assertion fails
    before any call. *)
Theorem prepare_from_cfg_asserts (self : t) (model : oid) (config : pyval)
    (w : W) :
  (is_dict (channel_unit_cfg self) = false
   \/ exists d, channel_unit_cfg self = PDict d /\ PyDict.get "units" d = None) ->
  run h (_prepare_from_cfg self model config) w
  = ([], Raise (Exn AssertionError "")).
Proof.
  unfold _prepare_from_cfg, assert. intros [Hd|(d & -> & Hu)].
  - rewrite Hd. done.
  - simpl. unfold PyDict.mem. rewrite Hu. done.
Qed.

Lemma run_mark_predefined_gone us d w tr args' w' :
  PyDict.get "unit_predefined" d = None ->
  run h (mark_predefined us (PDict d)) w = (tr, Ok (args', w')) ->
  exists d', args' = PDict d' /\ PyDict.get "unit_predefined" d' = None.
Proof.
  revert d w tr. induction us as [|u rest IH]; intros d w tr Hd;
    cbn [mark_predefined].
  - simpl. intros [= <- <- <-]. by exists d.
  - simpl. unfold set_unit_predefined. simpl.
    destruct (h (SetUnitPredefined u _) w) as [[[] w1]|e]; [|done].
    destruct (run h (mark_predefined rest _) w1) as [tr1 r1] eqn:E.
    intros [= <- ->]. eapply IH; [|exact E]. apply get_without.
Qed.

(** ['Predefined']: the units are those [init_from_predefined_model]
    returns.  Only the first of them is given the configured
    ['unit_predefined']: the value is popped from [unit_default_args], so
    every later unit gets [False], and the key is gone afterwards. *)
Theorem predefined_flag_reaches_first_unit_only (self : t) (model : oid)
    (w : W) tr (found : list oid) (self1 : t) (w1 : W) :
  run h (_prepare_from_predefined_model self model) w
  = (tr, Ok ((found, self1), w1)) ->
  exists tr',
    tr = @Returned ext ans (InitFromPredefinedModel (unit_class self) model)
           found :: tr'
    /\ map entry_call tr'
       = zip_with SetUnitPredefined found
           (match unit_default_args self with
            | PDict d =>
                match PyDict.get "unit_predefined" d with
                | Some v => v
                | None => PBool false
                end
            | _ => PBool false
            end :: replicate (length found - 1) (PBool false))
    /\ (found <> [] ->
        contains_str "unit_predefined" (unit_default_args self1) = Ok false).
Proof.
  intros Hrun.
  destruct (run_prepare_from_predefined_model h _ _ _ _ _ _ _ Hrun)
    as (tr' & -> & Hcalls).
  exists tr'. split_and!; [done..|]. intros Hne.
  revert Hrun.
  unfold _prepare_from_predefined_model, init_from_predefined_model. simpl.
  destruct (h (InitFromPredefinedModel (unit_class self) model) w)
    as [[us w0]|e]; [|done].
  rewrite run_pbind.
  destruct (run h (mark_predefined us (unit_default_args self)) w0)
    as [tr1 [[args w2]|e]] eqn:E; simpl; [|done].
  intros [= _ <- <- <-]. simpl.
  destruct us as [|u rest]; [done|]. cbn [mark_predefined] in E.
  destruct (unit_default_args self) as [| | | | |d|]; simpl in E; try done.
  unfold set_unit_predefined in E. simpl in E.
  destruct (h (SetUnitPredefined u _) w0) as [[[] w3]|e]; [|done].
  destruct (run h (mark_predefined rest _) w3) as [tr2 r2] eqn:E2.
  injection E as _ ->.
  destruct (run_mark_predefined_gone _ _ _ _ _ _ (get_without _ _) E2)
    as (d' & -> & Hd').
  simpl. unfold PyDict.mem. by rewrite Hd'.
Qed.

(** The tracer: [analyze] is called on the analyzer given as [parse_cfg],
    or on the one [TASK_UTILS.build] makes from a dict [parse_cfg] as the
    first call, and there are as many units as the analysis has unit
    configs. *)
Theorem prepare_from_tracer_analyzes (self : t) (model : oid) (pc : pyval)
    (w : W) tr (found : list oid) (w1 : W) :
  run h (_prepare_from_tracer self model pc) w = (tr, Ok (found, w1)) ->
  exists tracer unit_configs,
    @Returned ext ans (Analyze tracer model) unit_configs ∈ tr
    /\ length found = length unit_configs
    /\ (is_dict pc = true ->
        head tr = Some (@Returned ext ans (TaskUtilsBuild pc) tracer))
    /\ (forall cls o, pc = PObj cls o -> tracer = o).
Proof. apply run_prepare_from_tracer. Qed.
End More.

(** *** Further properties: construction and the registry of units *)

(** property [search_groups]: the attribute as it is; [__init__] does not
    assign it. *)
Definition search_groups (self : t) : result pyval :=
  getattr "_search_groups" (_search_groups self).

Lemma eq_str_true v s : eq_str v s = true -> v = PStr s.
Proof.
  destruct v; simpl; try done. intros H. apply String.eqb_eq in H. by subst.
Qed.

Section Construction.
Context {W : Type} (h : handler ext ans W).

(** [_parse_channel_unit_cfg] on a dict: the unit class is what the
    registry has under ['type'], the default arguments and the unit configs
    are the entries ['default_args'] and ['units'] or empty dicts, and a
    path under ['units'] is replaced by the content of the file. *)
Theorem parse_channel_unit_cfg_dict (d : list (string * pyval)) (w w' : W) tr
    (cls args ucfg : pyval) :
  run h (_parse_channel_unit_cfg (PDict d)) w = (tr, Ok ((cls, args, ucfg), w')) ->
  exists ty,
    PyDict.get "type" d = Some ty
    /\ head tr = Some (@Returned ext ans (ModuleDict ty) cls)
    /\ args = match PyDict.get "default_args" d with
              | Some a => a
              | None => PDict []
              end
    /\ match PyDict.get "units" d with
       | None => ucfg = PDict [] /\ length tr = 1
       | Some (PStr path) =>
           tr = [@Returned ext ans (ModuleDict ty) cls;
                 @Returned ext ans (FileioLoad path) ucfg]
       | Some v => ucfg = v /\ length tr = 1
       end.
Proof.
  unfold _parse_channel_unit_cfg. cbn [is_dict getitem_str].
  unfold PyDict.getitem. destruct (PyDict.get "type" d) as [ty|]; [|done].
  cbn [lift pbind]. unfold module_dict. simpl.
  destruct (h (ModuleDict ty) w) as [[c w1]|e]; [|done].
  unfold PyDict.mem, PyDict.getitem.
  destruct (PyDict.get "default_args" d) as [a|];
    destruct (PyDict.get "units" d) as [u|]; simpl.
  - destruct u as [| | |path| | |]; simpl;
      try (intros [= <- <- <- <- <-]; by exists ty).
    unfold fileio_load. simpl.
    destruct (h (FileioLoad path) w1) as [[f w2]|e]; [|done]. simpl.
    intros [= <- <- <- <- <-]. by exists ty.
  - intros [= <- <- <- <- <-]. by exists ty.
  - destruct u as [| | |path| | |]; simpl;
      try (intros [= <- <- <- <- <-]; by exists ty).
    unfold fileio_load. simpl.
    destruct (h (FileioLoad path) w1) as [[f w2]|e]; [|done]. simpl.
    intros [= <- <- <- <- <-]. by exists ty.
  - intros [= <- <- <- <- <-]. by exists ty.
Qed.

(** [_parse_channel_unit_cfg] off the happy path: a dict without ['type']
    raises [KeyError] before any call, and a value that is neither a dict
    nor a subclass of [MutableChannelUnit] raises [NotImplementedError]; a
    subclass is the unit class, with empty default arguments and configs. *)
Theorem parse_channel_unit_cfg_other (c : pyval) (w : W) :
  (forall d, c = PDict d -> PyDict.get "type" d = None ->
     run h (_parse_channel_unit_cfg c) w = ([], Raise (Exn KeyError "type")))
  /\
  (is_dict c = false ->
   run h (_parse_channel_unit_cfg c) w =
   match h (IsMutableChannelUnitClass c) w with
   | Ok (true, w1) =>
       ([@Returned ext ans (IsMutableChannelUnitClass c) true],
        Ok ((c, PDict [], PDict []), w1))
   | Ok (false, w1) =>
       ([@Returned ext ans (IsMutableChannelUnitClass c) false],
        Raise (Exn NotImplementedError ""))
   | Raise e => ([@Raised ext ans (IsMutableChannelUnitClass c) e], Raise e)
   end).
Proof.
  split.
  - intros d -> Hd. unfold _parse_channel_unit_cfg. cbn [is_dict getitem_str].
    unfold PyDict.getitem. by rewrite Hd.
  - intros Hd. unfold _parse_channel_unit_cfg. rewrite Hd.
    unfold is_mutable_channel_unit_class. simpl.
    by destruct (h (IsMutableChannelUnitClass c) w) as [[[] w1]|e].
Qed.

(** A mutator that [__init__] has built holds the arguments as given, no
    unit and no search groups (reading [search_groups] raises
    [AttributeError]).  If [parse_cfg] is a dict, its ['type'] is one of
    the three admitted, so [prepare_from_supernet] takes one of the three
    ways of parsing and cannot raise [NotImplementedError]. *)
Theorem init_admits_three_types (channel_unit_cfg parse_cfg0 : pyval)
    (custom_groups : option (list (list string))) (init_cfg : pyval)
    (w w' : W) tr (self : t) :
  run h (__init__ channel_unit_cfg parse_cfg0 custom_groups init_cfg) w
  = (tr, Ok (self, w')) ->
  parse_cfg self = parse_cfg0
  /\ ChannelMutator.channel_unit_cfg self = channel_unit_cfg
  /\ _name2unit self = ∅ /\ units self = []
  /\ _custom_groups self = match custom_groups with None => [] | Some g => g end
  /\ search_groups self = Raise (Exn AttributeError "_search_groups")
  /\ (is_dict parse_cfg0 = true ->
      exists ty,
        getitem_str "type" parse_cfg0 = Ok (PStr ty)
        /\ (ty = "ChannelAnalyzer" \/ ty = "Config" \/ ty = "Predefined")
        /\ forall supernet,
             (ty = "ChannelAnalyzer" ->
              discover self supernet =
              pbind (_prepare_from_tracer self supernet (parse_cfg self))
                    (fun units => Ret (units, self)))
             /\ (ty = "Config" ->
                 discover self supernet
                 = _prepare_from_cfg self supernet (units_cfg self))
             /\ (ty = "Predefined" ->
                 discover self supernet
                 = _prepare_from_predefined_model self supernet)).
Proof.
  unfold __init__, base_init. simpl.
  destruct (h (BaseInit init_cfg) w) as [[[] w1]|e]; [|done].
  rewrite run_pbind.
  destruct (run h _ w1) as [tr1 [[[] w2]|e]] eqn:Ec; [|done].
  rewrite run_pbind.
  destruct (run h (_parse_channel_unit_cfg channel_unit_cfg) w2)
    as [tr2 [[[[cls args] ucfg] w3]|e]] eqn:Ep; simpl; [|done].
  intros [= <- <- <-]. split_and!; [done..|].
  intros Hd. rewrite Hd in Ec.
  destruct (getitem_str "type" parse_cfg0) as [ty|e] eqn:Ety; simpl in Ec;
    [|done].
  assert (Hty : eq_str ty "ChannelAnalyzer" || eq_str ty "Config"
                || eq_str ty "Predefined" = true).
  { destruct (_ || _ || _); [done | simpl in Ec; done]. }
  assert (Hpc : is_channel_analyzer parse_cfg0 = false).
  { destruct parse_cfg0; simpl in Hd |- *; done. }
  apply orb_true_iff in Hty as [Hty|Hty];
    [apply orb_true_iff in Hty as [Hty|Hty]|];
    apply eq_str_true in Hty; subst ty; eexists; (split; [reflexivity|]);
    (split; [tauto|]); intros supernet;
    (split_and!; intros [=]; unfold discover; simpl;
     rewrite Hpc, Ety; reflexivity).
Qed.

Lemma run_predefined_self self model w tr found self1 w1 :
  run h (_prepare_from_predefined_model self model) w
  = (tr, Ok ((found, self1), w1)) ->
  exists a, self1 = set_unit_default_args a self.
Proof.
  unfold _prepare_from_predefined_model, init_from_predefined_model. simpl.
  destruct (h (InitFromPredefinedModel (unit_class self) model) w)
    as [[us w0]|e]; [|done].
  rewrite run_pbind.
  destruct (run h (mark_predefined us (unit_default_args self)) w0)
    as [tr1 [[args w2]|e]]; simpl; [|done].
  intros [= _ _ <- _]. by eexists.
Qed.

(** What [discover] may change of the mutator: [channel_unit_cfg] and
    [unit_default_args] only. *)
Lemma run_discover_frame self supernet w tr found self1 w1 :
  run h (discover self supernet) w = (tr, Ok ((found, self1), w1)) ->
  exists c a, self1 = set_channel_unit_cfg c (set_unit_default_args a self).
Proof.
  assert (Hid : exists c a,
             self = set_channel_unit_cfg c (set_unit_default_args a self)).
  { exists (channel_unit_cfg self), (unit_default_args self). by destruct self. }
  unfold discover. rewrite run_pbind.
  destruct (run h _ w) as [tr0 [[by_tracer w0]|e]]; [|done].
  destruct by_tracer.
  - rewrite run_pbind.
    destruct (run h (_prepare_from_tracer self supernet (parse_cfg self)) w0)
      as [tr1 [[us w2]|e]]; simpl; [|done].
    by intros [= _ _ <- _].
  - destruct (getitem_str "type" (parse_cfg self)) as [ty|e]; simpl; [|done].
    destruct (eq_str ty "Config").
    + destruct (run h (_prepare_from_cfg self supernet (units_cfg self)) w0)
        as [tr1 r1] eqn:E. intros [= _ ->].
      destruct (run_prepare_from_cfg h _ _ _ _ _ _ _ _ E)
        as (_ & _ & _ & _ & _ & _ & _ & _ & _ & [->|[c ->]]); [done|].
      exists c, (unit_default_args self). by destruct self.
    + destruct (eq_str ty "Predefined"); [|simpl; done].
      destruct (run h (_prepare_from_predefined_model self supernet) w0)
        as [tr1 r1] eqn:E. intros [= _ ->].
      destruct (run_predefined_self _ _ _ _ _ _ _ E) as [a ->].
      exists (channel_unit_cfg self), a. by destruct self.
Qed.

(** [prepare_from_supernet] adds to [_name2unit] and never clears it: a
    name registered before that no unit found now carries is still there.
    Once it has returned, [search_groups] returns what
    [build_search_groups] answered, the last call made. *)
Theorem prepare_from_supernet_keeps_registry (self : t) (supernet : oid)
    (w w' : W) tr (self' : t) :
  run h (prepare_from_supernet self supernet) w = (tr, Ok (self', w')) ->
  (forall k, k ∉ unit_name <$> units self' ->
             _name2unit self' !! k = _name2unit self !! k)
  /\ parse_cfg self' = parse_cfg self
  /\ unit_class self' = unit_class self
  /\ _custom_groups self' = _custom_groups self
  /\ exists g mus,
       search_groups self' = Ok g
       /\ last tr = Some (@Returned ext ans
                            (BuildSearchGroups mus (unit_class self)
                               (_custom_groups self)) g).
Proof.
  intros Hrun.
  destruct (run_prepare_from_supernet h self supernet w tr self' w' Hrun)
    as (n2m & w0 & tr_d & found & self1 & w1 & flags & g
        & Hh & Hd & Hlen & -> & ->).
  destruct (run_discover_frame _ _ _ _ _ _ _ Hd) as (c & a & ->).
  simpl. split_and!; [|done..|].
  - intros k Hk. by apply fold_insert_other.
  - exists g, (chosen found flags). split; [done|].
    rewrite app_comm_cons, !app_assoc. by rewrite last_snoc.
Qed.
End Construction.

(** *** Further properties: converting traced units *)

(** The arguments [_convert_channel_unit_to_mutable] passes for a unit. *)
Definition convert_args (self : t) (d : list (string * pyval)) (u : oid)
  : pyval :=
  match PyDict.get (unit_name u) d with
  | Some (PDict e) =>
      match PyDict.get "init_args" e with
      | Some a => a
      | None => unit_default_args self
      end
  | _ => unit_default_args self
  end.

Section Convert.
Context {W : Type} (h : handler ext ans W).

Lemma convert_step self d u rest :
  units_cfg self = PDict d ->
  Forall (fun kv : string * pyval => is_dict kv.2 = true) d ->
  _convert_channel_unit_to_mutable self (u :: rest) =
  pbind (init_from_channel_unit (unit_class self) u (convert_args self d u))
    (fun mutable_unit =>
       pbind (_convert_channel_unit_to_mutable self rest)
         (fun mutable_units => Ret (mutable_unit :: mutable_units))).
Proof.
  intros Hd Hall. cbn [_convert_channel_unit_to_mutable]. rewrite Hd.
  unfold convert_args. cbn [contains_str getitem_str].
  unfold PyDict.mem, PyDict.getitem.
  destruct (PyDict.get (unit_name u) d) as [cfg|] eqn:Ecfg; cbn [lift pbind];
    [|done].
  apply PyDictFacts.get_Some_elem in Ecfg.
  rewrite Forall_forall in Hall. specialize (Hall _ Ecfg). simpl in Hall.
  destruct cfg as [| | | | |e|]; try done.
  cbn [contains_str getitem_str]. unfold PyDict.mem, PyDict.getitem.
  by destruct (PyDict.get "init_args" e) as [a|]; cbn [lift pbind].
Qed.

(** A traced unit whose name has an entry with ['init_args'] in the unit
    configs is converted with exactly these arguments (the default
    arguments are not merged in, unlike in [_prepare_from_cfg]); every
    other unit with the default arguments.  One unit is made per traced
    unit, in order. *)
Theorem convert_uses_unit_init_args (self : t) (d : list (string * pyval))
    (us : list oid) (w : W) tr (mus : list oid) (w' : W) :
  units_cfg self = PDict d ->
  Forall (fun kv : string * pyval => is_dict kv.2 = true) d ->
  run h (_convert_channel_unit_to_mutable self us) w = (tr, Ok (mus, w')) ->
  tr = zip_with (fun u mu =>
                   @Returned ext ans
                     (InitFromChannelUnit (unit_class self) u
                        (convert_args self d u)) mu) us mus
  /\ length mus = length us.
Proof.
  intros Hd Hall. revert w tr mus.
  induction us as [|u rest IH]; intros w tr mus.
  - simpl. by intros [= <- <- <-].
  - rewrite (convert_step self d u rest Hd Hall).
    unfold init_from_channel_unit. simpl.
    destruct (h (InitFromChannelUnit (unit_class self) u (convert_args self d u)) w)
      as [[mu w1]|e]; [|done].
    rewrite run_pbind.
    destruct (run h (_convert_channel_unit_to_mutable self rest) w1)
      as [tr1 [[mus1 w2]|e]] eqn:E; simpl; [|done].
    intros [= <- <- <-]. destruct (IH _ _ _ E) as [-> Hlen].
    rewrite app_nil_r. simpl. by rewrite Hlen.
Qed.
End Convert.

End Class.
(** *** A small framework

    Every call succeeds and the world counts the calls.  The predefined
    model has the units 20, 21 and 22, of which 21 is not mutable. *)
Definition ex_unit_name (u : oid) : string := "unit_" +:+ pretty u.

Definition ex_handler : handler ext ans nat :=
  fun c w =>
    match c return result (ans c * nat) with
    | BaseInit _ | SetUnitPredefined _ _ | PrepareForPruning _ _ => Ok (tt, S w)
    | ModuleDict _ => Ok (PObj "type" 7, S w)
    | FileioLoad _ => Ok (PDict [("u0", PDict [])], S w)
    | IsMutableChannelUnitClass _ => Ok (true, S w)
    | NamedModules _ => Ok ([("conv1", 10); ("conv2", 11)], S w)
    | TaskUtilsBuild _ => Ok (50, S w)
    | Analyze _ _ =>
        Ok ([("conv1_(0, 8)_8", PDict []); ("conv2_(0, 16)_16", PDict [])], S w)
    | ChannelUnitInitFromCfg _ _ => Ok (100 + w, S w)
    | InitFromChannelUnit _ u _ => Ok (100 + u, S w)
    | InitFromCfg _ _ _ => Ok (300 + w, S w)
    | InitFromPredefinedModel _ _ => Ok ([20; 21; 22], S w)
    | IsMutable u => Ok (negb (Nat.eqb u 21), S w)
    | BuildSearchGroups mus _ _ =>
        Ok (PList (map (fun u => PInt (Z.of_nat u)) mus), S w)
    end.

Definition ex_cfg : pyval :=
  PDict [("type", PStr "SequentialMutableChannelUnit");
         ("default_args", PDict [("choice_mode", PStr "ratio")]);
         ("units", PDict [("u0", PDict []);
                          ("u1", PDict [("init_args",
                                         PDict [("num_channels", PInt 8)])])])].

Definition ex_self (parse_cfg : pyval) : t :=
  Mutator parse_cfg ∅ [] ex_cfg (PObj "type" 7)
          (PDict [("choice_mode", PStr "ratio")])
          (PDict [("u0", PDict []);
                  ("u1", PDict [("init_args", PDict [("num_channels", PInt 8)])])])
          [] Unbound Unbound.

Definition ex_typed (ty : string) : pyval := PDict [("type", PStr ty)].

Definition ex_run (parse_cfg : pyval)
  : list (entry ext ans) * result (t * nat) :=
  run ex_handler (prepare_from_supernet ex_unit_name (ex_self parse_cfg) 9) 0.

Definition ex_final (parse_cfg : pyval) : t * nat :=
  match (ex_run parse_cfg).2 with
  | Ok x => x
  | Raise _ => (ex_self parse_cfg, 0)
  end.

Example prepare_from_supernet_predefined :
  map entry_call (ex_run (ex_typed "Predefined")).1
  = [NamedModules 9; InitFromPredefinedModel (PObj "type" 7) 9;
     SetUnitPredefined 20 (PBool false); SetUnitPredefined 21 (PBool false);
     SetUnitPredefined 22 (PBool false);
     PrepareForPruning 20 9; PrepareForPruning 21 9; PrepareForPruning 22 9;
     IsMutable 20; IsMutable 21; IsMutable 22;
     BuildSearchGroups [20; 22] (PObj "type" 7) []]
  /\ units (ex_final (ex_typed "Predefined")).1 = [20; 21; 22]
  /\ _search_groups (ex_final (ex_typed "Predefined")).1
     = Bound (PList [PInt 20; PInt 22])
  /\ _name2unit (ex_final (ex_typed "Predefined")).1 !! "unit_21" = Some 21.
Proof. repeat split; vm_compute; reflexivity. Qed.

Example prepare_from_supernet_config :
  map entry_call (ex_run (ex_typed "Config")).1
  = [NamedModules 9;
     InitFromCfg (PObj "type" 7) 9
       (PDict [("init_args", PDict [("choice_mode", PStr "ratio")])]);
     InitFromCfg (PObj "type" 7) 9
       (PDict [("init_args", PDict [("choice_mode", PStr "ratio");
                                    ("num_channels", PInt 8)])]);
     PrepareForPruning 301 9; PrepareForPruning 302 9;
     IsMutable 301; IsMutable 302;
     BuildSearchGroups [301; 302] (PObj "type" 7) []].
Proof. vm_compute. reflexivity. Qed.

Example prepare_from_supernet_tracer :
  map entry_call (ex_run (ex_typed "ChannelAnalyzer")).1
  = [NamedModules 9; TaskUtilsBuild (ex_typed "ChannelAnalyzer"); Analyze 50 9;
     ChannelUnitInitFromCfg 9 (PDict []); ChannelUnitInitFromCfg 9 (PDict []);
     InitFromChannelUnit (PObj "type" 7) 103
       (PDict [("choice_mode", PStr "ratio")]);
     InitFromChannelUnit (PObj "type" 7) 104
       (PDict [("choice_mode", PStr "ratio")]);
     PrepareForPruning 203 9; PrepareForPruning 204 9;
     IsMutable 203; IsMutable 204;
     BuildSearchGroups [203; 204] (PObj "type" 7) []]
  /\ map entry_call (ex_run (PObj "ChannelAnalyzer" 50)).1
     = [NamedModules 9; Analyze 50 9;
        ChannelUnitInitFromCfg 9 (PDict []); ChannelUnitInitFromCfg 9 (PDict []);
        InitFromChannelUnit (PObj "type" 7) 102
          (PDict [("choice_mode", PStr "ratio")]);
        InitFromChannelUnit (PObj "type" 7) 103
          (PDict [("choice_mode", PStr "ratio")]);
        PrepareForPruning 202 9; PrepareForPruning 203 9;
        IsMutable 202; IsMutable 203;
        BuildSearchGroups [202; 203] (PObj "type" 7) []].
Proof. split; vm_compute; reflexivity. Qed.


(** *** The further properties on the small framework *)

Definition ok_or {A} (r : result A) (default : A) : A :=
  match r with Ok a => a | Raise _ => default end.

Definition ex_config_self : t := ex_self (ex_typed "Config").
Definition ex_config_run := run ex_handler (_prepare_from_cfg ex_config_self 9 PNone) 0.
Definition ex_config_out := ok_or ex_config_run.2 (([], ex_config_self), 0).

Lemma prepare_from_cfg_one_unit_per_key_witness :
  exists cuc units_entry d loaded,
    channel_unit_cfg ex_config_self = PDict cuc
    /\ PyDict.get "units" cuc = Some units_entry
    /\ (units_entry = PDict d /\ loaded = ex_config_run.1
        \/ exists path, units_entry = PStr path
                        /\ ex_config_run.1
                           = @Returned ext ans (FileioLoad path) (PDict d)
                               :: loaded)
    /\ length ex_config_out.1.1 = length d
    /\ Forall2 (fun en u => exists cfg,
                  en = @Returned ext ans
                         (InitFromCfg (unit_class ex_config_self) 9 cfg) u
                  /\ has_init_args cfg)
               loaded ex_config_out.1.1.
Proof.
  apply (prepare_from_cfg_one_unit_per_key ex_handler ex_config_self 9 PNone 0
           ex_config_run.1 ex_config_out.1.1 ex_config_out.1.2 ex_config_out.2).
  vm_compute. reflexivity.
Defined.

(** The default [channel_unit_cfg], a class, under [parse_cfg] of type
    ['Config']. *)
Definition ex_class_self : t :=
  Mutator (ex_typed "Config") ∅ [] (PObj "type" 7) (PObj "type" 7) (PDict [])
          (PDict []) [] Unbound Unbound.

Lemma prepare_from_cfg_asserts_witness :
  run ex_handler (_prepare_from_cfg ex_class_self 9 (PDict [])) 0
  = ([], Raise (Exn AssertionError "")).
Proof.
  apply (prepare_from_cfg_asserts ex_handler ex_class_self 9 (PDict []) 0).
  left. reflexivity.
Defined.

Definition ex_flag_self : t :=
  set_unit_default_args
    (PDict [("unit_predefined", PBool true); ("choice_mode", PStr "ratio")])
    (ex_self (ex_typed "Predefined")).
Definition ex_flag_run :=
  run ex_handler (_prepare_from_predefined_model ex_flag_self 9) 0.
Definition ex_flag_out := ok_or ex_flag_run.2 (([], ex_flag_self), 0).

Example predefined_flag_example :
  map entry_call ex_flag_run.1
  = [InitFromPredefinedModel (PObj "type" 7) 9;
     SetUnitPredefined 20 (PBool true); SetUnitPredefined 21 (PBool false);
     SetUnitPredefined 22 (PBool false)]
  /\ unit_default_args ex_flag_out.1.2 = PDict [("choice_mode", PStr "ratio")].
Proof. split; vm_compute; reflexivity. Qed.

Lemma predefined_flag_reaches_first_unit_only_witness :
  exists tr',
    ex_flag_run.1
    = @Returned ext ans (InitFromPredefinedModel (unit_class ex_flag_self) 9)
        ex_flag_out.1.1 :: tr'
    /\ map entry_call tr'
       = zip_with SetUnitPredefined ex_flag_out.1.1
           (match unit_default_args ex_flag_self with
            | PDict d =>
                match PyDict.get "unit_predefined" d with
                | Some v => v
                | None => PBool false
                end
            | _ => PBool false
            end :: replicate (length ex_flag_out.1.1 - 1) (PBool false))
    /\ (ex_flag_out.1.1 <> [] ->
        contains_str "unit_predefined" (unit_default_args ex_flag_out.1.2)
        = Ok false).
Proof.
  apply (predefined_flag_reaches_first_unit_only ex_handler ex_flag_self 9 0
           ex_flag_run.1 ex_flag_out.1.1 ex_flag_out.1.2 ex_flag_out.2).
  vm_compute. reflexivity.
Defined.

Definition ex_tracer_self : t := ex_self (ex_typed "ChannelAnalyzer").
Definition ex_tracer_run :=
  run ex_handler
    (_prepare_from_tracer ex_unit_name ex_tracer_self 9 (ex_typed "ChannelAnalyzer"))
    0.
Definition ex_tracer_out := ok_or ex_tracer_run.2 ([], 0).

Lemma prepare_from_tracer_analyzes_witness :
  exists tracer unit_configs,
    @Returned ext ans (Analyze tracer 9) unit_configs ∈ ex_tracer_run.1
    /\ length ex_tracer_out.1 = length unit_configs
    /\ (is_dict (ex_typed "ChannelAnalyzer") = true ->
        head ex_tracer_run.1
        = Some (@Returned ext ans (TaskUtilsBuild (ex_typed "ChannelAnalyzer"))
                  tracer))
    /\ (forall cls o, ex_typed "ChannelAnalyzer" = PObj cls o -> tracer = o).
Proof.
  apply (prepare_from_tracer_analyzes ex_unit_name ex_handler ex_tracer_self 9
           (ex_typed "ChannelAnalyzer") 0 ex_tracer_run.1 ex_tracer_out.1
           ex_tracer_out.2).
  vm_compute. reflexivity.
Defined.

Definition ex_units_cfg : list (string * pyval) :=
  [("unit_5", PDict [("init_args", PDict [("num_channels", PInt 4)])]);
   ("unit_6", PDict [])].
Definition ex_convert_self : t :=
  Mutator (ex_typed "ChannelAnalyzer") ∅ [] ex_cfg (PObj "type" 7)
          (PDict [("choice_mode", PStr "ratio")]) (PDict ex_units_cfg) []
          Unbound Unbound.
Definition ex_convert_run :=
  run ex_handler
    (_convert_channel_unit_to_mutable ex_unit_name ex_convert_self [5; 6; 7]) 0.
Definition ex_convert_out := ok_or ex_convert_run.2 ([], 0).

Example convert_example :
  map entry_call ex_convert_run.1
  = [InitFromChannelUnit (PObj "type" 7) 5 (PDict [("num_channels", PInt 4)]);
     InitFromChannelUnit (PObj "type" 7) 6 (PDict [("choice_mode", PStr "ratio")]);
     InitFromChannelUnit (PObj "type" 7) 7 (PDict [("choice_mode", PStr "ratio")])].
Proof. vm_compute. reflexivity. Qed.

Lemma convert_uses_unit_init_args_witness :
  ex_convert_run.1
  = zip_with (fun u mu =>
                @Returned ext ans
                  (InitFromChannelUnit (unit_class ex_convert_self) u
                     (convert_args ex_unit_name ex_convert_self ex_units_cfg u))
                  mu) [5; 6; 7] ex_convert_out.1
  /\ length ex_convert_out.1 = length [5; 6; 7].
Proof.
  apply (convert_uses_unit_init_args ex_unit_name ex_handler ex_convert_self
           ex_units_cfg [5; 6; 7] 0 ex_convert_run.1 ex_convert_out.1
           ex_convert_out.2).
  - reflexivity.
  - repeat constructor.
  - vm_compute. reflexivity.
Defined.

Definition ex_parse_run :=
  run ex_handler
    (_parse_channel_unit_cfg
       (PDict [("type", PStr "L1MutableChannelUnit");
               ("units", PStr "units.json")])) 0.

Lemma parse_channel_unit_cfg_dict_witness :
  exists ty,
    PyDict.get "type" [("type", PStr "L1MutableChannelUnit");
                       ("units", PStr "units.json")] = Some ty
    /\ head ex_parse_run.1
       = Some (@Returned ext ans (ModuleDict ty) (PObj "type" 7))
    /\ PDict [] = match PyDict.get "default_args"
                          [("type", PStr "L1MutableChannelUnit");
                           ("units", PStr "units.json")] with
                  | Some a => a
                  | None => PDict []
                  end
    /\ match PyDict.get "units" [("type", PStr "L1MutableChannelUnit");
                                 ("units", PStr "units.json")] with
       | None => PDict [("u0", PDict [])] = PDict [] /\ length ex_parse_run.1 = 1
       | Some (PStr path) =>
           ex_parse_run.1
           = [@Returned ext ans (ModuleDict ty) (PObj "type" 7);
              @Returned ext ans (FileioLoad path) (PDict [("u0", PDict [])])]
       | Some v => PDict [("u0", PDict [])] = v /\ length ex_parse_run.1 = 1
       end.
Proof.
  apply (parse_channel_unit_cfg_dict ex_handler
           [("type", PStr "L1MutableChannelUnit"); ("units", PStr "units.json")]
           0 2 ex_parse_run.1 (PObj "type" 7) (PDict [])
           (PDict [("u0", PDict [])])).
  vm_compute. reflexivity.
Defined.

Lemma parse_channel_unit_cfg_other_witness :
  run ex_handler (_parse_channel_unit_cfg (PDict [("units", PDict [])])) 0
  = ([], Raise (Exn KeyError "type"))
  /\ run ex_handler (_parse_channel_unit_cfg (PObj "type" 7)) 0
     = ([@Returned ext ans (IsMutableChannelUnitClass (PObj "type" 7)) true],
        Ok ((PObj "type" 7, PDict [], PDict []), 1)).
Proof.
  split.
  - apply (proj1 (parse_channel_unit_cfg_other ex_handler
                    (PDict [("units", PDict [])]) 0) [("units", PDict [])]);
      reflexivity.
  - apply (proj2 (parse_channel_unit_cfg_other ex_handler (PObj "type" 7) 0)).
    reflexivity.
Defined.

Definition ex_init_run :=
  run ex_handler (__init__ ex_cfg (ex_typed "Config") None PNone) 0.
Definition ex_init_out := ok_or ex_init_run.2 (ex_config_self, 0).

Lemma init_admits_three_types_witness :
  parse_cfg ex_init_out.1 = ex_typed "Config"
  /\ channel_unit_cfg ex_init_out.1 = ex_cfg
  /\ _name2unit ex_init_out.1 = ∅ /\ units ex_init_out.1 = []
  /\ _custom_groups ex_init_out.1 = []
  /\ search_groups ex_init_out.1 = Raise (Exn AttributeError "_search_groups")
  /\ (is_dict (ex_typed "Config") = true ->
      exists ty,
        getitem_str "type" (ex_typed "Config") = Ok (PStr ty)
        /\ (ty = "ChannelAnalyzer" \/ ty = "Config" \/ ty = "Predefined")
        /\ forall supernet,
             (ty = "ChannelAnalyzer" ->
              discover ex_unit_name ex_init_out.1 supernet =
              pbind (_prepare_from_tracer ex_unit_name ex_init_out.1 supernet
                       (parse_cfg ex_init_out.1))
                    (fun units => Ret (units, ex_init_out.1)))
             /\ (ty = "Config" ->
                 discover ex_unit_name ex_init_out.1 supernet
                 = _prepare_from_cfg ex_init_out.1 supernet
                     (units_cfg ex_init_out.1))
             /\ (ty = "Predefined" ->
                 discover ex_unit_name ex_init_out.1 supernet
                 = _prepare_from_predefined_model ex_init_out.1 supernet)).
Proof.
  apply (init_admits_three_types ex_unit_name ex_handler ex_cfg
           (ex_typed "Config") None PNone 0 ex_init_out.2 ex_init_run.1).
  vm_compute. reflexivity.
Defined.

Definition ex_stale_self : t :=
  set_name2unit {["unit_5" := 5]} (ex_self (ex_typed "Predefined")).
Definition ex_stale_run :=
  run ex_handler (prepare_from_supernet ex_unit_name ex_stale_self 9) 0.
Definition ex_stale_out := ok_or ex_stale_run.2 (ex_stale_self, 0).

Lemma prepare_from_supernet_keeps_registry_witness :
  (forall k, k ∉ ex_unit_name <$> units ex_stale_out.1 ->
             _name2unit ex_stale_out.1 !! k = _name2unit ex_stale_self !! k)
  /\ parse_cfg ex_stale_out.1 = parse_cfg ex_stale_self
  /\ unit_class ex_stale_out.1 = unit_class ex_stale_self
  /\ _custom_groups ex_stale_out.1 = _custom_groups ex_stale_self
  /\ exists g mus,
       search_groups ex_stale_out.1 = Ok g
       /\ last ex_stale_run.1
          = Some (@Returned ext ans
                    (BuildSearchGroups mus (unit_class ex_stale_self)
                       (_custom_groups ex_stale_self)) g).
Proof.
  apply (prepare_from_supernet_keeps_registry ex_unit_name ex_handler
           ex_stale_self 9 0 ex_stale_out.2 ex_stale_run.1).
  vm_compute. reflexivity.
Defined.

Example stale_unit_example :
  _name2unit ex_stale_out.1 !! "unit_5" = Some 5
  /\ _name2unit ex_stale_out.1 !! "unit_20" = Some 20
  /\ units ex_stale_out.1 = [20; 21; 22].
Proof. repeat split; vm_compute; reflexivity. Qed.

End ChannelMutator.
